(** * HM3301 particulate matter sensor driver: a shallow embedding

    The development follows [src/modules/hm3301/hm3301.c].  C integers are
    modelled as [Z] with the conversions written out, the fixed-size arrays
    as [list Z] of bytes, and everything the C standard leaves undefined
    (a shift count outside the width of the type, an array access outside
    the array) as [None].  The bus adapter is an interface, the device
    structure carries a trace of the transfers, sleeps and log messages, and
    the operations run one after another: the lock that the driver holds
    around each of them is not modelled. *)

From Stdlib Require Import ZArith List Lia Bool.
Import ListNotations.
Local Open Scope Z_scope.

(** ** C integer arithmetic *)

Module CInt.

Definition u8 (z : Z) : Z := z mod 256.

(** Conversion to [int]: two's complement wrap-around (the kernel is
    built with wrapping signed arithmetic). *)
Definition s32 (z : Z) : Z := (z + 2 ^ 31) mod 2 ^ 32 - 2 ^ 31.

Definition add32 (a b : Z) : Z := s32 (a + b).
Definition sub32 (a b : Z) : Z := s32 (a - b).
Definition mul32 (a b : Z) : Z := s32 (a * b).

(** [a << n] and [a >> n] on [int]: undefined unless [0 <= n < 32];
    the right shift of a negative value is arithmetic. *)
Definition shl32 (a n : Z) : option Z :=
  if (0 <=? n) && (n <? 32) then Some (s32 (Z.shiftl a n)) else None.

Definition shr32 (a n : Z) : option Z :=
  if (0 <=? n) && (n <? 32) then Some (Z.shiftr a n) else None.

(** Modelled from the spec: [GENMASK] comes from linux/bits.h, which is
    not part of the sources; the spec's 23-bit mantissa is
    [val & GENMASK(22, 0)].  [GENMASK(h, l)] is
    [((~0UL) - (1UL << l) + 1) & (~0UL >> (BITS_PER_LONG - 1 - h))] on
    [unsigned long]; both shifts need a count below [BITS_PER_LONG]. *)
Definition GENMASK (BITS_PER_LONG h l : Z) : option Z :=
  let ones := 2 ^ BITS_PER_LONG - 1 in
  let c := BITS_PER_LONG - 1 - h in
  if (0 <=? l) && (l <? BITS_PER_LONG) && (0 <=? c) && (c <? BITS_PER_LONG)
  then Some (Z.land ((ones - Z.shiftl 1 l + 1) mod 2 ^ BITS_PER_LONG)
                    (Z.shiftr ones c))
  else None.

End CInt.
Import CInt.

(** ** Byte arrays *)

(** [buf[i]]: [None] outside the array. *)
Definition rd (buf : list Z) (i : Z) : option Z :=
  if i <? 0 then None else nth_error buf (Z.to_nat i).

(** [buf[i] = v]: [None] outside the array. *)
Fixpoint upd_nat (buf : list Z) (i : nat) (v : Z) : option (list Z) :=
  match buf, i with
  | [], _ => None
  | _ :: t, O => Some (v :: t)
  | h :: t, S j =>
      match upd_nat t j v with
      | Some t' => Some (h :: t')
      | None => None
      end
  end.

Definition wr (buf : list Z) (i : Z) (v : Z) : option (list Z) :=
  if i <? 0 then None else upd_nat buf (Z.to_nat i) v.

(** Modelled from the spec: [get_unaligned_be32] and [put_unaligned_be32]
    come from asm/unaligned.h, which is not part of the sources: a 4-byte
    big-endian integer at [fp[0..3]]. *)
Definition get_unaligned_be32 (fp : list Z) : option Z :=
  match fp with
  | b0 :: b1 :: b2 :: b3 :: _ =>
      Some (Z.lor (Z.shiftl b0 24)
              (Z.lor (Z.shiftl b1 16) (Z.lor (Z.shiftl b2 8) b3)))
  | _ => None
  end.

Definition put_unaligned_be32 (val : Z) : list Z :=
  [u8 (Z.shiftr val 24); u8 (Z.shiftr val 16); u8 (Z.shiftr val 8); u8 val].

(** ** Checksum *)

Definition HM3301_CRC8_POLYNOMIAL : Z := 0x31.
Definition CRC8_INIT_VALUE : Z := 0xff.

(** Modelled from the spec: [crc8] and [crc8_populate_msb] come from
    linux/crc8.h, which is not part of the sources.  The spec's checksum is
    the 8-bit CRC with polynomial 0x31, most significant bit first, started
    from the fixed initial value for every 2-byte word. *)
Definition crc8_bit (polynomial crc : Z) : Z :=
  if Z.testbit crc 7
  then Z.lxor (u8 (Z.shiftl crc 1)) polynomial
  else u8 (Z.shiftl crc 1).

Definition crc8_byte (polynomial crc b : Z) : Z :=
  Nat.iter 8 (crc8_bit polynomial) (u8 (Z.lxor crc b)).

Definition crc8 (pdata : list Z) (crc : Z) : Z :=
  fold_left (crc8_byte HM3301_CRC8_POLYNOMIAL) pdata crc.

(** [crc8(hm3301_crc8_table, &buf[i], 2, CRC8_INIT_VALUE)] *)
Definition crc8_at (buf : list Z) (i : Z) : option Z :=
  match rd buf i, rd buf (i + 1) with
  | Some a, Some b => Some (crc8 [a; b] CRC8_INIT_VALUE)
  | _, _ => None
  end.

(** ** Float decoder *)

Definition HM3301_MAX_PM : Z := 3000.

Notation "x <- c1 ;; c2" :=
  (match c1 with Some x => c2 | None => None end)
  (at level 61, c1 at next level, right associativity).

Section FloatDecoder.

(** Width of [unsigned long], 32 or 64 depending on the target. *)
Variable BITS_PER_LONG : Z.

Definition float_to_int_clamped_on (fp : list Z) : option Z :=
  be <- get_unaligned_be32 fp ;;
  let val := s32 be in
  m23 <- GENMASK BITS_PER_LONG 22 0 ;;
  let mantissa := s32 (Z.land val m23) in
  exp <- shr32 val 23 ;;
  (* special case 0 *)
  if (exp =? 0) && (mantissa =? 0) then Some 0 else
  let exp := sub32 exp 127 in
  if exp <? 0 then
    (* return values ranging from 1 to 99 *)
    one <- shl32 1 23 ;;
    hundredths <- shr32 (mul32 (add32 one mantissa) 100) 23 ;;
    shr32 hundredths (s32 (- exp))
  else
    (* return values ranging from 100 to 300000 *)
    let shift := sub32 23 exp in
    hi <- shl32 1 exp ;;
    lo <- shr32 mantissa shift ;;
    let val := add32 hi lo in
    if val >=? HM3301_MAX_PM then Some (mul32 HM3301_MAX_PM 100) else
    msk <- GENMASK BITS_PER_LONG (shift - 1) 0 ;;
    let fraction := s32 (Z.land mantissa msk) in
    frac <- shr32 (mul32 fraction 100) shift ;;
    Some (add32 (mul32 val 100) frac).

End FloatDecoder.

Definition float_to_int_clamped : list Z -> option Z :=
  float_to_int_clamped_on 64.

(** ** Bus transport and driver state *)

Definition EIO : Z := 5.
Definition EINVAL : Z := 22.
Definition ETIMEDOUT : Z := 110.

Definition HM3301_MAX_READ_SIZE : Z := 48.
Definition HM3301_AUTO_CLEANING_PERIOD_MIN : Z := 0.
Definition HM3301_AUTO_CLEANING_PERIOD_MAX : Z := 604800.

Definition HM3301_START_MEAS : Z := 0x0010.
Definition HM3301_STOP_MEAS : Z := 0x0104.
Definition HM3301_RESET : Z := 0xd304.
Definition HM3301_READ_DATA_READY_FLAG : Z := 0x0202.
Definition HM3301_READ_DATA : Z := 0x0300.
Definition HM3301_READ_SERIAL : Z := 0xd033.
Definition HM3301_START_FAN_CLEANING : Z := 0x5607.
Definition HM3301_AUTO_CLEANING_PERIOD : Z := 0x8004.
Definition HM3301_READ_AUTO_CLEANING_PERIOD : Z := 0x8005.

(** A pointer to a byte array is the list of the array's bytes; the null
    pointer is the empty list, so that every access through it is
    undefined. *)
Definition NULL : list Z := [].

Definition is_null (p : list Z) : bool :=
  match p with [] => true | _ => false end.

Inductive dev_state : Type := RESET | MEASURING.

(** What the driver does to the outside world, in order: transfers,
    sleeps ([msleep] and [msleep_interruptible]) and log messages. *)
Inductive event : Type :=
| I2cSend (frame : list Z)
| I2cRecv (count : Z)
| Msleep (msecs : Z)
| DevErr
| DevWarn.

(** The bus adapter: [i2c_master_send] gets the bytes to transmit and
    answers with its return value; [i2c_master_recv] gets the byte count
    and answers with its return value and the bytes it stored. *)
Class I2C (Bus : Type) : Type := {
  i2c_master_send : Bus -> list Z -> Z * Bus;
  i2c_master_recv : Bus -> Z -> Z * list Z * Bus
}.

(** The device structure: the bus client, the state field, and the trace
    of what the driver has done so far (not a field of the C structure). *)
Record hm3301_state (Bus : Type) : Type := mk_state {
  client : Bus;
  state : dev_state;
  trace : list event
}.
Arguments mk_state {Bus} _ _ _.
Arguments client {Bus} _.
Arguments state {Bus} _.
Arguments trace {Bus} _.

(** The bytes [src] stored at the start of the array [dst]. *)
Definition overlay (src dst : list Z) : list Z :=
  src ++ skipn (length src) dst.

Section Driver.

Context {Bus : Type} `{I2C Bus}.

(** Driver code runs on the device structure; [None] is undefined
    behaviour. *)
Definition M (A : Type) : Type :=
  hm3301_state Bus -> option (A * hm3301_state Bus).

Definition ret {A} (a : A) : M A := fun w => Some (a, w).

Definition bind {A B} (c : M A) (k : A -> M B) : M B :=
  fun w => match c w with
           | Some (a, w') => k a w'
           | None => None
           end.

Definition lift {A} (o : option A) : M A :=
  fun w => match o with Some a => Some (a, w) | None => None end.

Definition emit (e : event) : M unit :=
  fun w => Some (tt, mk_state (client w) (state w) (trace w ++ [e])).

Definition get_state : M dev_state := fun w => Some (state w, w).

Definition set_state (s : dev_state) : M unit :=
  fun w => Some (tt, mk_state (client w) s (trace w)).

Definition msleep (msecs : Z) : M unit := emit (Msleep msecs).

Definition send (txbuf : list Z) (txsize : Z) : M Z :=
  fun w =>
    if (txsize <? 0) || (Z.of_nat (length txbuf) <? txsize) then None else
    let frame := firstn (Z.to_nat txsize) txbuf in
    let '(r, bus) := i2c_master_send (client w) frame in
    Some (r, mk_state bus (state w) (trace w ++ [I2cSend frame])).

Definition recv (rxbuf : list Z) (rxsize : Z) : M (Z * list Z) :=
  fun w =>
    if (rxsize <? 0) || (Z.of_nat (length rxbuf) <? rxsize) then None else
    let '(r, bytes, bus) := i2c_master_recv (client w) rxsize in
    Some ((r, overlay (firstn (Z.to_nat rxsize) bytes) rxbuf),
          mk_state bus (state w) (trace w ++ [I2cRecv rxsize])).

End Driver.

Arguments M : clear implicits.

Notation "x <~ c ;; k" := (bind c (fun x => k))
  (at level 61, c at next level, right associativity).
Notation "' p <~ c ;; k" := (bind c (fun x => let 'p := x in k))
  (at level 61, p pattern, c at next level, right associativity).

(** ** Command dispatch *)

(** The loop [for (i = 0; i < size; i += 3)] runs once for every multiple
    of three below [size]. *)
Definition loop_trips (size : Z) : nat := Z.to_nat ((size + 2) / 3).

(** The body of the validation loop of [hm3301_do_cmd], [n] more times:
    [i] is the loop index and [dp] the position the [data] pointer has
    advanced to. *)
Fixpoint strip_crc (n : nat) (buf : list Z) (i : Z) (data : list Z) (dp : Z)
  : option (Z * list Z) :=
  match n with
  | O => Some (0, data)
  | S n' =>
      crc <- crc8_at buf i ;;
      c <- rd buf (i + 2) ;;
      if negb (crc =? c) then Some (- EIO, data) else
      b0 <- rd buf i ;;
      data <- wr data dp b0 ;;
      b1 <- rd buf (i + 1) ;;
      data <- wr data (dp + 1) b1 ;;
      strip_crc n' buf (i + 3) data (dp + 2)
  end.

(** [ret < 0 ? ret : -EIO] *)
Definition errno_of (r : Z) : Z := if r <? 0 then r else - EIO.

(** [u8 buf[HM3301_MAX_READ_SIZE] = { cmd >> 8, cmd }]: the remaining
    bytes are zero. *)
Definition frame_buf (cmd : Z) : list Z :=
  u8 (Z.shiftr cmd 8) :: u8 cmd
  :: repeat 0 (Z.to_nat HM3301_MAX_READ_SIZE - 2).

Section Commands.

Context {Bus : Type} `{I2C Bus}.

Definition hm3301_write_then_read (txbuf : list Z) (txsize : Z)
    (rxbuf : list Z) (rxsize : Z) : M Bus (Z * list Z) :=
  r <~ send txbuf txsize ;;
  if negb (r =? txsize) then ret (errno_of r, rxbuf) else
  if is_null rxbuf then ret (0, rxbuf) else
  '(r, rxbuf) <~ recv rxbuf rxsize ;;
  if negb (r =? rxsize) then ret (errno_of r, rxbuf) else
  ret (0, rxbuf).

(** The [switch] of [hm3301_do_cmd]: the frame buffer, [ret] and [size]
    after it. *)
Definition do_cmd_switch (cmd : Z) (data : list Z) (size : Z)
    (buf : list Z) : M Bus (Z * list Z * Z) :=
  if cmd =? HM3301_START_MEAS then
    buf <~ lift (wr buf 2 0x03) ;;
    buf <~ lift (wr buf 3 0x00) ;;
    c <~ lift (crc8_at buf 2) ;;
    buf <~ lift (wr buf 4 c) ;;
    '(r, _) <~ hm3301_write_then_read buf 5 NULL 0 ;;
    ret (r, buf, size)
  else if (cmd =? HM3301_STOP_MEAS) || (cmd =? HM3301_RESET)
          || (cmd =? HM3301_START_FAN_CLEANING) then
    '(r, _) <~ hm3301_write_then_read buf 2 NULL 0 ;;
    ret (r, buf, size)
  else if (cmd =? HM3301_READ_AUTO_CLEANING_PERIOD)
          || (cmd =? HM3301_READ_DATA_READY_FLAG)
          || (cmd =? HM3301_READ_DATA) || (cmd =? HM3301_READ_SERIAL) then
    buf <~ (if cmd =? HM3301_READ_AUTO_CLEANING_PERIOD then
              buf <~ lift (wr buf 0
                             (u8 (Z.shiftr HM3301_AUTO_CLEANING_PERIOD 8))) ;;
              lift (wr buf 1 (u8 (Z.land HM3301_AUTO_CLEANING_PERIOD 0xff)))
            else ret buf) ;;
    (* every two data bytes are checksummed *)
    let size := add32 size (Z.quot size 2) in
    '(r, buf) <~ hm3301_write_then_read buf 2 buf size ;;
    ret (r, buf, size)
  else if cmd =? HM3301_AUTO_CLEANING_PERIOD then
    d0 <~ lift (rd data 0) ;;
    buf <~ lift (wr buf 2 d0) ;;
    d1 <~ lift (rd data 1) ;;
    buf <~ lift (wr buf 3 d1) ;;
    c <~ lift (crc8_at buf 2) ;;
    buf <~ lift (wr buf 4 c) ;;
    d2 <~ lift (rd data 2) ;;
    buf <~ lift (wr buf 5 d2) ;;
    d3 <~ lift (rd data 3) ;;
    buf <~ lift (wr buf 6 d3) ;;
    c <~ lift (crc8_at buf 5) ;;
    buf <~ lift (wr buf 7 c) ;;
    '(r, _) <~ hm3301_write_then_read buf 8 NULL 0 ;;
    ret (r, buf, size)
  else ret (0, buf, size).

(** [hm3301_do_cmd]: the return value and the caller's [data] array
    afterwards.  [dev_err] is recorded when the validation loop has
    returned [-EIO]. *)
Definition hm3301_do_cmd (cmd : Z) (data : list Z) (size : Z)
    : M Bus (Z * list Z) :=
  '(r, buf, size) <~ do_cmd_switch cmd data size (frame_buf cmd) ;;
  if negb (r =? 0) then ret (r, data) else
  (* validate received data and strip off crc bytes *)
  '(r, data) <~ lift (strip_crc (loop_trips size) buf 0 data 0) ;;
  if negb (r =? 0) then _ <~ emit DevErr ;; ret (r, data) else
  ret (0, data).

(** ** Measurements *)

(** The polling loop [while (tries--)] of [hm3301_do_meas]: an early
    return value if there is one, [tries] after the loop, and [tmp]. *)
Fixpoint poll_ready (tries : nat) (tmp : list Z)
    : M Bus (option Z * Z * list Z) :=
  match tries with
  | O => ret (None, -1, tmp)
  | S t =>
      '(r, tmp) <~ hm3301_do_cmd HM3301_READ_DATA_READY_FLAG tmp 2 ;;
      if negb (r =? 0) then ret (Some (- EIO), Z.of_nat t, tmp) else
      ready <~ lift (rd tmp 1) ;;
      (* new measurements ready to be read *)
      if ready =? 1 then ret (None, Z.of_nat t, tmp) else
      _ <~ msleep 300 ;;
      poll_ready t tmp
  end.

(** [for (i = 0; i < size; i++) data[i] = ...], [n] more times. *)
Fixpoint decode_channels (n : nat) (tmp : list Z) (i : Z) (data : list Z)
    : option (list Z) :=
  match n with
  | O => Some data
  | S n' =>
      v <- float_to_int_clamped (skipn (Z.to_nat (4 * i)) tmp) ;;
      data <- wr data i v ;;
      decode_channels n' tmp (i + 1) data
  end.

(** [hm3301_do_meas] from the polling loop on. *)
Definition do_meas_poll_and_read (data : list Z) (size : Z)
    : M Bus (Z * list Z) :=
  let tmp := repeat 0 16%nat in
  '(early, tries, tmp) <~ poll_ready 5 tmp ;;
  match early with
  | Some r => ret (r, data)
  | None =>
      if tries =? -1 then ret (- ETIMEDOUT, data) else
      '(r, tmp) <~ hm3301_do_cmd HM3301_READ_DATA tmp (mul32 4 size) ;;
      if negb (r =? 0) then ret (r, data) else
      data <~ lift (decode_channels (Z.to_nat size) tmp 0 data) ;;
      ret (0, data)
  end.

(** The return value and the caller's [data] array afterwards. *)
Definition hm3301_do_meas (data : list Z) (size : Z) : M Bus (Z * list Z) :=
  st <~ get_state ;;
  started <~ (match st with
              | RESET =>
                  '(r, _) <~ hm3301_do_cmd HM3301_START_MEAS NULL 0 ;;
                  if negb (r =? 0) then ret (Some r) else
                  _ <~ set_state MEASURING ;;
                  ret None
              | MEASURING => ret None
              end) ;;
  match started with
  | Some r => ret (r, data)
  | None => do_meas_poll_and_read data size
  end.

(** ** Reset and the cleaning controls *)

Definition hm3301_do_cmd_reset : M Bus Z :=
  '(r, _) <~ hm3301_do_cmd HM3301_RESET NULL 0 ;;
  _ <~ msleep 300 ;;
  _ <~ hm3301_do_cmd HM3301_STOP_MEAS NULL 0 ;;
  _ <~ set_state RESET ;;
  ret r.

(** [val] is what [kstrtoint] parsed, [None] when it failed. *)
Definition start_cleaning_store (val : option Z) (len : Z) : M Bus Z :=
  match val with
  | None => ret (- EINVAL)
  | Some v =>
      if negb (v =? 1) then ret (- EINVAL) else
      '(r, _) <~ hm3301_do_cmd HM3301_START_FAN_CLEANING NULL 0 ;;
      if negb (r =? 0) then ret r else ret len
  end.

(** The error, or the number [sprintf] prints. *)
Definition cleaning_period_show : M Bus (Z + Z) :=
  let tmp := repeat 0 4%nat in
  '(r, tmp) <~ hm3301_do_cmd HM3301_READ_AUTO_CLEANING_PERIOD tmp 4 ;;
  if negb (r =? 0) then ret (inl r) else
  v <~ lift (get_unaligned_be32 tmp) ;;
  ret (inr (s32 v)).

Definition cleaning_period_store (val : option Z) (len : Z) : M Bus Z :=
  match val with
  | None => ret (- EINVAL)
  | Some v =>
      if (v <? HM3301_AUTO_CLEANING_PERIOD_MIN)
         || (v >? HM3301_AUTO_CLEANING_PERIOD_MAX) then ret (- EINVAL) else
      let tmp := put_unaligned_be32 v in
      '(r, _) <~ hm3301_do_cmd HM3301_AUTO_CLEANING_PERIOD tmp 0 ;;
      if negb (r =? 0) then ret r else
      _ <~ msleep 20 ;;
      (* sensor requires reset in order to return up to date self
         cleaning period *)
      r <~ hm3301_do_cmd_reset ;;
      _ <~ (if negb (r =? 0) then emit DevWarn else ret tt) ;;
      ret len
  end.

Definition hm3301_stop_meas : M Bus unit :=
  _ <~ hm3301_do_cmd HM3301_STOP_MEAS NULL 0 ;;
  ret tt.

(** The part of [hm3301_probe] that talks to the sensor: the state
    starts as [RESET], the device is reset and its serial number read. *)
Definition hm3301_probe (bus : Bus) : option (Z * hm3301_state Bus) :=
  let buf := repeat 0 32%nat in
  (r <~ hm3301_do_cmd_reset ;;
   if negb (r =? 0) then _ <~ emit DevErr ;; ret r else
   '(r, buf) <~ hm3301_do_cmd HM3301_READ_SERIAL buf 32 ;;
   if negb (r =? 0) then _ <~ emit DevErr ;; ret r else
   ret 0) (mk_state bus RESET []).

End Commands.

(** ** A scripted bus

    The adapter answers the driver's transfers from a list, one answer per
    transfer: the return value and, for a receive, the bytes stored.  Once
    the list is used up every transfer fails. *)

Definition script : Type := list (Z * list Z).

#[export] Instance script_I2C : I2C script := {
  i2c_master_send bus _ :=
    match bus with
    | [] => (- EIO, [])
    | (r, _) :: rest => (r, rest)
    end;
  i2c_master_recv bus _ :=
    match bus with
    | [] => (- EIO, [], [])
    | (r, bytes) :: rest => (r, bytes, rest)
    end
}.

(** A response as the sensor frames it: every two data bytes followed by
    their checksum. *)
Fixpoint framed (bytes : list Z) : list Z :=
  match bytes with
  | a :: b :: rest => a :: b :: crc8 [a; b] CRC8_INIT_VALUE :: framed rest
  | _ => []
  end.

(** ** Vocabulary of the statements *)

(** The first [n] 3-byte groups of a response: two data bytes and their
    checksum byte. *)
Fixpoint groups (n : nat) (buf : list Z) : list (Z * Z * Z) :=
  match n, buf with
  | S n', a :: b :: c :: rest => (a, b, c) :: groups n' rest
  | _, _ => []
  end.

Definition group_ok (g : Z * Z * Z) : bool :=
  let '(a, b, c) := g in crc8 [a; b] CRC8_INIT_VALUE =? c.

(** The groups before the first one whose checksum does not match. *)
Fixpoint good_prefix (gs : list (Z * Z * Z)) : list (Z * Z * Z) :=
  match gs with
  | g :: rest => if group_ok g then g :: good_prefix rest else []
  | [] => []
  end.

Fixpoint data_bytes (gs : list (Z * Z * Z)) : list Z :=
  match gs with
  | (a, b, _) :: rest => a :: b :: data_bytes rest
  | [] => []
  end.


Section Frames.

Context {Bus : Type} `{I2C Bus}.

(** A piece of driver code that leaves the [state] field alone and only
    adds to the trace. *)
Definition keeps {A} (c : M Bus A) : Prop :=
  forall w a w', c w = Some (a, w') ->
    state w' = state w /\ exists evs, trace w' = trace w ++ evs.

(** The device structure after [bus] has done the transfers [evs]. *)
Definition after (w : hm3301_state Bus) (bus : Bus) (evs : list event)
    : hm3301_state Bus :=
  mk_state bus (state w) (trace w ++ evs).

End Frames.

(** The three groups of cases of the [switch] in [hm3301_do_cmd]. *)
Definition is_plain_cmd (cmd : Z) : bool :=
  (cmd =? HM3301_STOP_MEAS) || (cmd =? HM3301_RESET)
  || (cmd =? HM3301_START_FAN_CLEANING).

Definition is_read_cmd (cmd : Z) : bool :=
  (cmd =? HM3301_READ_AUTO_CLEANING_PERIOD)
  || (cmd =? HM3301_READ_DATA_READY_FLAG)
  || (cmd =? HM3301_READ_DATA) || (cmd =? HM3301_READ_SERIAL).

Definition is_write_cmd (cmd : Z) : bool :=
  (cmd =? HM3301_START_MEAS) || is_plain_cmd cmd
  || (cmd =? HM3301_AUTO_CLEANING_PERIOD).

(** The two command bytes a read command puts on the bus. *)
Definition read_frame (cmd : Z) : list Z :=
  if cmd =? HM3301_READ_AUTO_CLEANING_PERIOD
  then [u8 (Z.shiftr HM3301_AUTO_CLEANING_PERIOD 8);
        u8 (Z.land HM3301_AUTO_CLEANING_PERIOD 0xff)]
  else [u8 (Z.shiftr cmd 8); u8 cmd].

(** The frame of the start command and of a cleaning period write. *)
Definition start_frame : list Z :=
  [0x00; 0x10; 0x03; 0x00; crc8 [0x03; 0x00] CRC8_INIT_VALUE].

Definition period_frame (d0 d1 d2 d3 : Z) : list Z :=
  [0x80; 0x04; d0; d1; crc8 [d0; d1] CRC8_INIT_VALUE;
   d2; d3; crc8 [d2; d3] CRC8_INIT_VALUE].

(** The read commands the driver issues: the command, the [size] argument
    and the length of the array passed as [data].  [hm3301_do_meas] polls
    the flag into [tmp[16]] and reads [sizeof(int) * size] bytes for
    [size] from 1 to 4 channels, [cleaning_period_show] reads into
    [tmp[4]] and [hm3301_probe] into [buf[32]]. *)
Definition issued_reads : list (Z * Z * nat) :=
  [ (HM3301_READ_DATA_READY_FLAG, 2, 16%nat);
    (HM3301_READ_DATA, 4, 16%nat);
    (HM3301_READ_DATA, 8, 16%nat);
    (HM3301_READ_DATA, 12, 16%nat);
    (HM3301_READ_DATA, 16, 16%nat);
    (HM3301_READ_AUTO_CLEANING_PERIOD, 4, 4%nat);
    (HM3301_READ_SERIAL, 32, 32%nat) ].

(** The operations of the driver on the device structure. *)
Inductive op : Type :=
| OpCmd (cmd : Z) (data : list Z) (size : Z)
| OpMeas (data : list Z) (size : Z)
| OpReset
| OpStartCleaning (val : option Z) (len : Z)
| OpPeriodShow
| OpPeriodStore (val : option Z) (len : Z)
| OpStopMeas.

Section Operations.

Context {Bus : Type} `{I2C Bus}.

(** The return value of an operation. *)
Definition run_op (o : op) : M Bus Z :=
  match o with
  | OpCmd cmd data size =>
      '(r, _) <~ hm3301_do_cmd cmd data size ;; ret r
  | OpMeas data size =>
      '(r, _) <~ hm3301_do_meas data size ;; ret r
  | OpReset => hm3301_do_cmd_reset
  | OpStartCleaning val len => start_cleaning_store val len
  | OpPeriodShow =>
      r <~ cleaning_period_show ;;
      ret (match r with inl e => e | inr _ => 0 end)
  | OpPeriodStore val len => cleaning_period_store val len
  | OpStopMeas => _ <~ hm3301_stop_meas ;; ret 0
  end.

(** The adapter answers the next [n] polls of the ready flag with a
    checked response whose flag byte is not 1, and is then [bus_end]. *)
Fixpoint polls_not_ready (n : nat) (bus bus_end : Bus) : Prop :=
  match n with
  | O => bus_end = bus
  | S n' =>
      exists bus1 a b rest bus2,
        i2c_master_send bus [0x02; 0x02] = (2, bus1)
        /\ i2c_master_recv bus1 3
           = (3, a :: b :: crc8 [a; b] CRC8_INIT_VALUE :: rest, bus2)
        /\ b <> 1
        /\ polls_not_ready n' bus2 bus_end
  end.

End Operations.

(** One poll of the ready flag that finds it clear. *)
Definition poll_events : list event :=
  [I2cSend [0x02; 0x02]; I2cRecv 3; Msleep 300].

Definition is_sleep (e : event) : bool :=
  match e with Msleep _ => true | _ => false end.

Definition is_flag_read (e : event) : bool :=
  match e with
  | I2cSend [0x02; 0x02] => true
  | _ => false
  end.

(** The bit pattern [bits] is a single-precision number nearest to
    [num / den] (for [den > 0]): zero for zero, and otherwise a normal number
    [m * 2 ^ e] within half a unit in the last place. *)
Definition f32_rounds (num den bits : Z) : bool :=
  if bits =? 0 then num =? 0 else
  let m := 2 ^ 23 + Z.land bits (Z.ones 23) in
  let e := Z.shiftr bits 23 - 150 in
  (0 <? Z.shiftr bits 23) && (Z.shiftr bits 23 <? 255)
  && (2 * Z.abs (m * 2 ^ Z.max e 0 * den - num * 2 ^ Z.max (- e) 0)
      <=? den * 2 ^ Z.max e 0).

(** The four channels of the end-to-end example: 12.34, 0.0, 3500.0 and
    45.6 as big-endian single-precision numbers. *)
Definition example_channels : list Z :=
  [0x41; 0x45; 0x70; 0xA4;  0x00; 0x00; 0x00; 0x00;
   0x45; 0x5A; 0xC0; 0x00;  0x42; 0x36; 0x66; 0x66].

(** A sensor that acknowledges the start command, reports fresh data at
    the first poll and then delivers [example_channels]. *)
Definition example_sensor : script :=
  [ (5, []);
    (2, []); (3, framed [0x00; 0x01]);
    (2, []); (24, framed example_channels) ].

(** A sensor that acknowledges the start command and never reports fresh
    data. *)
Definition idle_sensor : script :=
  (5, []) :: concat (repeat [(2, []); (3, framed [0x00; 0x00])] 6).

(** The fields of a single-precision bit pattern with a clear sign bit:
    the 23-bit mantissa and the exponent without its bias. *)
Definition f32_mantissa (bits : Z) : Z := Z.land bits (Z.ones 23).

Definition f32_exponent (bits : Z) : Z := Z.shiftr bits 23 - 127.

(** The bit pattern of channel [i] in a measurement response. *)
Definition channel_bits (tmp : list Z) (i : nat) : option Z :=
  get_unaligned_be32 (skipn (4 * i) tmp).

(** ** Channels and the host framework's entry points *)

(** Modelled from the spec: the channel descriptions and the codes that
    [hm3301_read_raw] switches on come from the linux/iio headers, which are
    not part of the sources.  Each enumeration has the values the driver
    names and one more for all the others. *)
Inductive iio_chan_info : Type :=
| IIO_CHAN_INFO_PROCESSED
| IIO_CHAN_INFO_SCALE
| IIO_CHAN_INFO_OTHER.

Inductive iio_chan_type : Type :=
| IIO_MASSCONCENTRATION
| IIO_TIMESTAMP.

Inductive iio_modifier : Type :=
| IIO_NO_MOD
| IIO_MOD_PM1
| IIO_MOD_PM2P5
| IIO_MOD_PM4
| IIO_MOD_PM10.

Definition IIO_VAL_INT_PLUS_MICRO : Z := 2.
Definition IRQ_HANDLED : Z := 1.

Record iio_chan_spec : Type := mk_chan {
  chan_type : iio_chan_type;
  channel2 : iio_modifier;
  address : Z;
  scan_index : Z;
  realbits : Z;
  storagebits : Z
}.

(** [enum { PM1, PM2P5, PM4, PM10 }] *)
Definition PM1 : Z := 0.
Definition PM2P5 : Z := 1.
Definition PM4 : Z := 2.
Definition PM10 : Z := 3.

(** [HM3301_CHAN(_index, _mod)] *)
Definition HM3301_CHAN (index : Z) (modifier : iio_modifier) (mod_enum : Z)
  : iio_chan_spec :=
  mk_chan IIO_MASSCONCENTRATION modifier mod_enum index 19 32.

Definition hm3301_channels : list iio_chan_spec :=
  [ HM3301_CHAN 0 IIO_MOD_PM1 PM1;
    HM3301_CHAN 1 IIO_MOD_PM2P5 PM2P5;
    HM3301_CHAN 2 IIO_MOD_PM4 PM4;
    HM3301_CHAN 3 IIO_MOD_PM10 PM10;
    mk_chan IIO_TIMESTAMP IIO_NO_MOD 0 4 64 64 ].

Section HostEntryPoints.

Context {Bus : Type} `{I2C Bus}.

(** [hm3301_read_raw]: the return value, [*val] and [*val2] afterwards.
  [data] is what the local array [int data[4]] happens to hold on
  entry. *)
Definition hm3301_read_raw (data : list Z) (chan : iio_chan_spec)
  (val val2 : Z) (mask : iio_chan_info) : M Bus (Z * Z * Z) :=
match mask with
| IIO_CHAN_INFO_PROCESSED =>
    match chan_type chan with
    | IIO_MASSCONCENTRATION =>
        (* read up to the number of bytes actually needed *)
        '(r, data) <~ (match channel2 chan with
                       | IIO_MOD_PM1 => hm3301_do_meas data 1
                       | IIO_MOD_PM2P5 => hm3301_do_meas data 2
                       | IIO_MOD_PM4 => hm3301_do_meas data 3
                       | IIO_MOD_PM10 => hm3301_do_meas data 4
                       | IIO_NO_MOD => ret (- EINVAL, data)
                       end) ;;
        if negb (r =? 0) then ret (r, val, val2) else
        sample <~ lift (rd data (address chan)) ;;
        ret (IIO_VAL_INT_PLUS_MICRO,
             Z.quot sample 100, mul32 (Z.rem sample 100) 10000)
    | IIO_TIMESTAMP => ret (- EINVAL, val, val2)
    end
| IIO_CHAN_INFO_SCALE =>
    match chan_type chan with
    | IIO_MASSCONCENTRATION =>
        match channel2 chan with
        | IIO_MOD_PM1 | IIO_MOD_PM2P5 | IIO_MOD_PM4 | IIO_MOD_PM10 =>
            ret (IIO_VAL_INT_PLUS_MICRO, 0, 10000)
        | IIO_NO_MOD => ret (- EINVAL, val, val2)
        end
    | IIO_TIMESTAMP => ret (- EINVAL, val, val2)
    end
| IIO_CHAN_INFO_OTHER => ret (- EINVAL, val, val2)
end.

(** [hm3301_trigger_handler]: the return value and the scan that is
  pushed to the buffers, if one is.  [data] is what [scan.data] happens to
  hold on entry and [ts] what [iio_get_time_ns] returns. *)
Definition hm3301_trigger_handler (data : list Z) (ts : Z)
  : M Bus (Z * option (list Z * Z)) :=
'(r, data) <~ hm3301_do_meas data 4 ;;
if negb (r =? 0) then ret (IRQ_HANDLED, None) else
ret (IRQ_HANDLED, Some (data, ts)).

End HostEntryPoints.

(** ** More vocabulary *)

(** The value [x] with bit [i] inverted. *)
Definition flip (x i : Z) : Z := Z.lxor x (2 ^ i).

(** A group that differs from another in one bit of one of its bytes. *)
Inductive one_bit_off : Z * Z * Z -> Z * Z * Z -> Prop :=
| off_first a b c i : 0 <= i < 8 -> one_bit_off (a, b, c) (flip a i, b, c)
| off_second a b c i : 0 <= i < 8 -> one_bit_off (a, b, c) (a, flip b i, c)
| off_check a b c i : 0 <= i < 8 -> one_bit_off (a, b, c) (a, b, flip c i).

(** The bytes of a list of groups, in order. *)
Fixpoint frame_of (gs : list (Z * Z * Z)) : list Z :=
  match gs with
  | (a, b, c) :: rest => a :: b :: c :: frame_of rest
  | [] => []
  end.

(** The events of the polls of a measurement that finds fresh data at
    poll [k + 1]. *)
Definition ready_after (k : nat) : list event :=
  concat (repeat poll_events k) ++ [I2cSend [0x02; 0x02]; I2cRecv 3].
(** * Properties *)

(** ** C integers and arrays *)

Lemma s32_small (z : Z) : - 2 ^ 31 <= z < 2 ^ 31 -> s32 z = z.
Proof.
  intros Hz. unfold s32. rewrite Z.mod_small; lia.
Qed.

Lemma GENMASK_low (bpl h : Z) :
  0 <= h < bpl -> GENMASK bpl h 0 = Some (Z.ones (h + 1)).
Proof.
  intros Hh. unfold GENMASK.
  replace ((0 <=? 0) && (0 <? bpl) && (0 <=? bpl - 1 - h)
           && (bpl - 1 - h <? bpl)) with true
    by (symmetry; rewrite !andb_true_iff; repeat split; lia).
  f_equal.
  assert (Hp : 0 < 2 ^ bpl) by (apply Z.pow_pos_nonneg; lia).
  change (Z.shiftl 1 0) with 1.
  replace (2 ^ bpl - 1 - 1 + 1) with (2 ^ bpl - 1) by lia.
  rewrite Z.mod_small by lia.
  replace (2 ^ bpl - 1) with (Z.ones bpl) by (rewrite Z.ones_equiv; lia).
  apply Z.bits_inj'. intros n Hn.
  rewrite Z.land_spec, Z.shiftr_spec by lia.
  destruct (Z.ltb_spec n (h + 1)).
  - rewrite !Z.ones_spec_low by lia. reflexivity.
  - rewrite (Z.ones_spec_high (h + 1)) by lia.
    rewrite (Z.ones_spec_high bpl (n + (bpl - 1 - h))) by lia.
    apply andb_false_r.
Qed.

Lemma rd_app (pre l : list Z) (k : Z) :
  0 <= k -> rd (pre ++ l) (Z.of_nat (length pre) + k) = rd l k.
Proof.
  intros Hk. unfold rd.
  destruct (Z.ltb_spec (Z.of_nat (length pre) + k) 0); [lia|].
  destruct (Z.ltb_spec k 0); [lia|].
  replace (Z.to_nat (Z.of_nat (length pre) + k))
    with (length pre + Z.to_nat k)%nat by lia.
  clear. induction pre as [|x pre IH]; simpl; auto.
Qed.

Lemma upd_nat_app (pre l : list Z) (k : nat) (v : Z) :
  upd_nat (pre ++ l) (length pre + k) v
  = match upd_nat l k v with Some l' => Some (pre ++ l') | None => None end.
Proof.
  induction pre as [|x pre IH]; simpl.
  - destruct (upd_nat l k v); reflexivity.
  - rewrite IH. destruct (upd_nat l k v); reflexivity.
Qed.

Lemma wr_app (pre l : list Z) (k v : Z) :
  0 <= k ->
  wr (pre ++ l) (Z.of_nat (length pre) + k) v
  = match wr l k v with Some l' => Some (pre ++ l') | None => None end.
Proof.
  intros Hk. unfold wr.
  destruct (Z.ltb_spec (Z.of_nat (length pre) + k) 0); [lia|].
  destruct (Z.ltb_spec k 0); [lia|].
  replace (Z.to_nat (Z.of_nat (length pre) + k))
    with (length pre + Z.to_nat k)%nat by lia.
  apply upd_nat_app.
Qed.

Lemma rd_at0 (pre l : list Z) (a : Z) :
  rd (pre ++ a :: l) (Z.of_nat (length pre)) = Some a.
Proof.
  rewrite <- (Z.add_0_r (Z.of_nat (length pre))).
  rewrite rd_app by lia. reflexivity.
Qed.

Lemma rd_at1 (pre l : list Z) (a b : Z) :
  rd (pre ++ a :: b :: l) (Z.of_nat (length pre) + 1) = Some b.
Proof. rewrite rd_app by lia. reflexivity. Qed.

Lemma rd_at2 (pre l : list Z) (a b c : Z) :
  rd (pre ++ a :: b :: c :: l) (Z.of_nat (length pre) + 2) = Some c.
Proof. rewrite rd_app by lia. reflexivity. Qed.

Lemma wr_at0 (pre l : list Z) (x v : Z) :
  wr (pre ++ x :: l) (Z.of_nat (length pre)) v = Some (pre ++ v :: l).
Proof.
  rewrite <- (Z.add_0_r (Z.of_nat (length pre))).
  rewrite wr_app by lia. reflexivity.
Qed.

Lemma wr_at1 (pre l : list Z) (x y v : Z) :
  wr (pre ++ x :: y :: l) (Z.of_nat (length pre) + 1) v
  = Some (pre ++ x :: v :: l).
Proof. rewrite wr_app by lia. reflexivity. Qed.

(** ** Response decoding *)

Lemma strip_crc_app (n : nat) :
  forall pre buf dpre data,
    (3 * n <= length buf)%nat -> (2 * n <= length data)%nat ->
    strip_crc n (pre ++ buf) (Z.of_nat (length pre))
              (dpre ++ data) (Z.of_nat (length dpre))
    = let good := good_prefix (groups n buf) in
      Some (if (length good =? n)%nat then 0 else - EIO,
            dpre ++ data_bytes good ++ skipn (2 * length good) data).
Proof.
  induction n as [|n IH]; intros pre buf dpre data Hbuf Hdata.
  - reflexivity.
  - destruct buf as [|a [|b [|c buf]]]; try (simpl in Hbuf; lia).
    destruct data as [|x [|y data]]; try (simpl in Hdata; lia).
    cbn [strip_crc groups good_prefix group_ok]. unfold crc8_at.
    rewrite rd_at0, rd_at1, rd_at2.
    destruct (crc8 [a; b] CRC8_INIT_VALUE =? c) eqn:Hcrc; cbn [negb].
    + rewrite wr_at0, wr_at1.
      replace (pre ++ a :: b :: c :: buf) with ((pre ++ [a; b; c]) ++ buf)
        by (rewrite <- app_assoc; reflexivity).
      replace (dpre ++ a :: b :: data) with ((dpre ++ [a; b]) ++ data)
        by (rewrite <- app_assoc; reflexivity).
      replace (Z.of_nat (length pre) + 3)
        with (Z.of_nat (length (pre ++ [a; b; c])))
        by (rewrite length_app; simpl; lia).
      replace (Z.of_nat (length dpre) + 2)
        with (Z.of_nat (length (dpre ++ [a; b])))
        by (rewrite length_app; simpl; lia).
      rewrite IH by (simpl in Hbuf, Hdata |- *; lia).
      cbv zeta. cbn [length data_bytes Nat.eqb].
      replace (2 * S (length (good_prefix (groups n buf))))%nat
        with (S (S (2 * length (good_prefix (groups n buf)))))%nat by lia.
      cbn [skipn]. rewrite <- app_assoc. reflexivity.
    + reflexivity.
Qed.

(** ** The monad of the driver *)

Section MonadFacts.

Context {Bus : Type} `{I2C Bus}.

Lemma after_after (w : hm3301_state Bus) b1 e1 b2 e2 :
  after (after w b1 e1) b2 e2 = after w b2 (e1 ++ e2).
Proof. unfold after; simpl. rewrite app_assoc. reflexivity. Qed.

Lemma keeps_ret {A} (a : A) : keeps (ret (Bus := Bus) a).
Proof.
  intros w a' w' E. inversion E; subst. split; [reflexivity|].
  exists []. symmetry. apply app_nil_r.
Qed.

Lemma keeps_lift {A} (o : option A) : keeps (lift (Bus := Bus) o).
Proof.
  intros w a w' E. unfold lift in E. destruct o; [|discriminate].
  revert E. apply keeps_ret.
Qed.

Lemma keeps_emit (e : event) : keeps (emit (Bus := Bus) e).
Proof.
  intros w a w' E. inversion E; subst. simpl. split; [reflexivity|].
  exists [e]. reflexivity.
Qed.

Lemma keeps_bind {A B} (c : M Bus A) (k : A -> M Bus B) :
  keeps c -> (forall a, keeps (k a)) -> keeps (bind c k).
Proof.
  intros Hc Hk w b w' E. unfold bind in E.
  destruct (c w) as [[a w1]|] eqn:E1; [|discriminate].
  destruct (Hc _ _ _ E1) as [S1 [ev1 T1]].
  destruct (Hk _ _ _ _ E) as [S2 [ev2 T2]].
  split; [congruence|].
  exists (ev1 ++ ev2). rewrite T2, T1. symmetry. apply app_assoc.
Qed.

Lemma keeps_send (txbuf : list Z) (txsize : Z) : keeps (send txbuf txsize).
Proof.
  intros w a w' E. unfold send in E.
  destruct (_ || _); [discriminate|].
  destruct (i2c_master_send _ _) as [r bus]. inversion E; subst. simpl.
  split; [reflexivity|]. eexists. reflexivity.
Qed.

Lemma keeps_recv (rxbuf : list Z) (rxsize : Z) : keeps (recv rxbuf rxsize).
Proof.
  intros w a w' E. unfold recv in E.
  destruct (_ || _); [discriminate|].
  destruct (i2c_master_recv _ _) as [[r bytes] bus]. inversion E; subst.
  simpl. split; [reflexivity|]. eexists. reflexivity.
Qed.

End MonadFacts.

Ltac keeps_step :=
  first
    [ apply keeps_ret | apply keeps_lift | apply keeps_emit
    | apply keeps_send | apply keeps_recv
    | apply keeps_bind; [|intros ?]
    | match goal with
      | |- keeps (if ?b then _ else _) => destruct b
      | |- keeps (let '(_, _) := ?p in _) => destruct p
      end ].

(** ** Command dispatch *)

Section CommandFacts.

Context {Bus : Type} `{I2C Bus}.

Lemma keeps_write_then_read txbuf txsize rxbuf rxsize :
  keeps (hm3301_write_then_read txbuf txsize rxbuf rxsize).
Proof. unfold hm3301_write_then_read, msleep. repeat keeps_step. Qed.

Lemma keeps_do_cmd_switch cmd data size buf :
  keeps (do_cmd_switch cmd data size buf).
Proof.
  pose proof keeps_write_then_read.
  unfold do_cmd_switch. repeat keeps_step; auto.
Qed.

Lemma keeps_do_cmd cmd data size : keeps (hm3301_do_cmd cmd data size).
Proof.
  pose proof keeps_do_cmd_switch.
  unfold hm3301_do_cmd. repeat keeps_step; auto.
Qed.

(** A transfer that only sends. *)
Lemma write_then_read_tx txbuf txsize rxsize (w : hm3301_state Bus) r bus :
  0 <= txsize <= Z.of_nat (length txbuf) ->
  i2c_master_send (client w) (firstn (Z.to_nat txsize) txbuf) = (r, bus) ->
  hm3301_write_then_read txbuf txsize NULL rxsize w
  = Some ((if r =? txsize then 0 else errno_of r, NULL),
          after w bus [I2cSend (firstn (Z.to_nat txsize) txbuf)]).
Proof.
  intros Hsz Hsend. unfold hm3301_write_then_read, bind, send.
  replace ((txsize <? 0) || (Z.of_nat (length txbuf) <? txsize)) with false
    by (symmetry; apply orb_false_iff; split; apply Z.ltb_ge; lia).
  rewrite Hsend. destruct (r =? txsize); reflexivity.
Qed.

(** A transfer that sends and then receives into [rxbuf]. *)
Lemma write_then_read_rx txbuf txsize rxbuf rxsize (w : hm3301_state Bus)
    r bus r' bytes bus' :
  0 <= txsize <= Z.of_nat (length txbuf) ->
  0 <= rxsize <= Z.of_nat (length rxbuf) ->
  is_null rxbuf = false ->
  i2c_master_send (client w) (firstn (Z.to_nat txsize) txbuf) = (r, bus) ->
  i2c_master_recv bus rxsize = (r', bytes, bus') ->
  hm3301_write_then_read txbuf txsize rxbuf rxsize w
  = if r =? txsize
    then Some ((if r' =? rxsize then 0 else errno_of r',
                overlay (firstn (Z.to_nat rxsize) bytes) rxbuf),
               after w bus' [I2cSend (firstn (Z.to_nat txsize) txbuf);
                             I2cRecv rxsize])
    else Some ((errno_of r, rxbuf),
               after w bus [I2cSend (firstn (Z.to_nat txsize) txbuf)]).
Proof.
  intros Htx Hrx Hnull Hsend Hrecv.
  unfold hm3301_write_then_read, bind, send.
  replace ((txsize <? 0) || (Z.of_nat (length txbuf) <? txsize)) with false
    by (symmetry; apply orb_false_iff; split; apply Z.ltb_ge; lia).
  rewrite Hsend. destruct (r =? txsize); cbn [negb]; [|reflexivity].
  rewrite Hnull. unfold recv. cbn [client].
  replace ((rxsize <? 0) || (Z.of_nat (length rxbuf) <? rxsize)) with false
    by (symmetry; apply orb_false_iff; split; apply Z.ltb_ge; lia).
  rewrite Hrecv. unfold after. cbn [state trace].
  rewrite <- app_assoc.
  destruct (r' =? rxsize); reflexivity.
Qed.

End CommandFacts.

Section DispatchFacts.

Context {Bus : Type} `{I2C Bus}.

(** What [hm3301_do_cmd] does once the [switch] is over. *)
Lemma do_cmd_after_switch cmd data size (w : hm3301_state Bus)
    r buf size' w1 :
  do_cmd_switch cmd data size (frame_buf cmd) w = Some ((r, buf, size'), w1) ->
  hm3301_do_cmd cmd data size w
  = if r =? 0
    then match strip_crc (loop_trips size') buf 0 data 0 with
         | Some (r', data') =>
             Some ((r', data'),
                   if r' =? 0 then w1 else after w1 (client w1) [DevErr])
         | None => None
         end
    else Some ((r, data), w1).
Proof.
  intros Hsw. unfold hm3301_do_cmd, bind at 1. rewrite Hsw.
  destruct (r =? 0); cbn [negb]; [|reflexivity].
  unfold bind, lift.
  destruct (strip_crc _ _ _ _ _) as [[r' data']|]; [|reflexivity].
  destruct (r' =? 0) eqn:Hr'; cbn [negb]; [|reflexivity].
  apply Z.eqb_eq in Hr'. subst r'. reflexivity.
Qed.

Lemma loop_trips_nonpos size : size <= 0 -> loop_trips size = O.
Proof.
  intros Hs. unfold loop_trips.
  assert ((size + 2) / 3 <= 0)
    by (apply Z.lt_succ_r, Z.div_lt_upper_bound; lia).
  lia.
Qed.

Lemma loop_trips_spec size k :
  (k < loop_trips size)%nat <-> 3 * Z.of_nat k < size.
Proof.
  unfold loop_trips.
  destruct (Z.le_gt_cases size 0) as [Hs|Hs].
  - assert ((size + 2) / 3 <= 0)
      by (apply Z.lt_succ_r, Z.div_lt_upper_bound; lia).
    lia.
  - pose proof (Z.div_mod (size + 2) 3 ltac:(lia)).
    pose proof (Z.mod_pos_bound (size + 2) 3 ltac:(lia)).
    assert (0 <= (size + 2) / 3) by (apply Z.div_pos; lia).
    lia.
Qed.

(** Stop, reset and fan cleaning: the two command bytes are sent. *)
Lemma do_cmd_switch_plain cmd data size buf (w : hm3301_state Bus) r bus :
  (cmd =? HM3301_START_MEAS) = false -> is_plain_cmd cmd = true ->
  2 <= Z.of_nat (length buf) ->
  i2c_master_send (client w) (firstn 2 buf) = (r, bus) ->
  do_cmd_switch cmd data size buf w
  = Some ((if r =? 2 then 0 else errno_of r, buf, size),
          after w bus [I2cSend (firstn 2 buf)]).
Proof.
  intros Hstart Hplain Hlen Hsend. unfold do_cmd_switch.
  rewrite Hstart. unfold is_plain_cmd in Hplain. rewrite Hplain.
  unfold bind.
  rewrite (write_then_read_tx buf 2 0 w r bus) by (auto; lia).
  reflexivity.
Qed.

(** Start: the command, the mode word and its checksum are sent. *)
Lemma do_cmd_switch_start data size (w : hm3301_state Bus) r bus :
  i2c_master_send (client w) start_frame = (r, bus) ->
  do_cmd_switch HM3301_START_MEAS data size
                (frame_buf HM3301_START_MEAS) w
  = Some ((if r =? 5 then 0 else errno_of r,
           start_frame ++ repeat 0 43%nat, size),
          after w bus [I2cSend start_frame]).
Proof.
  intros Hsend.
  unfold do_cmd_switch.
  change (HM3301_START_MEAS =? HM3301_START_MEAS) with true. cbv iota.
  change (frame_buf HM3301_START_MEAS) with ([0; 16] ++ repeat 0 46%nat).
  unfold bind, lift.
  change (wr ([0; 16] ++ repeat 0 46%nat) 2 3)
    with (Some ([0; 16; 3] ++ repeat 0 45%nat)).
  cbv beta iota.
  change (wr ([0; 16; 3] ++ repeat 0 45%nat) 3 0)
    with (Some ([0; 16; 3; 0] ++ repeat 0 44%nat)).
  cbv beta iota.
  change (crc8_at ([0; 16; 3; 0] ++ repeat 0 44%nat) 2)
    with (Some (crc8 [3; 0] CRC8_INIT_VALUE)).
  cbv beta iota.
  change (wr ([0; 16; 3; 0] ++ repeat 0 44%nat) 4
             (crc8 [3; 0] CRC8_INIT_VALUE))
    with (Some (start_frame ++ repeat 0 43%nat)).
  cbv beta iota.
  rewrite (write_then_read_tx _ 5 0 w r bus) by (auto; simpl; lia).
  reflexivity.
Qed.

(** A cleaning period write: the command and the two checksummed words
    of [data] are sent. *)
Lemma do_cmd_switch_period d0 d1 d2 d3 rest size (w : hm3301_state Bus)
    r bus :
  i2c_master_send (client w) (period_frame d0 d1 d2 d3) = (r, bus) ->
  do_cmd_switch HM3301_AUTO_CLEANING_PERIOD (d0 :: d1 :: d2 :: d3 :: rest)
                size (frame_buf HM3301_AUTO_CLEANING_PERIOD) w
  = Some ((if r =? 8 then 0 else errno_of r,
           period_frame d0 d1 d2 d3 ++ repeat 0 40%nat, size),
          after w bus [I2cSend (period_frame d0 d1 d2 d3)]).
Proof.
  intros Hsend.
  unfold do_cmd_switch.
  change (HM3301_AUTO_CLEANING_PERIOD =? HM3301_START_MEAS) with false.
  change ((HM3301_AUTO_CLEANING_PERIOD =? HM3301_STOP_MEAS)
          || (HM3301_AUTO_CLEANING_PERIOD =? HM3301_RESET)
          || (HM3301_AUTO_CLEANING_PERIOD =? HM3301_START_FAN_CLEANING))
    with false.
  change ((HM3301_AUTO_CLEANING_PERIOD =? HM3301_READ_AUTO_CLEANING_PERIOD)
          || (HM3301_AUTO_CLEANING_PERIOD =? HM3301_READ_DATA_READY_FLAG)
          || (HM3301_AUTO_CLEANING_PERIOD =? HM3301_READ_DATA)
          || (HM3301_AUTO_CLEANING_PERIOD =? HM3301_READ_SERIAL))
    with false.
  change (HM3301_AUTO_CLEANING_PERIOD =? HM3301_AUTO_CLEANING_PERIOD)
    with true.
  cbv iota.
  change (frame_buf HM3301_AUTO_CLEANING_PERIOD)
    with ([128; 4] ++ repeat 0 46%nat).
  unfold bind, lift.
  set (data := d0 :: d1 :: d2 :: d3 :: rest).
  set (c1 := crc8 [d0; d1] CRC8_INIT_VALUE).
  set (c2 := crc8 [d2; d3] CRC8_INIT_VALUE).
  change (rd data 0) with (Some d0); cbv beta iota.
  change (wr ([128; 4] ++ repeat 0 46%nat) 2 d0)
    with (Some ([128; 4; d0] ++ repeat 0 45%nat)); cbv beta iota.
  change (rd data 1) with (Some d1); cbv beta iota.
  change (wr ([128; 4; d0] ++ repeat 0 45%nat) 3 d1)
    with (Some ([128; 4; d0; d1] ++ repeat 0 44%nat)); cbv beta iota.
  change (crc8_at ([128; 4; d0; d1] ++ repeat 0 44%nat) 2)
    with (Some c1); cbv beta iota.
  change (wr ([128; 4; d0; d1] ++ repeat 0 44%nat) 4 c1)
    with (Some ([128; 4; d0; d1; c1] ++ repeat 0 43%nat)); cbv beta iota.
  change (rd data 2) with (Some d2); cbv beta iota.
  change (wr ([128; 4; d0; d1; c1] ++ repeat 0 43%nat) 5 d2)
    with (Some ([128; 4; d0; d1; c1; d2] ++ repeat 0 42%nat));
    cbv beta iota.
  change (rd data 3) with (Some d3); cbv beta iota.
  change (wr ([128; 4; d0; d1; c1; d2] ++ repeat 0 42%nat) 6 d3)
    with (Some ([128; 4; d0; d1; c1; d2; d3] ++ repeat 0 41%nat));
    cbv beta iota.
  change (crc8_at ([128; 4; d0; d1; c1; d2; d3] ++ repeat 0 41%nat) 5)
    with (Some c2); cbv beta iota.
  change (wr ([128; 4; d0; d1; c1; d2; d3] ++ repeat 0 41%nat) 7 c2)
    with (Some (period_frame d0 d1 d2 d3 ++ repeat 0 40%nat));
    cbv beta iota.
  rewrite (write_then_read_tx _ 8 0 w r bus) by (auto; simpl; lia).
  reflexivity.
Qed.

End DispatchFacts.

(** Decide the comparisons of constants that appear in the goal. *)
Ltac eval_tests :=
  repeat match goal with
  | |- context [Z.eqb ?a ?b] =>
      let v := eval vm_compute in (Z.eqb a b) in
      match v with
      | true => change (Z.eqb a b) with true
      | false => change (Z.eqb a b) with false
      end
  end;
  cbn [orb andb negb].

Section ReadFacts.

Context {Bus : Type} `{I2C Bus}.

(** The [switch] for a read command is one transfer, from and into the
    frame buffer. *)
Lemma do_cmd_switch_read_form cmd data size :
  is_read_cmd cmd = true ->
  do_cmd_switch (Bus := Bus) cmd data size (frame_buf cmd)
  = let buf := read_frame cmd ++ repeat 0 46%nat in
    let size' := add32 size (Z.quot size 2) in
    ('(r, buf') <~ hm3301_write_then_read buf 2 buf size' ;;
     ret (r, buf', size')).
Proof.
  intros Hread. unfold is_read_cmd in Hread.
  rewrite !orb_true_iff in Hread.
  destruct Hread as [[[E|E]|E]|E]; apply Z.eqb_eq in E; subst cmd;
    unfold do_cmd_switch; eval_tests; reflexivity.
Qed.

Lemma read_frame_buf cmd :
  is_read_cmd cmd = true ->
  length (read_frame cmd ++ repeat 0 46%nat) = 48%nat
  /\ firstn (Z.to_nat 2) (read_frame cmd ++ repeat 0 46%nat)
     = read_frame cmd.
Proof.
  intros Hread. unfold is_read_cmd in Hread.
  rewrite !orb_true_iff in Hread.
  destruct Hread as [[[E|E]|E]|E]; apply Z.eqb_eq in E; subst cmd;
    split; reflexivity.
Qed.

(** A read command: the two command bytes are sent and, if that went
    well, [size + size / 2] bytes are received into the frame buffer. *)
Lemma do_cmd_switch_read cmd data size (w : hm3301_state Bus)
    r bus r' bytes bus' :
  is_read_cmd cmd = true ->
  let size' := add32 size (Z.quot size 2) in
  0 <= size' <= HM3301_MAX_READ_SIZE ->
  i2c_master_send (client w) (read_frame cmd) = (r, bus) ->
  i2c_master_recv bus size' = (r', bytes, bus') ->
  do_cmd_switch cmd data size (frame_buf cmd) w
  = if r =? 2
    then Some ((if r' =? size' then 0 else errno_of r',
                overlay (firstn (Z.to_nat size') bytes)
                        (read_frame cmd ++ repeat 0 46%nat),
                size'),
               after w bus' [I2cSend (read_frame cmd); I2cRecv size'])
    else Some ((errno_of r, read_frame cmd ++ repeat 0 46%nat, size'),
               after w bus [I2cSend (read_frame cmd)]).
Proof.
  intros Hread size' Hsize Hsend Hrecv.
  rewrite (do_cmd_switch_read_form cmd data size Hread). cbv zeta.
  fold size'.
  set (buf := read_frame cmd ++ repeat 0 46%nat).
  destruct (read_frame_buf cmd Hread) as [Hlen Hfirst].
  fold buf in Hlen, Hfirst.
  unfold bind.
  rewrite (write_then_read_rx buf 2 buf size' w r bus r' bytes bus');
    try (rewrite ?Hfirst, ?Hlen; unfold HM3301_MAX_READ_SIZE in Hsize;
         auto; lia).
  - rewrite Hfirst. destruct (r =? 2); reflexivity.
  - destruct buf; [discriminate|reflexivity].
Qed.

End ReadFacts.

Section WriteFacts.

Context {Bus : Type} `{I2C Bus}.

Lemma errno_of_nonzero r : (errno_of r =? 0) = false.
Proof.
  unfold errno_of, EIO. destruct (Z.ltb_spec r 0); apply Z.eqb_neq; lia.
Qed.

(** The loop stops at once when the first group does not check. *)
Lemma strip_crc_first_bad n a b c rest data :
  (crc8 [a; b] CRC8_INIT_VALUE =? c) = false ->
  strip_crc (S n) (a :: b :: c :: rest) 0 data 0 = Some (- EIO, data).
Proof.
  intros Hbad. cbn [strip_crc]. unfold crc8_at.
  change (rd (a :: b :: c :: rest) 0) with (Some a).
  change (rd (a :: b :: c :: rest) (0 + 1)) with (Some b).
  change (rd (a :: b :: c :: rest) (0 + 2)) with (Some c).
  cbv beta iota. rewrite Hbad. reflexivity.
Qed.

(** The outcome of a write command whose frame's first three bytes do
    not form a checked group: nothing is stored through [data]. *)
Lemma do_cmd_write_outcome cmd data size (w : hm3301_state Bus)
    r txsize a b c rest frame bus :
  (crc8 [a; b] CRC8_INIT_VALUE =? c) = false ->
  do_cmd_switch cmd data size (frame_buf cmd) w
  = Some ((if r =? txsize then 0 else errno_of r, a :: b :: c :: rest, size),
          after w bus [I2cSend frame]) ->
  hm3301_do_cmd cmd data size w
  = Some ((if r =? txsize
           then match loop_trips size with O => 0 | S _ => - EIO end
           else errno_of r, data),
          after w bus
            (I2cSend frame ::
             if r =? txsize
             then match loop_trips size with O => [] | S _ => [DevErr] end
             else [])).
Proof.
  intros Hbad Hsw. rewrite (do_cmd_after_switch _ _ _ _ _ _ _ _ Hsw).
  destruct (r =? txsize).
  - change (0 =? 0) with true. cbv iota.
    destruct (loop_trips size) as [|n].
    + reflexivity.
    + rewrite strip_crc_first_bad by exact Hbad.
      change (- EIO =? 0) with false. cbv iota.
      rewrite after_after. reflexivity.
  - rewrite errno_of_nonzero. reflexivity.
Qed.

Lemma do_cmd_start data size (w : hm3301_state Bus) r bus :
  i2c_master_send (client w) start_frame = (r, bus) ->
  hm3301_do_cmd HM3301_START_MEAS data size w
  = Some ((if r =? 5
           then match loop_trips size with O => 0 | S _ => - EIO end
           else errno_of r, data),
          after w bus
            (I2cSend start_frame ::
             if r =? 5
             then match loop_trips size with O => [] | S _ => [DevErr] end
             else [])).
Proof.
  intros Hsend.
  apply (do_cmd_write_outcome _ _ _ _ r 5 0x00 0x10 0x03
           (0x00 :: crc8 [0x03; 0x00] CRC8_INIT_VALUE :: repeat 0 43%nat)).
  - reflexivity.
  - apply do_cmd_switch_start. exact Hsend.
Qed.

Lemma do_cmd_plain cmd data size (w : hm3301_state Bus) r bus :
  is_plain_cmd cmd = true ->
  i2c_master_send (client w) [u8 (Z.shiftr cmd 8); u8 cmd] = (r, bus) ->
  hm3301_do_cmd cmd data size w
  = Some ((if r =? 2
           then match loop_trips size with O => 0 | S _ => - EIO end
           else errno_of r, data),
          after w bus
            (I2cSend [u8 (Z.shiftr cmd 8); u8 cmd] ::
             if r =? 2
             then match loop_trips size with O => [] | S _ => [DevErr] end
             else [])).
Proof.
  intros Hplain Hsend.
  apply (do_cmd_write_outcome _ _ _ _ r 2 (u8 (Z.shiftr cmd 8)) (u8 cmd) 0
           (repeat 0 45%nat)).
  - unfold is_plain_cmd in Hplain. rewrite !orb_true_iff in Hplain.
    destruct Hplain as [[E|E]|E]; apply Z.eqb_eq in E; subst cmd;
      reflexivity.
  - apply (do_cmd_switch_plain cmd data size (frame_buf cmd) w r bus).
    + unfold is_plain_cmd in Hplain. rewrite !orb_true_iff in Hplain.
      destruct Hplain as [[E|E]|E]; apply Z.eqb_eq in E; subst cmd;
        reflexivity.
    + exact Hplain.
    + simpl. lia.
    + exact Hsend.
Qed.

Lemma do_cmd_period d0 d1 d2 d3 rest (w : hm3301_state Bus) r bus :
  i2c_master_send (client w) (period_frame d0 d1 d2 d3) = (r, bus) ->
  hm3301_do_cmd HM3301_AUTO_CLEANING_PERIOD (d0 :: d1 :: d2 :: d3 :: rest)
                0 w
  = Some ((if r =? 8 then 0 else errno_of r, d0 :: d1 :: d2 :: d3 :: rest),
          after w bus [I2cSend (period_frame d0 d1 d2 d3)]).
Proof.
  intros Hsend.
  rewrite (do_cmd_after_switch _ _ _ _ _ _ _ _
             (do_cmd_switch_period d0 d1 d2 d3 rest 0 w r bus Hsend)).
  destruct (r =? 8).
  - reflexivity.
  - rewrite errno_of_nonzero. reflexivity.
Qed.

End WriteFacts.

Section ReadOutcome.

Context {Bus : Type} `{I2C Bus}.

Lemma overlay_length src dst :
  (length src <= length dst)%nat ->
  length (overlay src dst) = length dst.
Proof.
  intros Hlen. unfold overlay. rewrite length_app, length_skipn. lia.
Qed.

Lemma loop_trips_bound size :
  0 <= size <= HM3301_MAX_READ_SIZE -> (3 * loop_trips size <= 48)%nat.
Proof.
  unfold HM3301_MAX_READ_SIZE, loop_trips. intros Hs.
  assert ((size + 2) / 3 <= 16)
    by (apply Z.lt_succ_r, Z.div_lt_upper_bound; lia).
  assert (0 <= (size + 2) / 3) by (apply Z.div_pos; lia).
  lia.
Qed.

(** The outcome of a read command, from what the adapter answers. *)
Lemma do_cmd_read cmd data size (w : hm3301_state Bus)
    r bus r' bytes bus' :
  is_read_cmd cmd = true ->
  let size' := size + Z.quot size 2 in
  let n := loop_trips size' in
  0 <= size -> size' <= HM3301_MAX_READ_SIZE ->
  (2 * n <= length data)%nat ->
  i2c_master_send (client w) (read_frame cmd) = (r, bus) ->
  i2c_master_recv bus size' = (r', bytes, bus') ->
  let buf := overlay (firstn (Z.to_nat size') bytes)
                     (read_frame cmd ++ repeat 0 46%nat) in
  let good := good_prefix (groups n buf) in
  hm3301_do_cmd cmd data size w
  = if r =? 2
    then if r' =? size'
         then Some ((if (length good =? n)%nat then 0 else - EIO,
                     data_bytes good ++ skipn (2 * length good) data),
                    after w bus'
                      ([I2cSend (read_frame cmd); I2cRecv size']
                       ++ if (length good =? n)%nat then [] else [DevErr]))
         else Some ((errno_of r', data),
                    after w bus' [I2cSend (read_frame cmd); I2cRecv size'])
    else Some ((errno_of r, data), after w bus [I2cSend (read_frame cmd)]).
Proof.
  intros Hread size' n Hsize Hmax Hdata Hsend Hrecv buf good.
  assert (Hq : 0 <= Z.quot size 2) by (apply Z.quot_pos; lia).
  assert (Hadd : add32 size (Z.quot size 2) = size').
  { unfold add32. apply s32_small.
    unfold HM3301_MAX_READ_SIZE in Hmax. subst size'. lia. }
  pose proof (do_cmd_switch_read cmd data size w r bus r' bytes bus' Hread)
    as Hsw.
  cbv zeta in Hsw. rewrite Hadd in Hsw.
  specialize (Hsw ltac:(subst size'; lia) Hsend Hrecv).
  destruct (r =? 2).
  - rewrite (do_cmd_after_switch _ _ _ _ _ _ _ _ Hsw).
    destruct (r' =? size').
    + change (0 =? 0) with true. cbv iota. fold buf. fold n.
      assert (Hbuf : length buf = 48%nat).
      { unfold buf. rewrite overlay_length.
        - unfold is_read_cmd in Hread. rewrite !orb_true_iff in Hread.
          destruct Hread as [[[E|E]|E]|E]; apply Z.eqb_eq in E; subst cmd;
            reflexivity.
        - rewrite length_firstn.
          assert (length (read_frame cmd ++ repeat 0 46%nat) = 48%nat).
          { unfold is_read_cmd in Hread. rewrite !orb_true_iff in Hread.
            destruct Hread as [[[E|E]|E]|E]; apply Z.eqb_eq in E;
              subst cmd; reflexivity. }
          unfold HM3301_MAX_READ_SIZE in Hmax. lia. }
      pose proof (loop_trips_bound size' ltac:(subst size'; lia)) as Hn.
      pose proof (strip_crc_app n [] buf [] data
                    ltac:(fold n in Hn; lia) Hdata) as Hstrip.
      cbn [app length Z.of_nat] in Hstrip. rewrite Hstrip. cbv zeta.
      fold good. destruct (length good =? n)%nat.
      * reflexivity.
      * change (- EIO =? 0) with false. cbv iota.
        rewrite after_after. reflexivity.
    + rewrite errno_of_nonzero. reflexivity.
  - rewrite (do_cmd_after_switch _ _ _ _ _ _ _ _ Hsw).
    rewrite errno_of_nonzero. reflexivity.
Qed.

Lemma inflated_size_exact size :
  - 2 ^ 31 <= size < 2 ^ 31 ->
  0 <= add32 size (Z.quot size 2) <= HM3301_MAX_READ_SIZE ->
  add32 size (Z.quot size 2) = size + Z.quot size 2.
Proof.
  unfold add32, s32, HM3301_MAX_READ_SIZE. intros Hsize Hfit.
  pose proof (Z.quot_rem' size 2) as Hq.
  pose proof (Z.rem_bound_abs size 2 ltac:(lia)) as Hr.
  set (x := size + Z.quot size 2) in *.
  pose proof (Z.div_mod (x + 2 ^ 31) (2 ^ 32) ltac:(lia)) as Hd.
  pose proof (Z.mod_pos_bound (x + 2 ^ 31) (2 ^ 32) ltac:(lia)) as Hm.
  lia.
Qed.

(** Whatever the size, a read command that runs to its end has asked
    the adapter for [size + size / 2] bytes if it has asked at all, and
    they fit the frame buffer. *)
Lemma do_cmd_read_count cmd data size (w : hm3301_state Bus) r w' :
  is_read_cmd cmd = true ->
  - 2 ^ 31 <= size < 2 ^ 31 ->
  hm3301_do_cmd cmd data size w = Some (r, w') ->
  exists evs,
    trace w' = trace w ++ I2cSend (read_frame cmd) :: evs
    /\ forall n, In (I2cRecv n) evs ->
                 n = size + Z.quot size 2
                 /\ 0 <= n <= HM3301_MAX_READ_SIZE.
Proof.
  intros Hread Hsize.
  destruct (read_frame_buf cmd Hread) as [Hlen Hfirst].
  unfold hm3301_do_cmd, bind at 1.
  rewrite (do_cmd_switch_read_form cmd data size Hread). cbv zeta.
  set (buf := read_frame cmd ++ repeat 0 46%nat) in *.
  set (size' := add32 size (Z.quot size 2)).
  unfold bind at 1, hm3301_write_then_read, bind at 1, send.
  rewrite Hlen, Hfirst. change ((2 <? 0) || (Z.of_nat 48 <? 2)) with false.
  cbv iota.
  destruct (i2c_master_send (client w) (read_frame cmd)) as [r0 bus].
  destruct (r0 =? 2); cbn [negb].
  - replace (is_null buf) with false
      by (destruct buf; [discriminate|reflexivity]).
    unfold bind at 1, recv. cbn [client state trace]. rewrite Hlen.
    destruct ((size' <? 0) || (Z.of_nat 48 <? size')) eqn:Hfit;
      [discriminate|].
    apply orb_false_iff in Hfit. destruct Hfit as [Hlo Hhi].
    apply Z.ltb_ge in Hlo. apply Z.ltb_ge in Hhi.
    assert (Hn : size' = size + Z.quot size 2
                 /\ 0 <= size' <= HM3301_MAX_READ_SIZE).
    { unfold HM3301_MAX_READ_SIZE. split; [|lia].
      apply inflated_size_exact; unfold HM3301_MAX_READ_SIZE; fold size';
        lia. }
    destruct (i2c_master_recv bus size') as [[r1 bytes] bus1].
    assert (Hin : forall evs n,
               In (I2cRecv n) evs -> evs = [I2cRecv size']
               \/ evs = [I2cRecv size'; DevErr] ->
               n = size + Z.quot size 2 /\ 0 <= n <= HM3301_MAX_READ_SIZE).
    { intros evs n Hi [-> | ->]; cbn [In] in Hi;
        repeat (destruct Hi as [Hi|Hi]; try discriminate);
        try contradiction; inversion Hi; subst n; exact Hn. }
    destruct (r1 =? size'); cbn [negb]; unfold ret; cbv beta iota.
    + change (negb (0 =? 0)) with false. cbv iota. unfold bind, lift.
      destruct (strip_crc _ _ _ _ _) as [[e d]|]; [|discriminate].
      destruct (negb (e =? 0)); unfold emit, ret; intros E;
        inversion E; subst; cbn [trace].
      * exists [I2cRecv size'; DevErr]. split.
        -- rewrite <- !app_assoc. reflexivity.
        -- intros n Hi. apply (Hin _ n Hi). right. reflexivity.
      * exists [I2cRecv size']. split.
        -- rewrite <- !app_assoc. reflexivity.
        -- intros n Hi. apply (Hin _ n Hi). left. reflexivity.
    + rewrite errno_of_nonzero. cbn [negb]. intros E.
      inversion E; subst; cbn [trace].
      exists [I2cRecv size']. split.
      * rewrite <- !app_assoc. reflexivity.
      * intros n Hi. apply (Hin _ n Hi). left. reflexivity.
  - unfold ret. cbv beta iota. rewrite errno_of_nonzero. cbn [negb].
    intros E. inversion E; subst; cbn [trace].
    exists []. split; [reflexivity|]. intros n [].
Qed.

End ReadOutcome.

(** ** Claims about the framing *)

Lemma groups_length n : forall buf,
  (3 * n <= length buf)%nat -> length (groups n buf) = n.
Proof.
  induction n as [|n IH]; intros buf Hlen; [reflexivity|].
  destruct buf as [|a [|b [|c buf]]]; try (simpl in Hlen; lia).
  cbn [groups length]. rewrite IH; [reflexivity|simpl in Hlen; lia].
Qed.

Lemma good_prefix_length gs : (length (good_prefix gs) <= length gs)%nat.
Proof.
  induction gs as [|g gs IH]; simpl; [lia|].
  destruct (group_ok g); simpl; lia.
Qed.

Lemma good_prefix_firstn gs :
  good_prefix gs = firstn (length (good_prefix gs)) gs.
Proof.
  induction gs as [|g gs IH]; simpl; [reflexivity|].
  destruct (group_ok g); simpl; [f_equal; exact IH|reflexivity].
Qed.

Lemma good_prefix_ok gs : forallb group_ok (good_prefix gs) = true.
Proof.
  induction gs as [|g gs IH]; simpl; [reflexivity|].
  destruct (group_ok g) eqn:E; simpl; [rewrite E; exact IH|reflexivity].
Qed.

Lemma good_prefix_stop gs :
  (length (good_prefix gs) < length gs)%nat ->
  exists g, nth_error gs (length (good_prefix gs)) = Some g
            /\ group_ok g = false.
Proof.
  induction gs as [|g gs IH]; simpl; [lia|].
  destruct (group_ok g) eqn:E; simpl; intros Hlt.
  - apply IH. lia.
  - exists g. split; [reflexivity|exact E].
Qed.

(** C1 (as amended): for every response buffer and every size, the
    validation loop of [hm3301_do_cmd] walks the buffer in 3-byte groups
    and stops at the first group [k] whose checksum does not match.  Then it
    returns [-EIO], and the data bytes of the [k] groups before it are
    already stored in the caller's array; the rest of the array is as it
    was.  When every group matches it returns 0 and the array starts with
    exactly the data bytes, in order, without the checksum bytes. *)
Theorem response_decoding (size : Z) (buf data : list Z) :
  let n := loop_trips size in
  (3 * n <= length buf)%nat -> (2 * n <= length data)%nat ->
  exists k, (k <= n)%nat /\
    let gs := groups n buf in
    forallb group_ok (firstn k gs) = true /\
    ((k < n)%nat ->
     exists g, nth_error gs k = Some g /\ group_ok g = false) /\
    strip_crc n buf 0 data 0
    = Some (if (k =? n)%nat then 0 else - EIO,
            data_bytes (firstn k gs) ++ skipn (2 * k) data).
Proof.
  intros n Hbuf Hdata.
  pose proof (groups_length n buf Hbuf) as Hgs.
  exists (length (good_prefix (groups n buf))).
  split; [|split; [|split]].
  - rewrite <- Hgs at 2. apply good_prefix_length.
  - rewrite <- good_prefix_firstn. apply good_prefix_ok.
  - intros Hlt. apply good_prefix_stop. lia.
  - rewrite <- good_prefix_firstn.
    apply (strip_crc_app n [] buf [] data Hbuf Hdata).
Qed.

Lemma response_decoding_witness :
  exists k, (k <= 2)%nat /\
    let gs := groups 2 (framed [1; 2; 3; 4]) in
    forallb group_ok (firstn k gs) = true /\
    ((k < 2)%nat ->
     exists g, nth_error gs k = Some g /\ group_ok g = false) /\
    strip_crc 2 (framed [1; 2; 3; 4]) 0 [0; 0; 0; 0] 0
    = Some (if (k =? 2)%nat then 0 else - EIO,
            data_bytes (firstn k gs) ++ skipn (2 * k) [0; 0; 0; 0]).
Proof.
  apply (response_decoding 6 (framed [1; 2; 3; 4]) [0; 0; 0; 0]);
    vm_compute; lia.
Defined.

(** C1, as stated, fails: a response whose first group checks and whose
    second group does not makes [hm3301_do_cmd] return [-EIO] with the
    first two bytes of the caller's array overwritten. *)
Lemma response_decoding_partial_data :
  option_map fst
    (hm3301_do_cmd HM3301_READ_AUTO_CLEANING_PERIOD [0; 0; 0; 0] 4
       (mk_state [(2, []); (6, [1; 2; crc8 [1; 2] CRC8_INIT_VALUE; 3; 4; 0])]
                 RESET []))
  = Some (- EIO, [1; 2; 0; 0])
  /\ [1; 2; 0; 0] <> [0; 0; 0; 0].
Proof.
  split; [vm_compute; reflexivity|discriminate].
Qed.

Section FramingClaims.

Context {Bus : Type} `{I2C Bus}.

(** C10: a write-only command (start, stop, reset, fan cleaning, and the
    cleaning period write called with size 0) stores nothing through
    [data]: whatever the adapter answers, [hm3301_do_cmd] returns with
    the caller's array as it was. *)
Theorem write_commands_keep_data
    (cmd : Z) (data : list Z) (size : Z) (w : hm3301_state Bus) :
  is_write_cmd cmd = true ->
  (cmd = HM3301_AUTO_CLEANING_PERIOD ->
   size = 0 /\ (4 <= length data)%nat) ->
  exists r w', hm3301_do_cmd cmd data size w = Some ((r, data), w').
Proof.
  intros Hcmd Hperiod. unfold is_write_cmd in Hcmd.
  rewrite !orb_true_iff in Hcmd. destruct Hcmd as [[E|Hplain]|E].
  - apply Z.eqb_eq in E. subst cmd.
    destruct (i2c_master_send (client w) start_frame) as [r bus] eqn:Hsend.
    rewrite (do_cmd_start data size w r bus Hsend). eauto.
  - destruct (i2c_master_send (client w) [u8 (Z.shiftr cmd 8); u8 cmd])
      as [r bus] eqn:Hsend.
    rewrite (do_cmd_plain cmd data size w r bus Hplain Hsend). eauto.
  - apply Z.eqb_eq in E. subst cmd.
    destruct (Hperiod eq_refl) as [-> Hlen].
    destruct data as [|d0 [|d1 [|d2 [|d3 rest]]]]; try (simpl in Hlen; lia).
    destruct (i2c_master_send (client w) (period_frame d0 d1 d2 d3))
      as [r bus] eqn:Hsend.
    rewrite (do_cmd_period d0 d1 d2 d3 rest w r bus Hsend). eauto.
Qed.

(** C9: whenever a read command asks the adapter for bytes, it asks for
    [size + size / 2] of them; with at most [HM3301_MAX_READ_SIZE] of
    them no access to the frame buffer or to a large enough [data] array
    is out of bounds, whatever the adapter answers; and this is so for
    every read the driver issues. *)
Theorem read_sizes_fit :
  (forall cmd data size (w : hm3301_state Bus) r w',
      is_read_cmd cmd = true ->
      - 2 ^ 31 <= size < 2 ^ 31 ->
      hm3301_do_cmd cmd data size w = Some (r, w') ->
      exists evs,
        trace w' = trace w ++ I2cSend (read_frame cmd) :: evs
        /\ forall n, In (I2cRecv n) evs ->
                     n = size + Z.quot size 2
                     /\ 0 <= n <= HM3301_MAX_READ_SIZE)
  /\ (forall cmd data size (w : hm3301_state Bus),
      is_read_cmd cmd = true ->
      0 <= size -> size + Z.quot size 2 <= HM3301_MAX_READ_SIZE ->
      (2 * loop_trips (size + Z.quot size 2) <= length data)%nat ->
      exists r data' w' evs,
        hm3301_do_cmd cmd data size w = Some ((r, data'), w')
        /\ trace w' = trace w ++ I2cSend (read_frame cmd) :: evs
        /\ (forall n, In (I2cRecv n) evs -> n = size + Z.quot size 2)
        /\ (r = 0 -> evs = [I2cRecv (size + Z.quot size 2)]))
  /\ Forall (fun '(cmd, size, len) =>
               is_read_cmd cmd = true /\ 0 <= size
               /\ size + Z.quot size 2 <= HM3301_MAX_READ_SIZE
               /\ (2 * loop_trips (size + Z.quot size 2) <= len)%nat)
            issued_reads.
Proof.
  split; [exact do_cmd_read_count|]. split.
  - intros cmd data size w Hread Hsize Hmax Hdata.
    destruct (i2c_master_send (client w) (read_frame cmd))
      as [r bus] eqn:Hsend.
    destruct (i2c_master_recv bus (size + Z.quot size 2))
      as [[r' bytes] bus'] eqn:Hrecv.
    rewrite (do_cmd_read cmd data size w r bus r' bytes bus'
               Hread Hsize Hmax Hdata Hsend Hrecv).
    destruct (r =? 2); [destruct (r' =? _) eqn:Hr'|].
    + destruct (length _ =? _)%nat;
        do 4 eexists; (split; [reflexivity|]);
        (split; [reflexivity|]); split.
      * intros n [E|[]]. inversion E. reflexivity.
      * reflexivity.
      * intros n [E|[E|[]]]; inversion E. reflexivity.
      * discriminate.
    + do 4 eexists. split; [reflexivity|]. split; [reflexivity|]. split.
      * intros n [E|[]]. inversion E. reflexivity.
      * intros E. pose proof (errno_of_nonzero r') as Hne.
        rewrite E in Hne. discriminate.
    + do 4 eexists. split; [reflexivity|].
      split; [reflexivity|]. split.
      * intros n [].
      * intros E. pose proof (errno_of_nonzero r) as Hne.
        rewrite E in Hne. discriminate.
  - unfold issued_reads.
    repeat constructor; vm_compute; try reflexivity; try discriminate; lia.
Qed.

End FramingClaims.

Lemma write_commands_keep_data_witness :
  exists r w',
    hm3301_do_cmd HM3301_AUTO_CLEANING_PERIOD (put_unaligned_be32 3600) 0
                  (mk_state [(8, [])] MEASURING [])
    = Some ((r, put_unaligned_be32 3600), w').
Proof.
  apply (write_commands_keep_data HM3301_AUTO_CLEANING_PERIOD
           (put_unaligned_be32 3600) 0 (mk_state [(8, [])] MEASURING [])).
  - reflexivity.
  - intros _. split; [reflexivity|simpl; lia].
Defined.

Lemma read_sizes_fit_witness :
  exists r data' w' evs,
    hm3301_do_cmd HM3301_READ_SERIAL (repeat 0 32%nat) 32
                  (mk_state [(2, []); (48, framed (repeat 65 32%nat))]
                            RESET [])
    = Some ((r, data'), w')
    /\ trace w' = [] ++ I2cSend (read_frame HM3301_READ_SERIAL) :: evs
    /\ (forall n, In (I2cRecv n) evs -> n = 32 + Z.quot 32 2)
    /\ (r = 0 -> evs = [I2cRecv (32 + Z.quot 32 2)]).
Proof.
  apply (proj1 (proj2 read_sizes_fit) HM3301_READ_SERIAL (repeat 0 32%nat) 32
           (mk_state [(2, []); (48, framed (repeat 65 32%nat))] RESET []));
    vm_compute; try reflexivity; try discriminate; lia.
Defined.

(** ** The cleaning period on the wire *)

Lemma byte_bit (p k n : Z) :
  0 <= k -> 0 <= n ->
  Z.testbit (Z.shiftl (u8 (Z.shiftr p k)) k) n
  = if (k <=? n) && (n <? k + 8) then Z.testbit p n else false.
Proof.
  intros Hk Hn. rewrite Z.shiftl_spec by lia. unfold u8.
  change 256 with (2 ^ 8).
  destruct (Z.leb_spec k n); cbn [andb].
  - destruct (Z.ltb_spec n (k + 8)).
    + rewrite Z.mod_pow2_bits_low by lia.
      rewrite Z.shiftr_spec by lia. f_equal. lia.
    + apply Z.mod_pow2_bits_high. lia.
  - apply Z.testbit_neg_r. lia.
Qed.

Lemma get_put_unaligned_be32 (p : Z) :
  0 <= p < 2 ^ 32 -> get_unaligned_be32 (put_unaligned_be32 p) = Some p.
Proof.
  intros Hp. unfold put_unaligned_be32, get_unaligned_be32. f_equal.
  assert (Hhigh : forall n, 32 <= n -> Z.testbit p n = false).
  { intros n Hn. rewrite <- (Z.mod_small p (2 ^ 32)) by lia.
    apply Z.mod_pow2_bits_high. lia. }
  apply Z.bits_inj'. intros n Hn.
  rewrite <- (Z.shiftl_0_r (u8 p)). rewrite <- (Z.shiftr_0_r p) at 4.
  rewrite !Z.lor_spec, !byte_bit by lia.
  destruct (Z.leb_spec 24 n); destruct (Z.ltb_spec n (24 + 8));
    destruct (Z.leb_spec 16 n); destruct (Z.ltb_spec n (16 + 8));
    destruct (Z.leb_spec 8 n); destruct (Z.ltb_spec n (8 + 8));
    destruct (Z.leb_spec 0 n); destruct (Z.ltb_spec n (0 + 8));
    cbn [andb orb]; rewrite ?orb_false_r; try reflexivity; try lia.
  symmetry. apply Hhigh. lia.
Qed.

Section PeriodClaims.

Context {Bus : Type} `{I2C Bus}.

Lemma do_cmd_read_period b0 b1 b2 b3 tmp (w : hm3301_state Bus)
    bus bus' :
  length tmp = 4%nat ->
  i2c_master_send (client w) [0x80; 0x04] = (2, bus) ->
  i2c_master_recv bus 6 = (6, framed [b0; b1; b2; b3], bus') ->
  hm3301_do_cmd HM3301_READ_AUTO_CLEANING_PERIOD tmp 4 w
  = Some ((0, [b0; b1; b2; b3]),
          after w bus' [I2cSend [0x80; 0x04]; I2cRecv 6]).
Proof.
  intros Htmp Hsend Hrecv.
  destruct tmp as [|t0 [|t1 [|t2 [|t3 [|]]]]]; try discriminate.
  pose proof (do_cmd_read HM3301_READ_AUTO_CLEANING_PERIOD
                [t0; t1; t2; t3] 4 w 2 bus 6
                (framed [b0; b1; b2; b3]) bus' eq_refl) as Hcmd.
  cbv zeta in Hcmd.
  specialize (Hcmd ltac:(lia) ltac:(vm_compute; discriminate)
                   ltac:(vm_compute; lia) Hsend Hrecv).
  rewrite Hcmd. clear Hcmd.
  change (2 =? 2) with true. change (4 + Z.quot 4 2) with 6.
  change (6 =? 6) with true. cbv iota.
  change (loop_trips 6) with 2%nat.
  change (overlay (firstn (Z.to_nat 6) (framed [b0; b1; b2; b3]))
                  (read_frame HM3301_READ_AUTO_CLEANING_PERIOD
                   ++ repeat 0 46%nat))
    with (framed [b0; b1; b2; b3] ++ repeat 0 42%nat).
  cbn [framed app groups good_prefix group_ok].
  rewrite !Z.eqb_refl. reflexivity.
Qed.

(** C8: for every cleaning period [p] in [0, 604800], the frame that
    [hm3301_do_cmd] sends for it carries [p] as two checksummed 2-byte
    words, and when a response consists of those same bytes the response
    decoding accepts them and [cleaning_period_show] reads [p] back. *)
Theorem cleaning_period_round_trip (p : Z) :
  HM3301_AUTO_CLEANING_PERIOD_MIN <= p <= HM3301_AUTO_CLEANING_PERIOD_MAX ->
  let tmp := put_unaligned_be32 p in
  let frame := 0x80 :: 0x04 :: framed tmp in
  (forall (w : hm3301_state Bus) bus,
      i2c_master_send (client w) frame = (8, bus) ->
      hm3301_do_cmd HM3301_AUTO_CLEANING_PERIOD tmp 0 w
      = Some ((0, tmp), after w bus [I2cSend frame]))
  /\ (forall (w : hm3301_state Bus) bus bus',
         i2c_master_send (client w) [0x80; 0x04] = (2, bus) ->
         i2c_master_recv bus 6 = (6, skipn 2 frame, bus') ->
         hm3301_do_cmd HM3301_READ_AUTO_CLEANING_PERIOD (repeat 0 4%nat) 4 w
         = Some ((0, tmp), after w bus' [I2cSend [0x80; 0x04]; I2cRecv 6])
         /\ cleaning_period_show w
            = Some (inr p, after w bus' [I2cSend [0x80; 0x04]; I2cRecv 6])).
Proof.
  intros Hp tmp frame.
  unfold HM3301_AUTO_CLEANING_PERIOD_MIN, HM3301_AUTO_CLEANING_PERIOD_MAX
    in Hp.
  split.
  - intros w bus Hsend.
    apply (do_cmd_period _ _ _ _ [] w 8 bus). exact Hsend.
  - intros w bus bus' Hsend Hrecv.
    assert (Hcmd : hm3301_do_cmd HM3301_READ_AUTO_CLEANING_PERIOD
                     (repeat 0 4%nat) 4 w
                   = Some ((0, tmp),
                           after w bus' [I2cSend [0x80; 0x04]; I2cRecv 6])).
    { apply (do_cmd_read_period _ _ _ _ (repeat 0 4%nat) w bus bus');
        [reflexivity|exact Hsend|exact Hrecv]. }
    split; [exact Hcmd|].
    unfold cleaning_period_show, bind. rewrite Hcmd.
    change (negb (0 =? 0)) with false. cbv iota. unfold lift.
    unfold tmp. rewrite get_put_unaligned_be32 by lia.
    unfold ret. rewrite s32_small by lia. reflexivity.
Qed.

End PeriodClaims.

Lemma cleaning_period_round_trip_witness :
  let tmp := put_unaligned_be32 604800 in
  let frame := 0x80 :: 0x04 :: framed tmp in
  (forall (w : hm3301_state script) bus,
      i2c_master_send (client w) frame = (8, bus) ->
      hm3301_do_cmd HM3301_AUTO_CLEANING_PERIOD tmp 0 w
      = Some ((0, tmp), after w bus [I2cSend frame]))
  /\ (forall (w : hm3301_state script) bus bus',
         i2c_master_send (client w) [0x80; 0x04] = (2, bus) ->
         i2c_master_recv bus 6 = (6, skipn 2 frame, bus') ->
         hm3301_do_cmd HM3301_READ_AUTO_CLEANING_PERIOD (repeat 0 4%nat) 4 w
         = Some ((0, tmp), after w bus' [I2cSend [0x80; 0x04]; I2cRecv 6])
         /\ cleaning_period_show w
            = Some (inr 604800,
                    after w bus' [I2cSend [0x80; 0x04]; I2cRecv 6])).
Proof.
  apply (cleaning_period_round_trip 604800). vm_compute.
  split; discriminate.
Defined.

(** ** Reset and the cleaning period *)

Section ResetFacts.

Context {Bus : Type} `{I2C Bus}.

Lemma do_cmd_reset_outcome (w : hm3301_state Bus) r bus r' bus' :
  i2c_master_send (client w) [0xd3; 0x04] = (r, bus) ->
  i2c_master_send bus [0x01; 0x04] = (r', bus') ->
  hm3301_do_cmd_reset w
  = Some (if r =? 2 then 0 else errno_of r,
          mk_state bus' RESET
            (trace w ++ [I2cSend [0xd3; 0x04]; Msleep 300;
                         I2cSend [0x01; 0x04]])).
Proof.
  intros Hreset Hstop. unfold hm3301_do_cmd_reset, bind.
  rewrite (do_cmd_plain HM3301_RESET NULL 0 w r bus eq_refl Hreset).
  change (loop_trips 0) with O. cbv iota.
  replace (if r =? 2 then [] else []) with (@nil event)
    by (destruct (r =? 2); reflexivity).
  unfold msleep, emit.
  unfold after at 1.
  rewrite (do_cmd_plain HM3301_STOP_MEAS NULL 0
             (mk_state bus (state w) _) r' bus' eq_refl Hstop).
  change (loop_trips 0) with O. cbv iota.
  replace (if r' =? 2 then [] else []) with (@nil event)
    by (destruct (r' =? 2); reflexivity).
  unfold set_state, ret, after. cbn [client state trace].
  rewrite <- !app_assoc. reflexivity.
Qed.

Lemma do_cmd_reset_state (w : hm3301_state Bus) r w' :
  hm3301_do_cmd_reset w = Some (r, w') -> state w' = RESET.
Proof.
  destruct (i2c_master_send (client w) [0xd3; 0x04]) as [r1 bus1] eqn:E1.
  destruct (i2c_master_send bus1 [0x01; 0x04]) as [r2 bus2] eqn:E2.
  rewrite (do_cmd_reset_outcome w r1 bus1 r2 bus2 E1 E2).
  intros E. inversion E. reflexivity.
Qed.

(** C6 (as amended): [cleaning_period_store] rejects a value that did
    not parse or is outside [0, 604800] with [-EINVAL] and does nothing
    else.  A value inside the range is sent as a checksummed frame.  If
    that transfer fails, its error is returned and nothing else happens.
    If it succeeds the driver sleeps 20 ms and runs the reset sequence,
    and returns [len] whether the reset command succeeded or not; a
    failed reset is only logged. *)
Theorem cleaning_period_store_outcome
    (val : option Z) (len : Z) (w : hm3301_state Bus) :
  match val with
  | None => cleaning_period_store val len w = Some (- EINVAL, w)
  | Some v =>
      (v < HM3301_AUTO_CLEANING_PERIOD_MIN
       \/ HM3301_AUTO_CLEANING_PERIOD_MAX < v ->
       cleaning_period_store val len w = Some (- EINVAL, w))
      /\ (HM3301_AUTO_CLEANING_PERIOD_MIN <= v
          <= HM3301_AUTO_CLEANING_PERIOD_MAX ->
          let frame := 0x80 :: 0x04 :: framed (put_unaligned_be32 v) in
          forall r bus,
            i2c_master_send (client w) frame = (r, bus) ->
            (r <> 8 ->
             cleaning_period_store val len w
             = Some (errno_of r, after w bus [I2cSend frame]))
            /\ (r = 8 ->
                forall r1 bus1 r2 bus2,
                  i2c_master_send bus [0xd3; 0x04] = (r1, bus1) ->
                  i2c_master_send bus1 [0x01; 0x04] = (r2, bus2) ->
                  cleaning_period_store val len w
                  = Some (len,
                          mk_state bus2 RESET
                            (trace w
                             ++ [I2cSend frame; Msleep 20;
                                 I2cSend [0xd3; 0x04]; Msleep 300;
                                 I2cSend [0x01; 0x04]]
                             ++ if r1 =? 2 then [] else [DevWarn]))))
  end.
Proof.
  destruct val as [v|]; [|reflexivity].
  unfold HM3301_AUTO_CLEANING_PERIOD_MIN, HM3301_AUTO_CLEANING_PERIOD_MAX.
  split.
  - intros Hv. unfold cleaning_period_store.
    unfold HM3301_AUTO_CLEANING_PERIOD_MIN, HM3301_AUTO_CLEANING_PERIOD_MAX.
    replace ((v <? 0) || (v >? 604800)) with true; [reflexivity|].
    symmetry. apply orb_true_iff.
    destruct Hv; [left; apply Z.ltb_lt|right; apply Z.gtb_lt]; lia.
  - intros Hv r bus Hsend.
    assert (Hrange : (v <? HM3301_AUTO_CLEANING_PERIOD_MIN)
                     || (v >? HM3301_AUTO_CLEANING_PERIOD_MAX) = false).
    { unfold HM3301_AUTO_CLEANING_PERIOD_MIN,
        HM3301_AUTO_CLEANING_PERIOD_MAX.
      apply orb_false_iff. split; [apply Z.ltb_ge; lia|].
      rewrite Z.gtb_ltb. apply Z.ltb_ge. lia. }
    pose proof (do_cmd_period _ _ _ _ [] w r bus Hsend) as Hcmd.
    change [u8 (Z.shiftr v 24); u8 (Z.shiftr v 16);
            u8 (Z.shiftr v 8); u8 v]
      with (put_unaligned_be32 v) in Hcmd.
    split.
    + intros Hr. unfold cleaning_period_store. rewrite Hrange.
      unfold bind. rewrite Hcmd.
      replace (r =? 8) with false by (symmetry; apply Z.eqb_neq; exact Hr).
      rewrite errno_of_nonzero. reflexivity.
    + intros -> r1 bus1 r2 bus2 Hreset Hstop.
      unfold cleaning_period_store. rewrite Hrange.
      unfold bind. rewrite Hcmd.
      change (8 =? 8) with true. cbv iota.
      change (negb (0 =? 0)) with false.
      unfold msleep, emit, after. cbv beta iota. cbn [client state trace].
      rewrite (do_cmd_reset_outcome (mk_state bus _ _) r1 bus1 r2 bus2
                 Hreset Hstop).
      cbn [client state trace].
      destruct (r1 =? 2).
      * change (negb (0 =? 0)) with false. cbv iota. unfold ret.
        rewrite <- !app_assoc. reflexivity.
      * rewrite errno_of_nonzero. cbn [negb].
        unfold emit, ret. cbn [client state trace].
        rewrite <- !app_assoc. reflexivity.
Qed.

End ResetFacts.

Lemma cleaning_period_store_outcome_witness :
  let frame := 0x80 :: 0x04 :: framed (put_unaligned_be32 3600) in
  cleaning_period_store (Some 3600) 5
    (mk_state [(8, []); (-6, []); (2, [])] MEASURING [])
  = Some (5, mk_state [] RESET
               ([] ++ [I2cSend frame; Msleep 20; I2cSend [0xd3; 0x04];
                       Msleep 300; I2cSend [0x01; 0x04]]
                ++ [DevWarn])).
Proof.
  apply (proj2 (proj2 (cleaning_period_store_outcome (Some 3600) 5
                 (mk_state [(8, []); (-6, []); (2, [])] MEASURING []))
                 ltac:(vm_compute; split; discriminate)
                 8 [(-6, []); (2, [])] eq_refl)
           eq_refl (-6) [(2, [])] 2 [] eq_refl eq_refl).
Defined.

(** C6, as stated, fails: for a value inside the range whose write the
    adapter refuses, the driver returns the error without the 20 ms sleep
    and without the reset sequence. *)
Lemma cleaning_period_store_write_failure :
  cleaning_period_store (Some 0) 2 (mk_state [(- EIO, [])] MEASURING [])
  = Some (- EIO,
          mk_state [] MEASURING
            [I2cSend (0x80 :: 0x04 :: framed (put_unaligned_be32 0))])
  /\ ~ In (Msleep 20)
       [I2cSend (0x80 :: 0x04 :: framed (put_unaligned_be32 0))].
Proof.
  split; [vm_compute; reflexivity|].
  intros [E|[]]. discriminate.
Qed.

(** ** The device state *)

Ltac keeps_all :=
  repeat first
    [ keeps_step
    | match goal with
      | |- keeps (match ?x with _ => _ end) => destruct x
      end ].

Section StateFacts.

Context {Bus : Type} `{I2C Bus}.

Lemma keeps_poll_ready tries : forall tmp, keeps (poll_ready tries tmp).
Proof.
  pose proof keeps_do_cmd.
  induction tries as [|t IH]; intros tmp; cbn [poll_ready]; unfold msleep;
    keeps_all; auto.
Qed.

Lemma keeps_do_meas_poll_and_read data size :
  keeps (do_meas_poll_and_read data size).
Proof.
  pose proof keeps_do_cmd. pose proof keeps_poll_ready.
  unfold do_meas_poll_and_read. keeps_all; auto.
Qed.

Lemma keeps_start_cleaning_store val len :
  keeps (start_cleaning_store val len).
Proof.
  pose proof keeps_do_cmd. unfold start_cleaning_store. keeps_all; auto.
Qed.

Lemma keeps_cleaning_period_show : keeps cleaning_period_show.
Proof.
  pose proof keeps_do_cmd. unfold cleaning_period_show. keeps_all; auto.
Qed.

Lemma keeps_stop_meas : keeps hm3301_stop_meas.
Proof.
  pose proof keeps_do_cmd. unfold hm3301_stop_meas. keeps_all; auto.
Qed.

(** A measurement changes the state only from [RESET] to [MEASURING],
    and only after a start command that returned 0. *)
Lemma do_meas_state data size (w : hm3301_state Bus) r w' :
  hm3301_do_meas data size w = Some (r, w') ->
  state w' = state w
  \/ (state w = RESET /\ state w' = MEASURING
      /\ exists d w1,
           hm3301_do_cmd HM3301_START_MEAS NULL 0 w = Some ((0, d), w1)).
Proof.
  unfold hm3301_do_meas, bind at 1, get_state.
  destruct (state w) eqn:Hst.
  - unfold bind at 1 2.
    destruct (hm3301_do_cmd HM3301_START_MEAS NULL 0 w)
      as [[[e d] w1]|] eqn:Hstart; [|discriminate].
    destruct (keeps_do_cmd _ _ _ _ _ _ Hstart) as [Hw1 _].
    destruct (e =? 0) eqn:He; cbn [negb].
    + apply Z.eqb_eq in He. subst e.
      unfold bind, set_state, ret. intros Hrest.
      destruct (keeps_do_meas_poll_and_read _ _ _ _ _ Hrest) as [Hw' _].
      right. split; [reflexivity|]. split; [exact Hw'|]. eauto.
    + unfold ret. intros E. inversion E; subst. left. congruence.
  - unfold bind, ret. intros Hrest.
    destruct (keeps_do_meas_poll_and_read _ _ _ _ _ Hrest) as [Hw' _].
    left. congruence.
Qed.

(** A measurement that fails leaves the caller's samples alone: what
    a failed response decoding has stored stays in the local [tmp]. *)
Lemma do_meas_error_keeps_data data size (w : hm3301_state Bus)
    r data' w' :
  hm3301_do_meas data size w = Some ((r, data'), w') ->
  r <> 0 -> data' = data.
Proof.
  unfold hm3301_do_meas, do_meas_poll_and_read, bind, get_state, ret, lift.
  intros Hrun Hr.
  repeat match type of Hrun with
         | context [match ?x with _ => _ end] => destruct x
         end;
    inversion Hrun; subst; congruence.
Qed.

(** A cleaning period write changes the state only through the reset
    sequence, after which it returns [len]. *)
Lemma cleaning_period_store_state val len (w : hm3301_state Bus) r w' :
  cleaning_period_store val len w = Some (r, w') ->
  state w' = state w
  \/ (state w' = RESET /\ r = len /\ exists v, val = Some v).
Proof.
  unfold cleaning_period_store. destruct val as [v|].
  - destruct (_ || _).
    + intros E. inversion E. left. reflexivity.
    + unfold bind at 1.
      destruct (hm3301_do_cmd _ _ _ w) as [[[e d] w1]|] eqn:Hcmd;
        [|discriminate].
      destruct (e =? 0); cbn [negb].
      * unfold bind, msleep, emit.
        destruct (hm3301_do_cmd_reset _) as [[e' w2]|] eqn:Hreset;
          [|discriminate].
        apply do_cmd_reset_state in Hreset.
        destruct (negb (e' =? 0)); unfold emit, ret; intros E;
          inversion E; subst; cbn [state]; right; eauto.
      * intros E. inversion E; subst. left.
        apply (keeps_do_cmd _ _ _ _ _ _ Hcmd).
  - intros E. inversion E. left. reflexivity.
Qed.

Lemma run_op_state (o : op) (w : hm3301_state Bus) r w' :
  run_op o w = Some (r, w') ->
  state w' = state w
  \/ (state w = RESET /\ state w' = MEASURING
      /\ exists data size d w1,
           o = OpMeas data size
           /\ hm3301_do_cmd HM3301_START_MEAS NULL 0 w = Some ((0, d), w1))
  \/ (state w' = RESET
      /\ (o = OpReset \/ exists v len, o = OpPeriodStore (Some v) len
                                        /\ r = len)).
Proof.
  destruct o; cbn [run_op]; intros Hrun.
  - left. revert Hrun.
    apply (keeps_bind _ _ (keeps_do_cmd cmd data size)).
    intros [r0 d]. apply keeps_ret.
  - unfold bind in Hrun.
    destruct (hm3301_do_meas data size w) as [[[r0 d] w1]|] eqn:Hmeas;
      [|discriminate].
    inversion Hrun; subst.
    destruct (do_meas_state _ _ _ _ _ Hmeas) as [Hs|[Hs [Hs' [d' [w1 Hst]]]]].
    + left. exact Hs.
    + right. left. split; [exact Hs|]. split; [exact Hs'|]. eauto 6.
  - right. right. split; [|left; reflexivity].
    apply (do_cmd_reset_state _ _ _ Hrun).
  - left. apply (keeps_start_cleaning_store _ _ _ _ _ Hrun).
  - left. revert Hrun.
    apply (keeps_bind _ _ keeps_cleaning_period_show).
    intros r0. apply keeps_ret.
  - destruct (cleaning_period_store_state _ _ _ _ _ Hrun)
      as [Hs|[Hs [Hr [v Hv]]]].
    + left. exact Hs.
    + right. right. split; [exact Hs|]. right. subst. eauto.
  - left. revert Hrun.
    apply (keeps_bind _ _ keeps_stop_meas).
    intros r0. apply keeps_ret.
Qed.

(** C5: the state field starts as [RESET]; an operation takes it from
    [RESET] to [MEASURING] only when it is a measurement whose start
    command returned 0 (when the start command fails the measurement
    returns that error and the state is still [RESET]); an operation
    takes it from [MEASURING] to [RESET] only by running the reset
    sequence; and the reset sequence always ends in [RESET], also when the
    reset command failed, returning the reset command's result whatever
    the stop command that follows it returned. *)
Theorem state_machine :
  (forall (bus : Bus) r w, hm3301_probe bus = Some (r, w) -> state w = RESET)
  /\ (forall o (w : hm3301_state Bus) r w',
         run_op o w = Some (r, w') ->
         state w = RESET -> state w' = MEASURING ->
         exists data size d w1,
           o = OpMeas data size
           /\ hm3301_do_cmd HM3301_START_MEAS NULL 0 w = Some ((0, d), w1))
  /\ (forall data size (w : hm3301_state Bus) e d w1,
         state w = RESET ->
         hm3301_do_cmd HM3301_START_MEAS NULL 0 w = Some ((e, d), w1) ->
         e <> 0 ->
         hm3301_do_meas data size w = Some ((e, data), w1)
         /\ state w1 = RESET)
  /\ (forall o (w : hm3301_state Bus) r w',
         run_op o w = Some (r, w') ->
         state w = MEASURING -> state w' = RESET ->
         o = OpReset
         \/ exists v len, o = OpPeriodStore (Some v) len /\ r = len)
  /\ (forall (w : hm3301_state Bus) r bus r' bus',
         i2c_master_send (client w) [0xd3; 0x04] = (r, bus) ->
         i2c_master_send bus [0x01; 0x04] = (r', bus') ->
         hm3301_do_cmd HM3301_RESET NULL 0 w
         = Some ((if r =? 2 then 0 else errno_of r, NULL),
                 after w bus [I2cSend [0xd3; 0x04]])
         /\ hm3301_do_cmd_reset w
            = Some (if r =? 2 then 0 else errno_of r,
                    mk_state bus' RESET
                      (trace w ++ [I2cSend [0xd3; 0x04]; Msleep 300;
                                   I2cSend [0x01; 0x04]]))).
Proof.
  split; [|split; [|split; [|split]]].
  - intros bus r w. unfold hm3301_probe, bind at 1.
    destruct (hm3301_do_cmd_reset _) as [[e w1]|] eqn:Hreset;
      [|discriminate].
    apply do_cmd_reset_state in Hreset.
    destruct (negb (e =? 0)).
    + unfold bind, emit, ret. intros E. inversion E; subst. exact Hreset.
    + unfold bind.
      destruct (hm3301_do_cmd _ _ _ w1) as [[[e' d] w2]|] eqn:Hcmd;
        [|discriminate].
      destruct (keeps_do_cmd _ _ _ _ _ _ Hcmd) as [Hw2 _].
      destruct (negb (e' =? 0)); unfold emit, ret; intros E;
        inversion E; subst; cbn [state]; congruence.
  - intros o w r w' Hrun Hs Hs'.
    destruct (run_op_state _ _ _ _ Hrun) as [E|[[_ [_ Hm]]|[E _]]];
      [congruence|exact Hm|congruence].
  - intros data size w e d w1 Hs Hstart He.
    destruct (keeps_do_cmd _ _ _ _ _ _ Hstart) as [Hw1 _].
    split; [|congruence].
    unfold hm3301_do_meas, bind, get_state. rewrite Hs, Hstart.
    replace (e =? 0) with false by (symmetry; apply Z.eqb_neq; exact He).
    reflexivity.
  - intros o w r w' Hrun Hs Hs'.
    destruct (run_op_state _ _ _ _ Hrun) as [E|[[E _]|[_ Hr]]];
      [congruence|congruence|exact Hr].
  - intros w r bus r' bus' Hreset Hstop. split.
    + rewrite (do_cmd_plain HM3301_RESET NULL 0 w r bus eq_refl Hreset).
      change (loop_trips 0) with O. cbv iota.
      destruct (r =? 2); reflexivity.
    + apply (do_cmd_reset_outcome w r bus r' bus' Hreset Hstop).
Qed.

End StateFacts.

Lemma state_machine_witness :
  hm3301_do_meas [0; 0; 0; 0] 4 (mk_state [(-6, [])] RESET [])
  = Some ((-6, [0; 0; 0; 0]), mk_state [] RESET [I2cSend start_frame])
  /\ state (mk_state (@nil (Z * list Z)) RESET [I2cSend start_frame]) = RESET.
Proof.
  apply (proj1 (proj2 (proj2 state_machine)) [0; 0; 0; 0] 4
           (mk_state [(-6, [])] RESET []) (-6) NULL
           (mk_state [] RESET [I2cSend start_frame]));
    [reflexivity|vm_compute; reflexivity|discriminate].
Defined.

(** ** Polling for fresh data *)

Section PollFacts.

Context {Bus : Type} `{I2C Bus}.

(** One poll that finds the flag clear. *)
Lemma poll_flag_clear t0 t1 tmp (w : hm3301_state Bus)
    bus a b rest bus' :
  i2c_master_send (client w) [0x02; 0x02] = (2, bus) ->
  i2c_master_recv bus 3
  = (3, a :: b :: crc8 [a; b] CRC8_INIT_VALUE :: rest, bus') ->
  hm3301_do_cmd HM3301_READ_DATA_READY_FLAG (t0 :: t1 :: tmp) 2 w
  = Some ((0, a :: b :: tmp),
          after w bus' [I2cSend [0x02; 0x02]; I2cRecv 3]).
Proof.
  intros Hsend Hrecv.
  pose proof (do_cmd_read HM3301_READ_DATA_READY_FLAG (t0 :: t1 :: tmp) 2
                w 2 bus 3
                (a :: b :: crc8 [a; b] CRC8_INIT_VALUE :: rest) bus'
                eq_refl) as Hcmd.
  cbv zeta in Hcmd.
  specialize (Hcmd ltac:(lia) ltac:(vm_compute; discriminate)
                   ltac:(change (loop_trips (2 + Z.quot 2 2)) with 1%nat;
                         simpl; lia)
                   Hsend Hrecv).
  rewrite Hcmd. clear Hcmd.
  change (2 =? 2) with true. change (2 + Z.quot 2 2) with 3.
  change (3 =? 3) with true. cbv iota.
  change (loop_trips 3) with 1%nat.
  change (overlay
            (firstn (Z.to_nat 3)
                    (a :: b :: crc8 [a; b] CRC8_INIT_VALUE :: rest))
            (read_frame HM3301_READ_DATA_READY_FLAG ++ repeat 0 46%nat))
    with ([a; b; crc8 [a; b] CRC8_INIT_VALUE] ++ repeat 0 45%nat).
  cbn [app groups good_prefix group_ok].
  rewrite Z.eqb_refl. reflexivity.
Qed.

(** The polling loop when the flag stays clear: every poll is followed
    by a sleep, the last one too, and [tries] ends as -1. *)
Lemma poll_ready_exhausted n : forall t0 t1 tmp (w : hm3301_state Bus)
    bus_end,
  polls_not_ready n (client w) bus_end ->
  exists t0' t1',
    poll_ready n (t0 :: t1 :: tmp) w
    = Some ((None, -1, t0' :: t1' :: tmp),
            after w bus_end (concat (repeat poll_events n))).
Proof.
  induction n as [|n IH]; intros t0 t1 tmp w bus_end Hpolls.
  - cbn in Hpolls. subst bus_end. exists t0, t1.
    unfold after. cbn [poll_ready repeat concat]. unfold ret.
    rewrite app_nil_r. destruct w; reflexivity.
  - cbn [polls_not_ready] in Hpolls.
    destruct Hpolls as (bus1 & a & b & rest & bus2 & Hs & Hr & Hb & Hn).
    cbn [poll_ready]. unfold bind at 1.
    rewrite (poll_flag_clear t0 t1 tmp w bus1 a b rest bus2 Hs Hr).
    change (negb (0 =? 0)) with false. cbv iota.
    unfold bind at 1, lift. change (rd (a :: b :: tmp) 1) with (Some b).
    cbv iota.
    replace (b =? 1) with false by (symmetry; apply Z.eqb_neq; exact Hb).
    unfold bind, msleep, emit.
    destruct (IH a b tmp
                (mk_state bus2 (state w)
                   ((trace w ++ [I2cSend [0x02; 0x02]; I2cRecv 3])
                    ++ [Msleep 300]))
                bus_end Hn) as (t0' & t1' & Hrec).
    exists t0', t1'. unfold after in Hrec |- *.
    cbn [client state trace] in Hrec |- *. rewrite Hrec.
    cbn [repeat concat]. unfold poll_events at 2.
    rewrite <- !app_assoc. reflexivity.
Qed.

(** C4 (as amended): once the device is measuring (it was already, or
    the start command has just succeeded), a ready flag that reads as
    not ready at all five polls makes [hm3301_do_meas] poll five times,
    sleep 300 ms after each of the five polls, and return [-ETIMEDOUT]
    with the state left as [MEASURING] and [data] untouched. *)
Theorem poll_timeout (data : list Z) (size : Z) (w : hm3301_state Bus)
    (bus bus_end : Bus) (started : list event) :
  (state w = MEASURING /\ bus = client w /\ started = [])
  \/ (state w = RESET
      /\ i2c_master_send (client w) start_frame = (5, bus)
      /\ started = [I2cSend start_frame]) ->
  polls_not_ready 5 bus bus_end ->
  let polls := concat (repeat poll_events 5) in
  hm3301_do_meas data size w
  = Some ((- ETIMEDOUT, data),
          mk_state bus_end MEASURING (trace w ++ started ++ polls))
  /\ length (filter is_flag_read polls) = 5%nat
  /\ filter is_sleep polls = repeat (Msleep 300) 5.
Proof.
  intros Hstart Hpolls polls. split; [|split; reflexivity].
  unfold hm3301_do_meas, bind at 1, get_state.
  assert (Hrest : forall st tr,
             do_meas_poll_and_read data size (mk_state bus st tr)
             = Some ((- ETIMEDOUT, data),
                     mk_state bus_end st (tr ++ polls))).
  { intros st tr. unfold do_meas_poll_and_read, bind.
    destruct (poll_ready_exhausted 5 0 0 (repeat 0 14%nat)
                (mk_state bus st tr) bus_end Hpolls) as (t0 & t1 & Hp).
    change (repeat 0 16%nat) with (0 :: 0 :: repeat 0 14%nat).
    rewrite Hp. reflexivity. }
  destruct Hstart as [(Hs & -> & ->)|(Hs & Hsend & ->)]; rewrite Hs.
  - unfold bind, ret. destruct w as [b st tr]. cbn in Hs |- *. subst st.
    apply Hrest.
  - unfold bind at 1 2.
    rewrite (do_cmd_start NULL 0 w 5 bus Hsend).
    change (5 =? 5) with true. change (loop_trips 0) with O. cbv iota.
    change (negb (0 =? 0)) with false. cbv iota.
    unfold bind, set_state, ret, after. cbn [client state trace].
    rewrite Hrest. rewrite <- app_assoc. reflexivity.
Qed.

End PollFacts.

Lemma poll_timeout_witness :
  let polls := concat (repeat poll_events 5) in
  hm3301_do_meas [0; 0; 0; 0] 4 (mk_state idle_sensor RESET [])
  = Some ((- ETIMEDOUT, [0; 0; 0; 0]),
          mk_state [(2, []); (3, framed [0x00; 0x00])] MEASURING
                   ([] ++ [I2cSend start_frame] ++ polls))
  /\ length (filter is_flag_read polls) = 5%nat
  /\ filter is_sleep polls = repeat (Msleep 300) 5.
Proof.
  apply (poll_timeout [0; 0; 0; 0] 4 (mk_state idle_sensor RESET [])
           (concat (repeat [(2, []); (3, framed [0x00; 0x00])] 6))
           [(2, []); (3, framed [0x00; 0x00])] [I2cSend start_frame]).
  - right. repeat split.
  - cbn [polls_not_ready].
    repeat (do 5 eexists; split; [reflexivity|]; split; [reflexivity|];
            split; [discriminate|]).
    reflexivity.
Defined.

(** C4, as stated, fails: with a flag that never reads as ready the
    driver sleeps five times, not four; the fifth sleep follows the last
    poll. *)
Lemma poll_timeout_sleeps_five_times :
  option_map
    (fun r => (fst (fst r), length (filter is_sleep (trace (snd r)))))
    (hm3301_do_meas [0; 0; 0; 0] 4 (mk_state idle_sensor RESET []))
  = Some (- ETIMEDOUT, 5%nat)
  /\ 5%nat <> 4%nat.
Proof.
  split; [vm_compute; reflexivity|discriminate].
Qed.

(** ** The float decoder *)

Lemma shr32_ok (a n : Z) : 0 <= n < 32 -> shr32 a n = Some (Z.shiftr a n).
Proof.
  intros Hn. unfold shr32.
  replace ((0 <=? n) && (n <? 32)) with true; [reflexivity|].
  symmetry. apply andb_true_iff. split; [apply Z.leb_le|apply Z.ltb_lt]; lia.
Qed.

Lemma shl32_ok (a n : Z) :
  0 <= n < 32 -> shl32 a n = Some (s32 (Z.shiftl a n)).
Proof.
  intros Hn. unfold shl32.
  replace ((0 <=? n) && (n <? 32)) with true; [reflexivity|].
  symmetry. apply andb_true_iff. split; [apply Z.leb_le|apply Z.ltb_lt]; lia.
Qed.

Lemma shr32_undefined (a n : Z) : n < 0 \/ 32 <= n -> shr32 a n = None.
Proof.
  intros Hn. unfold shr32.
  replace ((0 <=? n) && (n <? 32)) with false; [reflexivity|].
  symmetry. apply andb_false_iff.
  destruct Hn; [left; apply Z.leb_gt|right; apply Z.ltb_ge]; lia.
Qed.

Lemma shl32_undefined (a n : Z) : n < 0 \/ 32 <= n -> shl32 a n = None.
Proof.
  intros Hn. unfold shl32.
  replace ((0 <=? n) && (n <? 32)) with false; [reflexivity|].
  symmetry. apply andb_false_iff.
  destruct Hn; [left; apply Z.leb_gt|right; apply Z.ltb_ge]; lia.
Qed.

Lemma f32_mantissa_range (bits : Z) : 0 <= f32_mantissa bits < 2 ^ 23.
Proof.
  unfold f32_mantissa. rewrite Z.land_ones by lia.
  apply Z.mod_pos_bound. lia.
Qed.

Lemma f32_exponent_range (bits : Z) :
  0 <= bits < 2 ^ 31 -> -127 <= f32_exponent bits <= 128.
Proof.
  intros Hb. unfold f32_exponent. rewrite Z.shiftr_div_pow2 by lia.
  assert (0 <= bits / 2 ^ 23) by (apply Z.div_pos; lia).
  assert (bits / 2 ^ 23 < 256) by (apply Z.div_lt_upper_bound; lia).
  lia.
Qed.

(** The decoder up to the test of the exponent's sign, for a bit pattern
    with a clear sign bit that is not zero. *)
Lemma float_decoder_fields (fp : list Z) (bits : Z) :
  get_unaligned_be32 fp = Some bits ->
  0 < bits < 2 ^ 31 ->
  float_to_int_clamped fp
  = let mantissa := f32_mantissa bits in
    let exp := f32_exponent bits in
    if exp <? 0 then
      one <- shl32 1 23 ;;
      hundredths <- shr32 (mul32 (add32 one mantissa) 100) 23 ;;
      shr32 hundredths (s32 (- exp))
    else
      let shift := sub32 23 exp in
      hi <- shl32 1 exp ;;
      lo <- shr32 mantissa shift ;;
      let val := add32 hi lo in
      if val >=? HM3301_MAX_PM then Some (mul32 HM3301_MAX_PM 100) else
      msk <- GENMASK 64 (shift - 1) 0 ;;
      let fraction := s32 (Z.land mantissa msk) in
      frac <- shr32 (mul32 fraction 100) shift ;;
      Some (add32 (mul32 val 100) frac).
Proof.
  intros Hget Hbits.
  pose proof (f32_mantissa_range bits) as Hm.
  pose proof (f32_exponent_range bits ltac:(lia)) as He.
  unfold float_to_int_clamped, float_to_int_clamped_on. rewrite Hget.
  cbv zeta. rewrite (s32_small bits) by lia.
  rewrite (GENMASK_low 64 22) by lia. change (22 + 1) with 23.
  fold (f32_mantissa bits). rewrite (s32_small (f32_mantissa bits)) by lia.
  rewrite shr32_ok by lia.
  replace (sub32 (Z.shiftr bits 23) 127) with (f32_exponent bits)
    by (unfold sub32; rewrite s32_small; unfold f32_exponent in *; lia).
  replace ((Z.shiftr bits 23 =? 0) && (f32_mantissa bits =? 0)) with false;
    [reflexivity|].
  symmetry. apply andb_false_iff.
  destruct (Z.eq_dec (Z.shiftr bits 23) 0) as [E|E];
    [right|left; apply Z.eqb_neq; exact E].
  apply Z.eqb_neq. intros Em.
  rewrite Z.shiftr_div_pow2 in E by lia.
  unfold f32_mantissa in Em. rewrite Z.land_ones in Em by lia.
  pose proof (Z.div_mod bits (2 ^ 23) ltac:(lia)). lia.
Qed.

(** C3 (as amended): for every bit pattern with a clear sign bit whose
    exponent [e] is between -31 and -1, the decoder computes
    [(((1 << 23) + mantissa) * 100) >> 23], shifts that right by [-e], and
    the result is between 0 and 99 (0 for the values below 0.01); the bit
    pattern of 0.5 decodes to 50. *)
Theorem float_decoder_fraction (fp : list Z) (bits : Z) :
  get_unaligned_be32 fp = Some bits ->
  0 <= bits < 2 ^ 31 ->
  let e := f32_exponent bits in
  -31 <= e < 0 ->
  let r := Z.shiftr
             (Z.shiftr ((Z.shiftl 1 23 + f32_mantissa bits) * 100) 23)
             (- e) in
  float_to_int_clamped fp = Some r
  /\ 0 <= r <= 99
  /\ float_to_int_clamped [0x3f; 0x00; 0x00; 0x00] = Some 50.
Proof.
  intros Hget Hbits e He r.
  pose proof (f32_mantissa_range bits) as Hm.
  assert (Hpos : 0 < bits).
  { destruct (Z.eq_dec bits 0) as [->|]; [|lia].
    subst e. unfold f32_exponent in He.
    change (Z.shiftr 0 23) with 0 in He. lia. }
  split; [|split; [|reflexivity]].
  - rewrite (float_decoder_fields fp bits Hget) by lia. cbv zeta. fold e.
    replace (e <? 0) with true by (symmetry; apply Z.ltb_lt; lia).
    rewrite shl32_ok by lia. change (s32 (Z.shiftl 1 23)) with (2 ^ 23).
    unfold add32, mul32.
    rewrite (s32_small (2 ^ 23 + _)) by lia.
    rewrite (s32_small ((2 ^ 23 + _) * 100)) by lia.
    rewrite shr32_ok by lia. rewrite (s32_small (- e)) by lia.
    rewrite shr32_ok by lia. reflexivity.
  - subst r. change (Z.shiftl 1 23) with (2 ^ 23).
    set (x := Z.shiftr ((2 ^ 23 + f32_mantissa bits) * 100) 23).
    assert (Hx : 100 <= x <= 199).
    { subst x. rewrite Z.shiftr_div_pow2 by lia. split.
      - apply Z.div_le_lower_bound; lia.
      - apply Z.lt_succ_r, Z.div_lt_upper_bound; lia. }
    rewrite Z.shiftr_div_pow2 by lia.
    assert (Hp : 2 <= 2 ^ (- e)).
    { change 2 with (2 ^ 1) at 1. apply Z.pow_le_mono_r; lia. }
    split.
    + apply Z.div_pos; lia.
    + apply Z.lt_succ_r, Z.div_lt_upper_bound; nia.
Qed.

Lemma float_decoder_fraction_witness :
  let r := Z.shiftr
             (Z.shiftr ((Z.shiftl 1 23 + f32_mantissa 0x3e800000) * 100) 23)
             (- f32_exponent 0x3e800000) in
  float_to_int_clamped [0x3e; 0x80; 0x00; 0x00] = Some r
  /\ 0 <= r <= 99
  /\ float_to_int_clamped [0x3f; 0x00; 0x00; 0x00] = Some 50.
Proof.
  apply (float_decoder_fraction [0x3e; 0x80; 0x00; 0x00] 0x3e800000);
    [reflexivity
    |vm_compute; split; [discriminate|reflexivity]
    |vm_compute; split; [discriminate|reflexivity]].
Defined.

(** C3, as stated, fails: 2^-8 = 0.00390625 has a negative exponent and
    decodes to 0, which is not between 1 and 99. *)
Lemma float_decoder_fraction_zero :
  f32_exponent 0x3b800000 = -8
  /\ float_to_int_clamped [0x3b; 0x80; 0x00; 0x00] = Some 0
  /\ ~ (1 <= 0 <= 99).
Proof.
  split; [reflexivity|]. split; [reflexivity|lia].
Qed.

(** From exponent 0 to exponent 23 the decoder is defined: it clamps
    when the integer part reaches [HM3301_MAX_PM] and otherwise adds the
    hundredths of the fraction. *)
Lemma float_decoder_integer (fp : list Z) (bits : Z) :
  get_unaligned_be32 fp = Some bits ->
  0 <= bits < 2 ^ 31 ->
  let e := f32_exponent bits in
  0 <= e <= 23 ->
  let v := Z.shiftl 1 e + Z.shiftr (f32_mantissa bits) (23 - e) in
  let r := if v >=? HM3301_MAX_PM then 300000
           else v * 100
                + Z.shiftr (Z.land (f32_mantissa bits) (Z.ones (23 - e)) * 100)
                           (23 - e) in
  float_to_int_clamped fp = Some r /\ 100 <= r <= 300000.
Proof.
  intros Hget Hbits e He v r.
  pose proof (f32_mantissa_range bits) as Hm.
  assert (Hpos : 0 < bits).
  { destruct (Z.eq_dec bits 0) as [->|]; [|lia].
    subst e. unfold f32_exponent in He.
    change (Z.shiftr 0 23) with 0 in He. lia. }
  assert (Hpow : 1 <= 2 ^ e <= 2 ^ 23).
  { split; [apply Z.lt_pred_le, Z.pow_pos_nonneg; lia|].
    apply Z.pow_le_mono_r; lia. }
  assert (Hlo : 0 <= Z.shiftr (f32_mantissa bits) (23 - e) < 2 ^ 23).
  { rewrite Z.shiftr_div_pow2 by lia.
    assert (0 < 2 ^ (23 - e)) by (apply Z.pow_pos_nonneg; lia).
    split; [apply Z.div_pos; lia|].
    apply Z.div_lt_upper_bound; nia. }
  assert (Hv : v = 2 ^ e + Z.shiftr (f32_mantissa bits) (23 - e)).
  { subst v. rewrite Z.shiftl_1_l. reflexivity. }
  rewrite (float_decoder_fields fp bits Hget) by lia. cbv zeta. fold e.
  replace (e <? 0) with false by (symmetry; apply Z.ltb_ge; lia).
  unfold sub32, add32, mul32. rewrite (s32_small (23 - e)) by lia.
  rewrite shl32_ok by lia. rewrite shr32_ok by lia.
  rewrite Z.shiftl_1_l. rewrite (s32_small (2 ^ e)) by lia.
  rewrite (s32_small (2 ^ e + _)) by lia. rewrite <- Hv.
  subst r. unfold HM3301_MAX_PM. destruct (v >=? 3000) eqn:Hclamp.
  - split; [reflexivity|lia].
  - assert (Hlt : v < 3000) by (rewrite Z.geb_leb in Hclamp;
                                apply Z.leb_gt in Hclamp; lia).
    assert (He' : e <= 11).
    { destruct (Z.le_gt_cases e 11) as [|Hbig]; [assumption|].
      assert (2 ^ 12 <= 2 ^ e) by (apply Z.pow_le_mono_r; lia). lia. }
    rewrite (GENMASK_low 64 (23 - e - 1)) by lia.
    replace (23 - e - 1 + 1) with (23 - e) by lia.
    set (s := 23 - e) in *.
    assert (Hs : 0 < 2 ^ s <= 2 ^ 23).
    { split; [apply Z.pow_pos_nonneg; lia|apply Z.pow_le_mono_r; lia]. }
    assert (Hf : 0 <= Z.land (f32_mantissa bits) (Z.ones s) < 2 ^ s).
    { rewrite Z.land_ones by lia. apply Z.mod_pos_bound. lia. }
    rewrite (s32_small (Z.land _ _)) by lia.
    rewrite (s32_small (Z.land _ _ * 100)) by lia.
    rewrite shr32_ok by lia.
    assert (Hfrac : 0 <= Z.shiftr (Z.land (f32_mantissa bits) (Z.ones s) * 100) s
                    <= 99).
    { rewrite Z.shiftr_div_pow2 by lia. split.
      - apply Z.div_pos; lia.
      - apply Z.lt_succ_r, Z.div_lt_upper_bound; nia. }
    rewrite (s32_small (v * 100)) by lia.
    rewrite s32_small by lia.
    split; [reflexivity|lia].
Qed.

(** Outside the exponents -31 .. 23, and for a set sign bit, a shift
    count of the decoder is outside the width of [int]: the C code has no
    defined result. *)
Lemma float_decoder_undefined (fp : list Z) (bits : Z) :
  get_unaligned_be32 fp = Some bits ->
  0 < bits < 2 ^ 31 ->
  f32_exponent bits < -31 \/ 23 < f32_exponent bits ->
  float_to_int_clamped fp = None.
Proof.
  intros Hget Hbits He.
  pose proof (f32_mantissa_range bits) as Hm.
  pose proof (f32_exponent_range bits ltac:(lia)) as Hrange.
  rewrite (float_decoder_fields fp bits Hget) by lia. cbv zeta.
  set (e := f32_exponent bits) in *.
  destruct He as [He|He].
  - replace (e <? 0) with true by (symmetry; apply Z.ltb_lt; lia).
    rewrite shl32_ok by lia. rewrite shr32_ok by lia.
    rewrite (s32_small (- e)) by lia.
    apply shr32_undefined. lia.
  - replace (e <? 0) with false by (symmetry; apply Z.ltb_ge; lia).
    destruct (Z.lt_ge_cases e 32) as [Hsmall|Hbig].
    + rewrite shl32_ok by lia. unfold sub32.
      rewrite (s32_small (23 - e)) by lia.
      rewrite shr32_undefined by lia. reflexivity.
    + rewrite shl32_undefined by lia. reflexivity.
Qed.

Lemma float_decoder_negative (fp : list Z) (bits : Z) :
  get_unaligned_be32 fp = Some bits ->
  2 ^ 31 <= bits < 2 ^ 32 ->
  float_to_int_clamped fp = None.
Proof.
  intros Hget Hbits.
  unfold float_to_int_clamped, float_to_int_clamped_on. rewrite Hget.
  cbv zeta.
  assert (Hval : s32 bits = bits - 2 ^ 32).
  { unfold s32.
    replace (bits + 2 ^ 31) with (bits - 2 ^ 31 + 1 * 2 ^ 32) by lia.
    rewrite Z.mod_add by lia. rewrite Z.mod_small; lia. }
  rewrite Hval. set (val := bits - 2 ^ 32).
  rewrite (GENMASK_low 64 22) by lia. rewrite shr32_ok by lia.
  assert (Hexp : -256 <= Z.shiftr val 23 <= -1).
  { rewrite Z.shiftr_div_pow2 by lia. subst val. split.
    - apply Z.div_le_lower_bound; lia.
    - apply Z.lt_succ_r, Z.div_lt_upper_bound; lia. }
  replace (Z.shiftr val 23 =? 0) with false
    by (symmetry; apply Z.eqb_neq; lia).
  cbn [andb]. unfold sub32. rewrite (s32_small (_ - 127)) by lia.
  replace (Z.shiftr val 23 - 127 <? 0) with true
    by (symmetry; apply Z.ltb_lt; lia).
  rewrite shl32_ok by lia. rewrite shr32_ok by lia.
  rewrite (s32_small (- _)) by lia.
  apply shr32_undefined. lia.
Qed.

(** The decoder does not depend on the width of [unsigned long]. *)
Lemma GENMASK_width (h : Z) : -1 <= h < 31 -> GENMASK 32 h 0 = GENMASK 64 h 0.
Proof.
  intros Hh. destruct (Z.eq_dec h (-1)) as [->|]; [reflexivity|].
  rewrite !GENMASK_low by lia. reflexivity.
Qed.

(** The decoder gives the same result, defined or not, where
    [unsigned long] has 32 bits and where it has 64. *)
Lemma float_to_int_clamped_long_width (fp : list Z) :
  float_to_int_clamped_on 32 fp = float_to_int_clamped fp.
Proof.
  unfold float_to_int_clamped, float_to_int_clamped_on.
  destruct (get_unaligned_be32 fp) as [be|]; [|reflexivity]. cbv zeta.
  rewrite !(GENMASK_low _ 22) by lia.
  destruct (shr32 (s32 be) 23) as [exp|]; [|reflexivity].
  destruct (_ && _); [reflexivity|].
  destruct (_ <? 0); [reflexivity|].
  destruct (shl32 1 _) as [hi|]; [|reflexivity].
  destruct (shr32 _ (sub32 23 _)) as [lo|] eqn:Hlo; [|reflexivity].
  destruct (_ >=? _); [reflexivity|].
  rewrite GENMASK_width; [reflexivity|].
  unfold shr32 in Hlo.
  destruct ((0 <=? sub32 23 (sub32 exp 127)) && (sub32 23 (sub32 exp 127) <? 32))
    eqn:Hs; [|discriminate].
  apply andb_true_iff in Hs. destruct Hs as [H0 H1].
  apply Z.leb_le in H0. apply Z.ltb_lt in H1. lia.
Qed.

(** C2: the claim holds for the exponents 0 .. 23, and the code breaks it
    beyond: 2^32 has the exponent 32, its integer part is far above 3000,
    and the decoder does not clamp it; it shifts by a count that C leaves
    undefined ([1 << 32] and [mantissa >> -9]). *)
Lemma float_decoder_two_pow_32 :
  get_unaligned_be32 [0x4f; 0x80; 0x00; 0x00] = Some 0x4f800000
  /\ f32_exponent 0x4f800000 = 32
  /\ HM3301_MAX_PM
     <= Z.shiftl 1 32 + Z.shiftr (f32_mantissa 0x4f800000) (23 - 32)
  /\ float_to_int_clamped [0x4f; 0x80; 0x00; 0x00] = None.
Proof.
  repeat split. vm_compute. discriminate.
Qed.

(** ** End to end *)

Lemma example_channels_rounded :
  (channel_bits example_channels 0 = Some 0x414570a4
   /\ f32_rounds 1234 100 0x414570a4 = true)
  /\ (channel_bits example_channels 1 = Some 0
      /\ f32_rounds 0 1 0 = true)
  /\ (channel_bits example_channels 2 = Some 0x455ac000
      /\ f32_rounds 3500 1 0x455ac000 = true)
  /\ (channel_bits example_channels 3 = Some 0x42366666
      /\ f32_rounds 456 10 0x42366666 = true).
Proof.
  repeat split; vm_compute; reflexivity.
Qed.

Section EndToEnd.

Context {Bus : Type} `{I2C Bus}.

(** The response with the four channels, once it has been received. *)
Lemma do_cmd_read_channels tmp (w : hm3301_state Bus) bus bus' :
length tmp = 16%nat ->
i2c_master_send (client w) [0x03; 0x00] = (2, bus) ->
i2c_master_recv bus 24 = (24, framed example_channels, bus') ->
hm3301_do_cmd HM3301_READ_DATA tmp 16 w
= Some ((0, example_channels),
        after w bus' [I2cSend [0x03; 0x00]; I2cRecv 24]).
Proof.
intros Htmp Hsend Hrecv.
pose proof (do_cmd_read HM3301_READ_DATA tmp 16 w 2 bus 24
              (framed example_channels) bus' eq_refl) as Hcmd.
cbv zeta in Hcmd.
specialize (Hcmd ltac:(lia) ltac:(vm_compute; discriminate)
                 ltac:(rewrite Htmp; vm_compute; lia) Hsend Hrecv).
rewrite Hcmd. clear Hcmd.
change (2 =? 2) with true. change (16 + Z.quot 16 2) with 24.
change (24 =? 24) with true. cbv iota.
change (loop_trips 24) with 8%nat.
set (good := good_prefix _).
assert (Hgood : good = groups 8 (framed example_channels))
  by (vm_compute; reflexivity).
rewrite Hgood.
change (length (groups 8 (framed example_channels))) with 8%nat.
change (data_bytes (groups 8 (framed example_channels)))
  with example_channels.
change (8 =? 8)%nat with true. cbv iota.
replace (skipn (2 * 8) tmp) with (@nil Z).
- rewrite !app_nil_r. reflexivity.
- symmetry. apply skipn_all2. rewrite Htmp. simpl. lia.
Qed.

(** C7 (as amended): given a transport that acknowledges the commands,
  reports fresh data at the first poll and answers the data read with
  the correctly checksummed bytes of [example_channels] (the
  single-precision numbers nearest to 12.34, 0.0, 3500.0 and 45.6),
  [hm3301_do_meas] returns 0 with the samples 1234, 0, 300000 and 4559:
  the third channel is clamped, and the fourth is truncated, since the
  number nearest to 45.6 is just below it. *)
Theorem measurement_end_to_end (data : list Z) (w : hm3301_state Bus)
  (bus bus1 bus2 bus3 bus4 : Bus) (started : list event)
  (a : Z) (rest : list Z) :
length data = 4%nat ->
(state w = MEASURING /\ bus = client w /\ started = [])
\/ (state w = RESET
    /\ i2c_master_send (client w) start_frame = (5, bus)
    /\ started = [I2cSend start_frame]) ->
i2c_master_send bus [0x02; 0x02] = (2, bus1) ->
i2c_master_recv bus1 3
= (3, a :: 1 :: crc8 [a; 1] CRC8_INIT_VALUE :: rest, bus2) ->
i2c_master_send bus2 [0x03; 0x00] = (2, bus3) ->
i2c_master_recv bus3 24 = (24, framed example_channels, bus4) ->
hm3301_do_meas data 4 w
= Some ((0, [1234; 0; 300000; 4559]),
        mk_state bus4 MEASURING
          (trace w ++ started
           ++ [I2cSend [0x02; 0x02]; I2cRecv 3;
               I2cSend [0x03; 0x00]; I2cRecv 24])).
Proof.
intros Hdata Hstart Hs1 Hr1 Hs2 Hr2.
destruct data as [|d0 [|d1 [|d2 [|d3 [|]]]]]; try discriminate.
assert (Hrest : forall st tr,
           do_meas_poll_and_read [d0; d1; d2; d3] 4 (mk_state bus st tr)
           = Some ((0, [1234; 0; 300000; 4559]),
                   mk_state bus4 st
                     (tr ++ [I2cSend [0x02; 0x02]; I2cRecv 3;
                             I2cSend [0x03; 0x00]; I2cRecv 24]))).
{ intros st tr. unfold do_meas_poll_and_read, bind at 1.
  change (repeat 0 16%nat) with (0 :: 0 :: repeat 0 14%nat).
  cbn [poll_ready]. unfold bind at 1.
  rewrite (poll_flag_clear 0 0 (repeat 0 14%nat) (mk_state bus st tr)
             bus1 a 1 rest bus2 Hs1 Hr1).
  change (negb (0 =? 0)) with false. cbv iota.
  unfold bind at 1, lift.
  change (rd (a :: 1 :: repeat 0 14%nat) 1) with (Some 1).
  cbv iota. change (1 =? 1) with true. cbv iota.
  unfold ret at 1. change (Z.of_nat 4 =? -1) with false. cbv iota.
  unfold bind at 1. change (mul32 4 4) with 16.
  unfold after at 1. cbn [client state trace].
  rewrite (do_cmd_read_channels (a :: 1 :: repeat 0 14%nat)
             (mk_state bus2 st _) bus3 bus4 eq_refl Hs2 Hr2).
  change (negb (0 =? 0)) with false. cbv iota.
  unfold bind, lift.
  change (decode_channels (Z.to_nat 4) example_channels 0 [d0; d1; d2; d3])
    with (Some [1234; 0; 300000; 4559]).
  unfold ret, after. cbn [client state trace].
  rewrite <- app_assoc. reflexivity. }
unfold hm3301_do_meas, bind at 1, get_state.
destruct Hstart as [(Hs & -> & ->)|(Hs & Hsend & ->)]; rewrite Hs.
- unfold bind, ret. destruct w as [b st tr]. cbn in Hs |- *. subst st.
  apply Hrest.
- unfold bind at 1 2.
  rewrite (do_cmd_start NULL 0 w 5 bus Hsend).
  change (5 =? 5) with true. change (loop_trips 0) with O. cbv iota.
  change (negb (0 =? 0)) with false. cbv iota.
  unfold bind, set_state, ret, after. cbn [client state trace].
  rewrite Hrest. rewrite <- app_assoc. reflexivity.
Qed.

End EndToEnd.

Lemma measurement_end_to_end_witness :
  hm3301_do_meas [0; 0; 0; 0] 4 (mk_state example_sensor RESET [])
  = Some ((0, [1234; 0; 300000; 4559]),
          mk_state [] MEASURING
            ([] ++ [I2cSend start_frame]
             ++ [I2cSend [0x02; 0x02]; I2cRecv 3;
                 I2cSend [0x03; 0x00]; I2cRecv 24])).
Proof.
  apply (measurement_end_to_end [0; 0; 0; 0]
           (mk_state example_sensor RESET [])
           (tl example_sensor) (tl (tl example_sensor))
           (tl (tl (tl example_sensor))) (tl (tl (tl (tl example_sensor))))
           [] [I2cSend start_frame] 0 []);
    try reflexivity.
  right. repeat split.
Defined.

(** C7, as stated, fails: the fourth sample is 4559, not 4560. *)
Lemma measurement_fourth_channel :
  option_map (fun r => snd (fst r))
    (hm3301_do_meas [0; 0; 0; 0] 4 (mk_state example_sensor RESET []))
  = Some [1234; 0; 300000; 4559]
  /\ [1234; 0; 300000; 4559] <> [1234; 0; 300000; 4560].
Proof.
  split; [vm_compute; reflexivity|discriminate].
Qed.

(** * Further properties *)

(** ** The float decoder as a function of the value *)

Lemma float_decoder_below_one (fp : list Z) (bits : Z) :
  get_unaligned_be32 fp = Some bits ->
  0 < bits < 2 ^ 31 ->
  let e := f32_exponent bits in
  -31 <= e < 0 ->
  let m := 2 ^ 23 + f32_mantissa bits in
  float_to_int_clamped fp = Some (m * 100 / 2 ^ (23 - e))
  /\ m < HM3301_MAX_PM * 2 ^ (23 - e).
Proof.
  intros Hget Hbits e He m.
  pose proof (f32_mantissa_range bits) as Hm.
  rewrite (float_decoder_fields fp bits Hget) by lia. cbv zeta. fold e.
  replace (e <? 0) with true by (symmetry; apply Z.ltb_lt; lia).
  rewrite shl32_ok by lia. change (s32 (Z.shiftl 1 23)) with (2 ^ 23).
  unfold add32, mul32. fold m.
  rewrite (s32_small m) by (subst m; lia).
  rewrite (s32_small (m * 100)) by (subst m; lia).
  rewrite shr32_ok by lia. rewrite (s32_small (- e)) by lia.
  rewrite shr32_ok by lia.
  assert (Hpow : 2 ^ (23 - e) = 2 ^ 23 * 2 ^ (- e))
    by (rewrite <- Z.pow_add_r by lia; f_equal; lia).
  assert (Hbig : 2 ^ 1 <= 2 ^ (- e)) by (apply Z.pow_le_mono_r; lia).
  split.
  - f_equal. rewrite !Z.shiftr_div_pow2 by lia.
    rewrite Hpow. rewrite Z.div_div by lia. reflexivity.
  - unfold HM3301_MAX_PM. subst m. rewrite Hpow. nia.
Qed.

Lemma float_decoder_from_one (fp : list Z) (bits : Z) :
  get_unaligned_be32 fp = Some bits ->
  0 <= bits < 2 ^ 31 ->
  let e := f32_exponent bits in
  0 <= e <= 23 ->
  let m := 2 ^ 23 + f32_mantissa bits in
  float_to_int_clamped fp
  = Some (if HM3301_MAX_PM * 2 ^ (23 - e) <=? m then 300000
          else m * 100 / 2 ^ (23 - e)).
Proof.
  intros Hget Hbits e He m.
  pose proof (f32_mantissa_range bits) as Hm.
  destruct (float_decoder_integer fp bits Hget Hbits ltac:(fold e; lia))
    as [Hdec _].
  rewrite Hdec. clear Hdec. fold e. f_equal.
  set (s := 23 - e).
  assert (Hs : 0 < 2 ^ s) by (apply Z.pow_pos_nonneg; subst s; lia).
  assert (Hsplit : 2 ^ 23 = 2 ^ e * 2 ^ s)
    by (rewrite <- Z.pow_add_r by (subst s; lia); f_equal; subst s; lia).
  rewrite Z.shiftl_1_l, Z.shiftr_div_pow2 by (subst s; lia).
  assert (Hv : 2 ^ e + f32_mantissa bits / 2 ^ s = m / 2 ^ s).
  { subst m. rewrite Hsplit. rewrite Z.div_add_l by lia. reflexivity. }
  rewrite Hv. unfold HM3301_MAX_PM.
  assert (Hclamp : (m / 2 ^ s >=? 3000) = (3000 * 2 ^ s <=? m)).
  { rewrite Z.geb_leb.
    destruct (Z.leb_spec 3000 (m / 2 ^ s)) as [Hle|Hlt];
      symmetry; [apply Z.leb_le|apply Z.leb_gt].
    - pose proof (Z.mul_div_le m (2 ^ s) Hs). nia.
    - pose proof (Z.div_mod m (2 ^ s) ltac:(lia)).
      pose proof (Z.mod_pos_bound m (2 ^ s) Hs). nia. }
  rewrite Hclamp. destruct (3000 * 2 ^ s <=? m); [reflexivity|].
  rewrite Z.land_ones by (subst s; lia).
  rewrite Z.shiftr_div_pow2 by (subst s; lia).
  assert (Hmod : f32_mantissa bits mod 2 ^ s = m mod 2 ^ s).
  { subst m. rewrite Hsplit.
    rewrite Z.add_comm, Z.mod_add by lia. reflexivity. }
  rewrite Hmod.
  rewrite (Z.div_mod m (2 ^ s)) at 3 by lia.
  replace ((2 ^ s * (m / 2 ^ s) + m mod 2 ^ s) * 100)
    with (m / 2 ^ s * 100 * 2 ^ s + m mod 2 ^ s * 100) by ring.
  rewrite Z.div_add_l by lia. reflexivity.
Qed.

Lemma f32_exponent_of_zero : f32_exponent 0 = -127.
Proof. reflexivity. Qed.

(** On the exponents -31 .. 23 the decoder truncates: with the
    significand [m = 2^23 + mantissa] the value is [m / 2^(23 - e)], and the
    result is 300000 when the value reaches [HM3301_MAX_PM] and the value
    times 100, rounded down, otherwise. *)
Theorem float_decoder_truncates (fp : list Z) (bits : Z) :
  get_unaligned_be32 fp = Some bits ->
  0 <= bits < 2 ^ 31 ->
  let e := f32_exponent bits in
  -31 <= e <= 23 ->
  let m := 2 ^ 23 + f32_mantissa bits in
  float_to_int_clamped fp
  = Some (if HM3301_MAX_PM * 2 ^ (23 - e) <=? m then 300000
          else m * 100 / 2 ^ (23 - e)).
Proof.
  intros Hget Hbits e He m.
  assert (Hpos : 0 < bits).
  { destruct (Z.eq_dec bits 0) as [E|]; [|lia].
    subst e. rewrite E, f32_exponent_of_zero in He. lia. }
  destruct (Z.lt_ge_cases e 0) as [Hneg|Hnonneg].
  - destruct (float_decoder_below_one fp bits Hget ltac:(lia)
                ltac:(fold e; lia)) as [Hdec Hlt].
    fold e in Hdec, Hlt. fold m in Hdec, Hlt. rewrite Hdec.
    replace (HM3301_MAX_PM * 2 ^ (23 - e) <=? m) with false
      by (symmetry; apply Z.leb_gt; exact Hlt).
    reflexivity.
  - apply (float_decoder_from_one fp bits Hget Hbits). fold e. lia.
Qed.

Lemma float_decoder_truncates_witness :
  float_to_int_clamped [0x42; 0x36; 0x66; 0x66]
  = Some (if HM3301_MAX_PM * 2 ^ (23 - f32_exponent 0x42366666)
             <=? 2 ^ 23 + f32_mantissa 0x42366666
          then 300000
          else (2 ^ 23 + f32_mantissa 0x42366666) * 100
               / 2 ^ (23 - f32_exponent 0x42366666)).
Proof.
  apply (float_decoder_truncates [0x42; 0x36; 0x66; 0x66] 0x42366666);
    [reflexivity
    |vm_compute; split; [discriminate|reflexivity]
    |vm_compute; split; discriminate].
Defined.

Lemma float_decoder_zero (fp : list Z) :
  get_unaligned_be32 fp = Some 0 -> float_to_int_clamped fp = Some 0.
Proof.
  intros Hget. unfold float_to_int_clamped, float_to_int_clamped_on.
  rewrite Hget. reflexivity.
Qed.

Lemma float_decoder_inside (fp : list Z) (bits : Z) :
  get_unaligned_be32 fp = Some bits ->
  0 < bits < 2 ^ 31 -> -31 <= f32_exponent bits <= 23 ->
  exists v, float_to_int_clamped fp = Some v /\ 0 <= v <= 300000.
Proof.
  intros Hget Hbits He.
  pose proof (f32_mantissa_range bits) as Hm.
  assert (Hs : 0 < 2 ^ (23 - f32_exponent bits))
    by (apply Z.pow_pos_nonneg; lia).
  destruct (Z.lt_ge_cases (f32_exponent bits) 0) as [Hneg|Hnonneg].
  - destruct (float_decoder_below_one fp bits Hget Hbits ltac:(lia))
      as [Hdec Hlt].
    unfold HM3301_MAX_PM in Hlt.
    eexists. split; [exact Hdec|].
    split; [apply Z.div_pos; lia|].
    apply Z.lt_le_incl, Z.div_lt_upper_bound; lia.
  - rewrite (float_decoder_from_one fp bits Hget ltac:(lia) ltac:(lia)).
    eexists. split; [reflexivity|]. unfold HM3301_MAX_PM.
    destruct (Z.leb_spec (3000 * 2 ^ (23 - f32_exponent bits))
                         (2 ^ 23 + f32_mantissa bits)); [lia|].
    split; [apply Z.div_pos; lia|].
    apply Z.lt_le_incl, Z.div_lt_upper_bound; lia.
Qed.

Lemma float_decoder_outside (fp : list Z) (bits : Z) :
  get_unaligned_be32 fp = Some bits ->
  0 < bits < 2 ^ 32 ->
  ~ (bits < 2 ^ 31 /\ -31 <= f32_exponent bits <= 23) ->
  float_to_int_clamped fp = None.
Proof.
  intros Hget Hbits Hno. destruct (Z.lt_ge_cases bits (2 ^ 31)).
  - apply (float_decoder_undefined fp bits Hget); lia.
  - apply (float_decoder_negative fp bits Hget). lia.
Qed.

(** For every four bytes, the decoder has a defined result exactly for
    zero and for a clear sign bit with an exponent from -31 to 23, and a
    defined result is between 0 and 300000. *)
Theorem float_decoder_range (fp : list Z) (bits : Z) :
  get_unaligned_be32 fp = Some bits ->
  0 <= bits < 2 ^ 32 ->
  (float_to_int_clamped fp <> None
   <-> bits = 0 \/ (bits < 2 ^ 31 /\ -31 <= f32_exponent bits <= 23))
  /\ forall v, float_to_int_clamped fp = Some v -> 0 <= v <= 300000.
Proof.
  intros Hget Hbits.
  assert (Hdec : bits = 0
                 \/ (0 < bits
                     /\ (bits < 2 ^ 31 /\ -31 <= f32_exponent bits <= 23))
                 \/ (0 < bits
                     /\ ~ (bits < 2 ^ 31
                           /\ -31 <= f32_exponent bits <= 23))) by lia.
  destruct Hdec as [->|[[Hpos Hin]|[Hpos Hout]]].
  - rewrite (float_decoder_zero fp Hget). split.
    + split; [auto|discriminate].
    + intros v E. inversion E. lia.
  - destruct (float_decoder_inside fp bits Hget ltac:(lia) (proj2 Hin))
      as (v & Hv & Hr).
    rewrite Hv. split.
    + split; [auto|discriminate].
    + intros v' E. inversion E; subst. exact Hr.
  - rewrite (float_decoder_outside fp bits Hget ltac:(lia) Hout). split.
    + split; [congruence|]. intros [E|Hin]; [lia|contradiction].
    + discriminate.
Qed.

Lemma float_decoder_range_witness :
  (float_to_int_clamped [0x45; 0x5a; 0xc0; 0x00] <> None
   <-> 0x455ac000 = 0
       \/ (0x455ac000 < 2 ^ 31 /\ -31 <= f32_exponent 0x455ac000 <= 23))
  /\ forall v, float_to_int_clamped [0x45; 0x5a; 0xc0; 0x00] = Some v ->
               0 <= v <= 300000.
Proof.
  apply (float_decoder_range [0x45; 0x5a; 0xc0; 0x00] 0x455ac000);
    [reflexivity|vm_compute; split; [discriminate|reflexivity]].
Defined.

(** ** What the checksum detects *)

Lemma u8_land (z : Z) : u8 z = Z.land z (Z.ones 8).
Proof. unfold u8. rewrite Z.land_ones by lia. reflexivity. Qed.

Lemma u8_lxor (x y : Z) : u8 (Z.lxor x y) = Z.lxor (u8 x) (u8 y).
Proof.
  rewrite !u8_land. apply Z.bits_inj'. intros n Hn.
  rewrite !Z.lxor_spec, !Z.land_spec, Z.lxor_spec.
  destruct (Z.testbit x n), (Z.testbit y n), (Z.testbit (Z.ones 8) n);
    reflexivity.
Qed.

Lemma crc8_bit_lxor (p x y : Z) :
  crc8_bit p (Z.lxor x y) = Z.lxor (crc8_bit p x) (crc8_bit p y).
Proof.
  unfold crc8_bit. rewrite Z.lxor_spec, Z.shiftl_lxor, u8_lxor.
  set (a := u8 (Z.shiftl x 1)). set (b := u8 (Z.shiftl y 1)).
  apply Z.bits_inj'. intros n Hn.
  destruct (Z.testbit x 7), (Z.testbit y 7); cbn [xorb];
    rewrite !Z.lxor_spec;
    destruct (Z.testbit a n), (Z.testbit b n), (Z.testbit p n); reflexivity.
Qed.

Lemma crc8_bit_iter_lxor (p : Z) (n : nat) (x y : Z) :
  Nat.iter n (crc8_bit p) (Z.lxor x y)
  = Z.lxor (Nat.iter n (crc8_bit p) x) (Nat.iter n (crc8_bit p) y).
Proof.
  induction n as [|n IH]; [reflexivity|].
  rewrite !Nat.iter_succ, IH. apply crc8_bit_lxor.
Qed.

(** The checksum is linear: an error pattern [(e1, e2)] added to a word
    changes the checksum by the pattern's own checksum from 0. *)
Lemma crc8_lxor (a b e1 e2 init : Z) :
  crc8 [Z.lxor a e1; Z.lxor b e2] init
  = Z.lxor (crc8 [a; b] init) (crc8 [e1; e2] 0).
Proof.
  pose (L := fun x => Nat.iter 8 (crc8_bit HM3301_CRC8_POLYNOMIAL) (u8 x)).
  assert (Hlin : forall x y, L (Z.lxor x y) = Z.lxor (L x) (L y)).
  { intros x y. unfold L. rewrite u8_lxor. apply crc8_bit_iter_lxor. }
  change (L (Z.lxor (L (Z.lxor init (Z.lxor a e1))) (Z.lxor b e2))
          = Z.lxor (L (Z.lxor (L (Z.lxor init a)) b))
                   (L (Z.lxor (L (Z.lxor 0 e1)) e2))).
  rewrite (Z.lxor_0_l e1), <- (Z.lxor_assoc init a e1), (Hlin _ e1).
  rewrite <- (Hlin (Z.lxor (L (Z.lxor init a)) b)). f_equal.
  rewrite !Z.lxor_assoc. f_equal.
  rewrite <- !Z.lxor_assoc. f_equal. apply Z.lxor_comm.
Qed.

Lemma lxor_changes (x d : Z) : d <> 0 -> Z.lxor x d <> x.
Proof.
  intros Hd E. apply Hd. apply Z.bits_inj'. intros n Hn.
  rewrite Z.bits_0.
  assert (Hbit : Z.testbit (Z.lxor x d) n = Z.testbit x n)
    by (rewrite E; reflexivity).
  rewrite Z.lxor_spec in Hbit.
  destruct (Z.testbit x n), (Z.testbit d n); cbn in Hbit; congruence.
Qed.

Lemma bit_index_cases (i : Z) :
  0 <= i < 8 ->
  i = 0 \/ i = 1 \/ i = 2 \/ i = 3 \/ i = 4 \/ i = 5 \/ i = 6 \/ i = 7.
Proof. lia. Qed.

Lemma crc8_flip_first (a b e init : Z) :
  crc8 [Z.lxor a e; b] init = Z.lxor (crc8 [a; b] init) (crc8 [e; 0] 0).
Proof.
  pose proof (crc8_lxor a b e 0 init) as Hlin.
  rewrite (Z.lxor_0_r b) in Hlin. exact Hlin.
Qed.

Lemma crc8_flip_second (a b e init : Z) :
  crc8 [a; Z.lxor b e] init = Z.lxor (crc8 [a; b] init) (crc8 [0; e] 0).
Proof.
  pose proof (crc8_lxor a b 0 e init) as Hlin.
  rewrite (Z.lxor_0_r a) in Hlin. exact Hlin.
Qed.

(** No single inverted bit has the checksum 0. *)
Lemma crc8_of_one_bit (i : Z) :
  0 <= i < 8 -> crc8 [2 ^ i; 0] 0 <> 0 /\ crc8 [0; 2 ^ i] 0 <> 0.
Proof.
  intros Hi.
  destruct (bit_index_cases i Hi) as [->|[->|[->|[->|[->|[->|[->| ->]]]]]]];
    split; vm_compute; discriminate.
Qed.

Lemma group_ok_eq (a b c : Z) :
  group_ok (a, b, c) = true <-> crc8 [a; b] CRC8_INIT_VALUE = c.
Proof. unfold group_ok. apply Z.eqb_eq. Qed.

Lemma group_ok_neq (a b c : Z) :
  group_ok (a, b, c) = false <-> crc8 [a; b] CRC8_INIT_VALUE <> c.
Proof. unfold group_ok. apply Z.eqb_neq. Qed.

Lemma groups_frame_of gs : forall rest,
  groups (length gs) (frame_of gs ++ rest) = gs.
Proof.
  induction gs as [|[[a b] c] gs IH]; intros rest; [reflexivity|].
  cbn [length frame_of app groups]. rewrite IH. reflexivity.
Qed.

Lemma groups_frame_of' gs n rest :
  length gs = n -> groups n (frame_of gs ++ rest) = gs.
Proof. intros <-. apply groups_frame_of. Qed.

Lemma good_prefix_stops_at gs1 g gs2 :
  forallb group_ok gs1 = true -> group_ok g = false ->
  good_prefix (gs1 ++ g :: gs2) = gs1.
Proof.
  intros Hok Hbad. induction gs1 as [|g1 gs1 IH]; cbn [app good_prefix].
  - rewrite Hbad. reflexivity.
  - cbn [forallb] in Hok. apply andb_true_iff in Hok. destruct Hok as [H1 H2].
    rewrite H1, (IH H2). reflexivity.
Qed.

Lemma frame_of_length gs : length (frame_of gs) = (3 * length gs)%nat.
Proof.
  induction gs as [|[[a b] c] gs IH]; [reflexivity|].
  cbn [frame_of length]. rewrite IH. lia.
Qed.

(** A single inverted bit is detected: a group whose checksum matched
    no longer checks once one bit of any of its three bytes is inverted,
    and a response that holds such a group, after groups that check, is
    refused by the validation loop of [hm3301_do_cmd], which returns
    [-EIO] when it reaches that group. *)
Theorem single_bit_error_detected
    (gs1 gs2 : list (Z * Z * Z)) (g g' : Z * Z * Z) (rest data : list Z) :
  forallb group_ok gs1 = true ->
  group_ok g = true -> one_bit_off g g' ->
  let n := length (gs1 ++ g' :: gs2) in
  (2 * n <= length data)%nat ->
  group_ok g' = false
  /\ strip_crc n (frame_of (gs1 ++ g' :: gs2) ++ rest) 0 data 0
     = Some (- EIO, data_bytes gs1 ++ skipn (2 * length gs1) data).
Proof.
  intros Hok Hg Hoff n Hdata.
  assert (Hbad : group_ok g' = false).
  { destruct Hoff as [a b c i Hi|a b c i Hi|a b c i Hi];
      apply group_ok_eq in Hg; apply group_ok_neq; unfold flip.
    - rewrite crc8_flip_first, Hg. apply lxor_changes.
      apply (crc8_of_one_bit i Hi).
    - rewrite crc8_flip_second, Hg. apply lxor_changes.
      apply (crc8_of_one_bit i Hi).
    - rewrite Hg. intros E. symmetry in E. revert E. apply lxor_changes.
      apply Z.pow_nonzero; lia. }
  split; [exact Hbad|].
  pose proof (strip_crc_app n [] (frame_of (gs1 ++ g' :: gs2) ++ rest)
                [] data) as Hstrip.
  cbn [app length Z.of_nat] in Hstrip. rewrite Hstrip; [|
    rewrite length_app, frame_of_length; fold n; lia | exact Hdata].
  cbv zeta. unfold n. rewrite groups_frame_of.
  rewrite (good_prefix_stops_at gs1 g' gs2 Hok Hbad).
  replace (length gs1 =? length (gs1 ++ g' :: gs2))%nat with false;
    [reflexivity|].
  symmetry. apply Nat.eqb_neq. rewrite length_app. simpl. lia.
Qed.

Lemma single_bit_error_detected_witness :
  group_ok (flip 3 0, 4, crc8 [3; 4] CRC8_INIT_VALUE) = false
  /\ strip_crc 2
       (frame_of ([(1, 2, crc8 [1; 2] CRC8_INIT_VALUE)]
                  ++ (flip 3 0, 4, crc8 [3; 4] CRC8_INIT_VALUE) :: [])
        ++ []) 0 [0; 0; 0; 0] 0
     = Some (- EIO,
             data_bytes [(1, 2, crc8 [1; 2] CRC8_INIT_VALUE)]
             ++ skipn (2 * 1) [0; 0; 0; 0]).
Proof.
  apply (single_bit_error_detected
           [(1, 2, crc8 [1; 2] CRC8_INIT_VALUE)] []
           (3, 4, crc8 [3; 4] CRC8_INIT_VALUE)
           (flip 3 0, 4, crc8 [3; 4] CRC8_INIT_VALUE) [] [0; 0; 0; 0]);
    [reflexivity|reflexivity|apply off_first; lia|simpl; lia].
Defined.

(** ** Measurements: the paths through [hm3301_do_meas] *)

Lemma list_pair_ind (P : list Z -> Prop) :
  P [] -> (forall a, P [a]) -> (forall a b l, P l -> P (a :: b :: l)) ->
  forall l, P l.
Proof.
  intros H0 H1 H2 l.
  enough (P l /\ forall a, P (a :: l)) by tauto.
  induction l as [|b l [IH1 IH2]]; split; auto.
Qed.

(** A framed response is a list of groups that all check and that carry
    the framed bytes. *)
Lemma framed_groups (l : list Z) :
  exists gs,
    framed l = frame_of gs
    /\ forallb group_ok gs = true
    /\ length gs = Nat.div2 (length l)
    /\ (Nat.even (length l) = true -> data_bytes gs = l).
Proof.
  induction l as [|a|a b l IH] using list_pair_ind.
  - exists []. repeat split.
  - exists []. repeat split. discriminate.
  - destruct IH as (gs & Hf & Hok & Hlen & Hdata).
    exists ((a, b, crc8 [a; b] CRC8_INIT_VALUE) :: gs).
    cbn [framed frame_of forallb group_ok length Nat.div2 data_bytes
           Nat.even].
    rewrite Hf, Hok, Hlen, Z.eqb_refl. repeat split.
    intros Heven. rewrite (Hdata Heven). reflexivity.
Qed.

Lemma good_prefix_all gs : forallb group_ok gs = true -> good_prefix gs = gs.
Proof.
  induction gs as [|g gs IH]; [reflexivity|].
  cbn [forallb good_prefix]. intros Hok.
  apply andb_true_iff in Hok. destruct Hok as [H1 H2].
  rewrite H1, (IH H2). reflexivity.
Qed.

Lemma skipn_repeat {A} (x : A) (n k : nat) :
  skipn k (repeat x n) = repeat x (n - k).
Proof.
  revert k. induction n as [|n IH]; intros [|k]; cbn; auto.
Qed.

Section MeasurementPaths.

Context {Bus : Type} `{I2C Bus}.

(** A read command whose command bytes the adapter refuses: nothing is
  received and the error is returned, whatever [size] is. *)
Lemma do_cmd_read_send_failure cmd data size (w : hm3301_state Bus) r bus :
is_read_cmd cmd = true ->
i2c_master_send (client w) (read_frame cmd) = (r, bus) ->
r <> 2 ->
hm3301_do_cmd cmd data size w
= Some ((errno_of r, data), after w bus [I2cSend (read_frame cmd)]).
Proof.
intros Hread Hsend Hr.
destruct (read_frame_buf cmd Hread) as [Hlen Hfirst].
unfold hm3301_do_cmd, bind at 1.
rewrite (do_cmd_switch_read_form cmd data size Hread). cbv zeta.
unfold bind at 1, hm3301_write_then_read, bind at 1, send.
rewrite Hlen, Hfirst, Hsend.
change ((2 <? 0) || (Z.of_nat 48 <? 2)) with false. cbv iota.
replace (r =? 2) with false by (symmetry; apply Z.eqb_neq; exact Hr).
cbn [negb]. unfold ret. cbv beta iota. rewrite errno_of_nonzero.
reflexivity.
Qed.

(** A framed payload, once received, is returned without its checksums. *)
Lemma do_cmd_read_unframes (cmd : Z) (j : nat) (payload data : list Z)
  (w : hm3301_state Bus) (bus bus' : Bus) :
is_read_cmd cmd = true ->
(j <= 16)%nat -> length payload = (2 * j)%nat ->
(2 * j <= length data)%nat ->
i2c_master_send (client w) (read_frame cmd) = (2, bus) ->
i2c_master_recv bus (3 * Z.of_nat j)
= (3 * Z.of_nat j, framed payload, bus') ->
hm3301_do_cmd cmd data (2 * Z.of_nat j) w
= Some ((0, payload ++ skipn (2 * j) data),
        after w bus'
          [I2cSend (read_frame cmd); I2cRecv (3 * Z.of_nat j)]).
Proof.
intros Hread Hj Hpayload Hdata Hsend Hrecv.
set (J := Z.of_nat j) in *.
assert (Hquot : Z.quot (2 * J) 2 = J).
{ replace (2 * J) with (J * 2) by lia. apply Z.quot_mul. lia. }
assert (Hinfl : 2 * J + Z.quot (2 * J) 2 = 3 * J) by lia.
assert (Htrips : loop_trips (3 * J) = j).
{ unfold loop_trips.
  replace ((3 * J + 2) / 3) with J; [lia|].
  apply (Z.div_unique _ 3 _ 2); lia. }
destruct (framed_groups payload) as (gs & Hf & Hok & Hlen & Hbytes).
assert (Hgs : length gs = j).
{ rewrite Hlen, Hpayload. apply Nat.div2_double. }
assert (Heven : Nat.even (length payload) = true).
{ rewrite Hpayload. apply Nat.even_spec. exists j. reflexivity. }
pose proof (do_cmd_read cmd data (2 * J) w 2 bus (3 * J)
              (framed payload) bus' Hread) as Hcmd.
cbv zeta in Hcmd. rewrite Hinfl, Htrips in Hcmd.
specialize (Hcmd ltac:(lia) ltac:(unfold HM3301_MAX_READ_SIZE; lia)
                 Hdata Hsend Hrecv).
rewrite Hcmd. clear Hcmd.
change (2 =? 2) with true. rewrite Z.eqb_refl. cbv iota.
assert (Hflen : length (framed payload) = Z.to_nat (3 * J)).
{ rewrite Hf, frame_of_length, Hgs. lia. }
rewrite firstn_all2 by lia.
unfold overlay. rewrite Hf, groups_frame_of' by exact Hgs.
rewrite (good_prefix_all gs Hok), Hgs, Nat.eqb_refl, (Hbytes Heven).
rewrite app_nil_r. reflexivity.
Qed.

(** The response to a data read for [k] channels, once received. *)
Lemma do_cmd_read_data (k : nat) chans tmp (w : hm3301_state Bus)
  bus bus' :
(1 <= k <= 4)%nat ->
length chans = (4 * k)%nat -> length tmp = 16%nat ->
i2c_master_send (client w) [0x03; 0x00] = (2, bus) ->
i2c_master_recv bus (6 * Z.of_nat k)
= (6 * Z.of_nat k, framed chans, bus') ->
hm3301_do_cmd HM3301_READ_DATA tmp (4 * Z.of_nat k) w
= Some ((0, chans ++ skipn (4 * k) tmp),
        after w bus' [I2cSend [0x03; 0x00]; I2cRecv (6 * Z.of_nat k)]).
Proof.
intros Hk Hchans Htmp Hsend Hrecv.
set (K := Z.of_nat k) in *.
assert (Hquot : Z.quot (4 * K) 2 = 2 * K).
{ replace (4 * K) with (2 * K * 2) by lia. apply Z.quot_mul. lia. }
assert (Hinfl : 4 * K + Z.quot (4 * K) 2 = 6 * K) by lia.
assert (Htrips : loop_trips (6 * K) = (2 * k)%nat).
{ unfold loop_trips.
  replace ((6 * K + 2) / 3) with (2 * K); [lia|].
  apply (Z.div_unique _ 3 _ 2); lia. }
destruct (framed_groups chans) as (gs & Hf & Hok & Hlen & Hdata).
assert (Hgs : length gs = (2 * k)%nat).
{ rewrite Hlen, Hchans.
  replace (4 * k)%nat with (2 * (2 * k))%nat by lia.
  apply Nat.div2_double. }
assert (Heven : Nat.even (length chans) = true).
{ rewrite Hchans. replace (4 * k)%nat with (2 * (2 * k))%nat by lia.
  apply Nat.even_spec. exists (2 * k)%nat. reflexivity. }
pose proof (do_cmd_read HM3301_READ_DATA tmp (4 * K) w 2 bus (6 * K)
              (framed chans) bus' eq_refl) as Hcmd.
cbv zeta in Hcmd. rewrite Hinfl, Htrips in Hcmd.
specialize (Hcmd ltac:(lia) ltac:(unfold HM3301_MAX_READ_SIZE; lia)
                 ltac:(lia) Hsend Hrecv).
rewrite Hcmd. clear Hcmd.
change (2 =? 2) with true. rewrite Z.eqb_refl. cbv iota.
assert (Hflen : length (framed chans) = Z.to_nat (6 * K)).
{ rewrite Hf, frame_of_length, Hgs. lia. }
rewrite firstn_all2 by lia.
unfold overlay. rewrite Hf, groups_frame_of' by exact Hgs.
rewrite (good_prefix_all gs Hok), Hgs, Nat.eqb_refl, (Hdata Heven).
rewrite app_nil_r.
replace (2 * (2 * k))%nat with (4 * k)%nat by lia. reflexivity.
Qed.

End MeasurementPaths.

Section PollPaths.

Context {Bus : Type} `{I2C Bus}.

(** [k] polls that find the flag clear, out of [n]: the loop goes on with
  [n - k] tries. *)
Lemma poll_ready_prefix k : forall n t0 t1 tmp (w : hm3301_state Bus) busk,
(k <= n)%nat ->
polls_not_ready k (client w) busk ->
exists t0' t1',
  poll_ready n (t0 :: t1 :: tmp) w
  = poll_ready (n - k) (t0' :: t1' :: tmp)
      (after w busk (concat (repeat poll_events k))).
Proof.
induction k as [|k IH]; intros n t0 t1 tmp w busk Hk Hpolls.
- cbn in Hpolls. subst busk. exists t0, t1.
  rewrite Nat.sub_0_r. unfold after. cbn [repeat concat].
  rewrite app_nil_r. destruct w; reflexivity.
- cbn [polls_not_ready] in Hpolls.
  destruct Hpolls as (bus1 & a & b & rest & bus2 & Hs & Hr & Hb & Hn).
  destruct n as [|n]; [lia|].
  cbn [poll_ready]. unfold bind at 1.
  rewrite (poll_flag_clear t0 t1 tmp w bus1 a b rest bus2 Hs Hr).
  change (negb (0 =? 0)) with false. cbv iota.
  unfold bind at 1, lift. change (rd (a :: b :: tmp) 1) with (Some b).
  cbv iota.
  replace (b =? 1) with false by (symmetry; apply Z.eqb_neq; exact Hb).
  unfold bind, msleep, emit.
  destruct (IH n a b tmp
              (mk_state bus2 (state w)
                 ((trace w ++ [I2cSend [0x02; 0x02]; I2cRecv 3])
                  ++ [Msleep 300]))
              busk ltac:(lia) Hn) as (t0' & t1' & Hrec).
  exists t0', t1'. unfold after in Hrec |- *.
  cbn [client state trace] in Hrec |- *. rewrite Hrec.
  cbn [repeat concat Nat.sub]. unfold poll_events at 2.
  rewrite <- !app_assoc. reflexivity.
Qed.

(** What [hm3301_do_meas] does before the polls: nothing when the device
  is measuring, a start command otherwise. *)
Lemma do_meas_after_start data size (w : hm3301_state Bus) bus started
  r d bus' evs :
(state w = MEASURING /\ bus = client w /\ started = [])
\/ (state w = RESET
    /\ i2c_master_send (client w) start_frame = (5, bus)
    /\ started = [I2cSend start_frame]) ->
(forall st tr,
    do_meas_poll_and_read data size (mk_state bus st tr)
    = Some ((r, d), mk_state bus' st (tr ++ evs))) ->
hm3301_do_meas data size w
= Some ((r, d), mk_state bus' MEASURING (trace w ++ started ++ evs)).
Proof.
intros Hstart Hrest. unfold hm3301_do_meas, bind at 1, get_state.
destruct Hstart as [(Hs & -> & ->)|(Hs & Hsend & ->)]; rewrite Hs.
- unfold bind, ret. destruct w as [b st tr]. cbn in Hs |- *. subst st.
  apply Hrest.
- unfold bind at 1 2.
  rewrite (do_cmd_start NULL 0 w 5 bus Hsend).
  change (5 =? 5) with true. change (loop_trips 0) with O. cbv iota.
  change (negb (0 =? 0)) with false. cbv iota.
  unfold bind, set_state, ret, after. cbn [client state trace].
  rewrite Hrest. rewrite <- app_assoc. reflexivity.
Qed.

(** The success path: after [k <= 4] polls that find the flag clear, each
  followed by a 300 ms sleep, a poll finds it set; the data for [n]
  channels is read without a further sleep, every channel is decoded into
  [data], and the result is 0. *)
Theorem measurement_success (k n : nat) (chans data data' : list Z)
  (w : hm3301_state Bus) (bus busk bus1 bus2 bus3 bus4 : Bus)
  (started : list event) (a : Z) (rest : list Z) :
(k <= 4)%nat -> (1 <= n <= 4)%nat -> length chans = (4 * n)%nat ->
(state w = MEASURING /\ bus = client w /\ started = [])
\/ (state w = RESET
    /\ i2c_master_send (client w) start_frame = (5, bus)
    /\ started = [I2cSend start_frame]) ->
polls_not_ready k bus busk ->
i2c_master_send busk [0x02; 0x02] = (2, bus1) ->
i2c_master_recv bus1 3
= (3, a :: 1 :: crc8 [a; 1] CRC8_INIT_VALUE :: rest, bus2) ->
i2c_master_send bus2 [0x03; 0x00] = (2, bus3) ->
i2c_master_recv bus3 (6 * Z.of_nat n)
= (6 * Z.of_nat n, framed chans, bus4) ->
decode_channels n (chans ++ repeat 0 (16 - 4 * n)) 0 data = Some data' ->
hm3301_do_meas data (Z.of_nat n) w
= Some ((0, data'),
        mk_state bus4 MEASURING
          (trace w ++ started
           ++ ready_after k
           ++ [I2cSend [0x03; 0x00]; I2cRecv (6 * Z.of_nat n)]))
/\ filter is_sleep (ready_after k) = repeat (Msleep 300) k.
Proof.
intros Hk Hn Hchans Hstart Hpolls Hs1 Hr1 Hs2 Hr2 Hdec. split.
- apply (do_meas_after_start data (Z.of_nat n) w bus started); [exact Hstart|].
  intros st tr. unfold do_meas_poll_and_read, bind at 1.
  change (repeat 0 16%nat) with (0 :: 0 :: repeat 0 14%nat).
  destruct (poll_ready_prefix k 5 0 0 (repeat 0 14%nat)
              (mk_state bus st tr) busk ltac:(lia) Hpolls)
    as (t0 & t1 & ->).
  destruct (5 - k)%nat as [|j] eqn:Hj; [lia|].
  cbn [poll_ready]. unfold bind at 1.
  unfold after at 1. cbn [client state trace].
  rewrite (poll_flag_clear t0 t1 (repeat 0 14%nat) (mk_state busk st _)
             bus1 a 1 rest bus2 Hs1 Hr1).
  unfold after at 1. cbn [client state trace].
  change (negb (0 =? 0)) with false. cbv iota.
  unfold bind at 1, lift.
  change (rd (a :: 1 :: repeat 0 14%nat) 1) with (Some 1).
  cbv iota. change (1 =? 1) with true. cbv iota. unfold ret at 1.
  replace (Z.of_nat j =? -1) with false
    by (symmetry; apply Z.eqb_neq; lia).
  unfold bind at 1.
  replace (mul32 4 (Z.of_nat n)) with (4 * Z.of_nat n)
    by (unfold mul32; rewrite s32_small; lia).
  rewrite (do_cmd_read_data n chans (a :: 1 :: repeat 0 14%nat)
             (mk_state bus2 st _) bus3 bus4 Hn Hchans eq_refl Hs2 Hr2).
  change (negb (0 =? 0)) with false. cbv iota. unfold bind, lift.
  rewrite Nat2Z.id.
  replace (skipn (4 * n) (a :: 1 :: repeat 0 14%nat))
    with (repeat 0 (16 - 4 * n)%nat).
  + rewrite Hdec. unfold ret, after, ready_after.
    cbn [client state trace]. rewrite <- !app_assoc. reflexivity.
  + destruct n as [|n']; [lia|].
    replace (4 * S n')%nat with (S (S (2 + 4 * n')))%nat by lia.
    cbn [skipn]. rewrite skipn_repeat. f_equal; lia.
- unfold ready_after. rewrite filter_app. cbn [filter is_sleep].
  rewrite app_nil_r. clear. induction k as [|k IH]; [reflexivity|].
  cbn [repeat concat]. rewrite filter_app, IH. reflexivity.
Qed.

(** Error codes: a poll of the ready flag that fails makes
  [hm3301_do_meas] return [-EIO], whatever error the adapter gave, and a
  data read that fails makes it return that failure's own error; in both
  cases [data] is as it was. *)
Theorem measurement_error_codes (k : nat) (data : list Z) (size : Z)
  (w : hm3301_state Bus) (bus busk : Bus) (started : list event) :
(k <= 4)%nat ->
(state w = MEASURING /\ bus = client w /\ started = [])
\/ (state w = RESET
    /\ i2c_master_send (client w) start_frame = (5, bus)
    /\ started = [I2cSend start_frame]) ->
polls_not_ready k bus busk ->
(forall r bus',
    i2c_master_send busk [0x02; 0x02] = (r, bus') -> r <> 2 ->
    hm3301_do_meas data size w
    = Some ((- EIO, data),
            mk_state bus' MEASURING
              (trace w ++ started
               ++ concat (repeat poll_events k)
               ++ [I2cSend [0x02; 0x02]])))
/\ (forall bus1 a rest bus2 r bus3,
       i2c_master_send busk [0x02; 0x02] = (2, bus1) ->
       i2c_master_recv bus1 3
       = (3, a :: 1 :: crc8 [a; 1] CRC8_INIT_VALUE :: rest, bus2) ->
       i2c_master_send bus2 [0x03; 0x00] = (r, bus3) -> r <> 2 ->
       hm3301_do_meas data size w
       = Some ((errno_of r, data),
               mk_state bus3 MEASURING
                 (trace w ++ started
                  ++ ready_after k ++ [I2cSend [0x03; 0x00]]))).
Proof.
intros Hk Hstart Hpolls. split.
- intros r bus' Hsend Hr.
  apply (do_meas_after_start data size w bus started); [exact Hstart|].
  intros st tr. unfold do_meas_poll_and_read, bind at 1.
  change (repeat 0 16%nat) with (0 :: 0 :: repeat 0 14%nat).
  destruct (poll_ready_prefix k 5 0 0 (repeat 0 14%nat)
              (mk_state bus st tr) busk ltac:(lia) Hpolls)
    as (t0 & t1 & ->).
  destruct (5 - k)%nat as [|j] eqn:Hj; [lia|].
  cbn [poll_ready]. unfold bind at 1.
  unfold after at 1. cbn [client state trace].
  rewrite (do_cmd_read_send_failure HM3301_READ_DATA_READY_FLAG _ 2
             (mk_state busk st _) r bus' eq_refl Hsend Hr).
  rewrite errno_of_nonzero. cbn [negb]. unfold ret, after.
  cbn [client state trace]. rewrite <- !app_assoc. reflexivity.
- intros bus1 a rest bus2 r bus3 Hs1 Hr1 Hs2 Hr.
  apply (do_meas_after_start data size w bus started); [exact Hstart|].
  intros st tr. unfold do_meas_poll_and_read, bind at 1.
  change (repeat 0 16%nat) with (0 :: 0 :: repeat 0 14%nat).
  destruct (poll_ready_prefix k 5 0 0 (repeat 0 14%nat)
              (mk_state bus st tr) busk ltac:(lia) Hpolls)
    as (t0 & t1 & ->).
  destruct (5 - k)%nat as [|j] eqn:Hj; [lia|].
  cbn [poll_ready]. unfold bind at 1.
  unfold after at 1. cbn [client state trace].
  rewrite (poll_flag_clear t0 t1 (repeat 0 14%nat) (mk_state busk st _)
             bus1 a 1 rest bus2 Hs1 Hr1).
  unfold after at 1. cbn [client state trace].
  change (negb (0 =? 0)) with false. cbv iota.
  unfold bind at 1, lift.
  change (rd (a :: 1 :: repeat 0 14%nat) 1) with (Some 1).
  cbv iota. change (1 =? 1) with true. cbv iota. unfold ret at 1.
  replace (Z.of_nat j =? -1) with false
    by (symmetry; apply Z.eqb_neq; lia).
  unfold bind at 1.
  rewrite (do_cmd_read_send_failure HM3301_READ_DATA _ _
             (mk_state bus2 st _) r bus3 eq_refl Hs2 Hr).
  rewrite errno_of_nonzero. cbn [negb]. unfold ret, after, ready_after.
  cbn [client state trace]. rewrite <- !app_assoc. reflexivity.
Qed.

End PollPaths.

Lemma measurement_success_witness :
  hm3301_do_meas [7; 7] (Z.of_nat 2)
    (mk_state [(5, []); (2, []); (3, framed [0; 0]);
               (2, []); (3, framed [0; 1]);
               (2, []); (12, framed (firstn 8 example_channels))]
              RESET [])
  = Some ((0, [1234; 0]),
          mk_state [] MEASURING
            ([] ++ [I2cSend start_frame]
             ++ ready_after 1
             ++ [I2cSend [0x03; 0x00]; I2cRecv (6 * Z.of_nat 2)]))
  /\ filter is_sleep (ready_after 1) = repeat (Msleep 300) 1.
Proof.
  apply (measurement_success 1 2 (firstn 8 example_channels) [7; 7]
           [1234; 0]
           (mk_state [(5, []); (2, []); (3, framed [0; 0]);
                      (2, []); (3, framed [0; 1]);
                      (2, []); (12, framed (firstn 8 example_channels))]
                     RESET [])
           [(2, []); (3, framed [0; 0]); (2, []); (3, framed [0; 1]);
            (2, []); (12, framed (firstn 8 example_channels))]
           [(2, []); (3, framed [0; 1]);
            (2, []); (12, framed (firstn 8 example_channels))]
           [(3, framed [0; 1]);
            (2, []); (12, framed (firstn 8 example_channels))]
           [(2, []); (12, framed (firstn 8 example_channels))]
           [(12, framed (firstn 8 example_channels))]
           [] [I2cSend start_frame] 0 []);
    try reflexivity; try lia.
  - right. repeat split.
  - cbn [polls_not_ready]. do 5 eexists.
    split; [reflexivity|]. split; [reflexivity|].
    split; [discriminate|reflexivity].
Defined.

Lemma measurement_error_codes_witness :
  (forall r bus',
      i2c_master_send [(-6, [])] [0x02; 0x02] = (r, bus') -> r <> 2 ->
      hm3301_do_meas [7; 7; 7; 7] 4 (mk_state [(-6, [])] MEASURING [])
      = Some ((- EIO, [7; 7; 7; 7]),
              mk_state bus' MEASURING
                ([] ++ [] ++ concat (repeat poll_events 0)
                 ++ [I2cSend [0x02; 0x02]])))
  /\ (forall bus1 a rest bus2 r bus3,
         i2c_master_send [(-6, [])] [0x02; 0x02] = (2, bus1) ->
         i2c_master_recv bus1 3
         = (3, a :: 1 :: crc8 [a; 1] CRC8_INIT_VALUE :: rest, bus2) ->
         i2c_master_send bus2 [0x03; 0x00] = (r, bus3) -> r <> 2 ->
         hm3301_do_meas [7; 7; 7; 7] 4 (mk_state [(-6, [])] MEASURING [])
         = Some ((errno_of r, [7; 7; 7; 7]),
                 mk_state bus3 MEASURING
                   ([] ++ [] ++ ready_after 0 ++ [I2cSend [0x03; 0x00]]))).
Proof.
  apply (measurement_error_codes 0 [7; 7; 7; 7] 4
           (mk_state [(-6, [])] MEASURING []) [(-6, [])] [(-6, [])] []).
  - lia.
  - left. repeat split.
  - reflexivity.
Defined.

(** ** Measurements: what every run has in common *)

Section MeasurementFacts.

Context {Bus : Type} `{I2C Bus}.

Lemma first_event_bind {A B} (c : M Bus A) (k : A -> M Bus B) (e : event) :
(forall w a w', c w = Some (a, w') ->
                exists evs, trace w' = trace w ++ e :: evs) ->
(forall a, keeps (k a)) ->
forall w b w', bind c k w = Some (b, w') ->
               exists evs, trace w' = trace w ++ e :: evs.
Proof.
intros Hc Hk w b w' Hrun. unfold bind in Hrun.
destruct (c w) as [[a w1]|] eqn:Hcw; [|discriminate].
destruct (Hc _ _ _ Hcw) as [evs1 Hevs1].
destruct (Hk _ _ _ _ Hrun) as [_ [evs2 Hevs2]].
exists (evs1 ++ evs2). rewrite Hevs2, Hevs1, <- app_assoc. reflexivity.
Qed.

(** The first transfer of a measurement is the start command when the
  state is [RESET] and the first poll of the ready flag when it is
  [MEASURING]: a device that is measuring is not started again, and after
  a reset the next measurement starts it again. *)
Theorem measurement_first_transfer (data : list Z) (size : Z)
  (w : hm3301_state Bus) (r : Z * list Z) (w' : hm3301_state Bus) :
hm3301_do_meas data size w = Some (r, w') ->
exists evs,
  trace w' = trace w
             ++ I2cSend (match state w with
                         | RESET => start_frame
                         | MEASURING => [0x02; 0x02]
                         end) :: evs.
Proof.
assert (Hpoll : forall (w0 : hm3301_state Bus) r0 w0',
           do_meas_poll_and_read data size w0 = Some (r0, w0') ->
           exists evs, trace w0' = trace w0 ++ I2cSend [0x02; 0x02] :: evs).
{ pose proof keeps_do_cmd as Hkc. pose proof keeps_poll_ready as Hkp.
  unfold do_meas_poll_and_read. apply first_event_bind.
  - cbn [poll_ready]. apply first_event_bind.
    + intros w0 [e t] w1 Hcmd.
      destruct (do_cmd_read_count HM3301_READ_DATA_READY_FLAG _ 2 _ _ _
                  eq_refl ltac:(lia) Hcmd) as [evs1 [Htr _]].
      exists evs1. exact Htr.
    + intros [e t]. unfold msleep. keeps_all; auto.
  - intros [[early tries] tmp]. keeps_all; auto. }
unfold hm3301_do_meas, bind at 1, get_state.
destruct (state w) eqn:Hst.
- unfold bind at 1 2.
  destruct (i2c_master_send (client w) start_frame) as [r0 bus] eqn:Hsend.
  rewrite (do_cmd_start NULL 0 w r0 bus Hsend).
  change (loop_trips 0) with O. cbv iota.
  replace (if r0 =? 5 then [] else []) with (@nil event)
    by (destruct (r0 =? 5); reflexivity).
  destruct (negb _).
  + unfold ret. intros E. inversion E; subst. cbn [trace after].
    eexists. reflexivity.
  + unfold bind, set_state, ret. intros Hrest.
    destruct (Hpoll _ _ _ Hrest) as [evs Hevs].
    cbn [trace after client state] in Hevs.
    rewrite Hevs. rewrite <- app_assoc. eexists. reflexivity.
- unfold bind, ret. intros Hrest. apply (Hpoll _ _ _ Hrest).
Qed.

End MeasurementFacts.

Lemma measurement_first_transfer_witness :
  exists evs,
    trace (mk_state ([] : script) MEASURING [I2cSend [0x02; 0x02]])
    = trace (mk_state ([(-6, [])] : script) MEASURING [])
      ++ I2cSend (match state (mk_state ([(-6, [])] : script) MEASURING [])
                  with
                  | RESET => start_frame
                  | MEASURING => [0x02; 0x02]
                  end) :: evs.
Proof.
  apply (measurement_first_transfer [7] 1 (mk_state [(-6, [])] MEASURING [])
           (- EIO, [7]) (mk_state [] MEASURING [I2cSend [0x02; 0x02]])).
  vm_compute. reflexivity.
Defined.


(** ** Return values *)

Lemma errno_of_negative (r : Z) : errno_of r < 0.
Proof. unfold errno_of, EIO. destruct (Z.ltb_spec r 0); lia. Qed.

Lemma strip_crc_ret n : forall buf i data dp r d,
  strip_crc n buf i data dp = Some (r, d) -> r = 0 \/ r = - EIO.
Proof.
  induction n as [|n IH]; intros buf i data dp r d; cbn [strip_crc].
  - intros E. inversion E. left. reflexivity.
  - intros E.
    repeat match type of E with
           | context [strip_crc n ?b ?j ?x ?p] => apply IH in E; exact E
           | context [match ?x with _ => _ end] => destruct x
           end; try discriminate.
    inversion E. right. reflexivity.
Qed.

Section ReturnValues.

Context {Bus : Type} `{I2C Bus}.

Lemma write_then_read_ret txbuf txsize rxbuf rxsize (w : hm3301_state Bus)
  r rx w' :
hm3301_write_then_read txbuf txsize rxbuf rxsize w = Some ((r, rx), w') ->
r <= 0.
Proof.
unfold hm3301_write_then_read, bind, ret. intros E.
repeat match type of E with
       | context [match ?x with _ => _ end] => destruct x
       end; try discriminate; inversion E;
  try (pose proof (errno_of_negative z)); try lia.
all: match goal with
     | |- errno_of ?x <= 0 => pose proof (errno_of_negative x); lia
     end.
Qed.

Lemma do_cmd_switch_ret cmd data size buf (w : hm3301_state Bus)
  r buf' size' w' :
do_cmd_switch cmd data size buf w = Some ((r, buf', size'), w') ->
r <= 0.
Proof.
unfold do_cmd_switch, bind, ret, lift. intros E.
repeat match type of E with
       | context [hm3301_write_then_read ?a ?b ?c ?d ?x] =>
           let Hw := fresh "Hw" in
           destruct (hm3301_write_then_read a b c d x)
             as [[[? ?] ?]|] eqn:Hw;
           [apply write_then_read_ret in Hw|]
       | context [match ?x with _ => _ end] => destruct x
       end; try discriminate; inversion E; subst; lia.
Qed.

Lemma do_cmd_ret cmd data size (w : hm3301_state Bus) r d w' :
hm3301_do_cmd cmd data size w = Some ((r, d), w') -> r <= 0.
Proof.
unfold hm3301_do_cmd, bind at 1.
destruct (do_cmd_switch _ _ _ _ w) as [[[[r0 buf] size'] w1]|] eqn:Hsw;
  [|discriminate].
apply do_cmd_switch_ret in Hsw.
destruct (negb (r0 =? 0)).
- unfold ret. intros E. inversion E; subst. exact Hsw.
- unfold bind, lift.
  destruct (strip_crc _ _ _ _ _) as [[r1 d1]|] eqn:Hstrip; [|discriminate].
  apply strip_crc_ret in Hstrip.
  destruct (negb (r1 =? 0)); unfold emit, ret; intros E; inversion E;
    subst; unfold EIO in Hstrip; lia.
Qed.

Lemma poll_ready_ret tries : forall tmp (w : hm3301_state Bus)
  early left tmp' w',
poll_ready tries tmp w = Some ((early, left, tmp'), w') ->
(early = None \/ early = Some (- EIO))
/\ (left = -1 \/ 0 <= left).
Proof.
induction tries as [|t IH]; intros tmp w early left tmp' w';
  cbn [poll_ready]; unfold bind, ret, lift, msleep, emit.
- intros E. inversion E. split; left; reflexivity.
- intros E.
  repeat match type of E with
         | context [poll_ready t ?a ?b] => apply IH in E; exact E
         | context [match ?x with _ => _ end] => destruct x
         end; try discriminate; inversion E; subst;
    split; auto; right; lia.
Qed.

(** [hm3301_do_cmd] and [hm3301_do_meas] return 0 or a negative error
  code, whatever the command, the size and the answers of the adapter; so
  does the reset sequence.  The two store functions return [len] or a
  negative error code, and the error of [cleaning_period_show] is
  negative. *)
Theorem operations_ret :
(forall cmd data size (w : hm3301_state Bus) r d w',
    hm3301_do_cmd cmd data size w = Some ((r, d), w') -> r <= 0)
/\ (forall data size (w : hm3301_state Bus) r d w',
       hm3301_do_meas data size w = Some ((r, d), w') -> r <= 0)
/\ (forall (w : hm3301_state Bus) r w',
       hm3301_do_cmd_reset w = Some (r, w') -> r <= 0)
/\ (forall val len (w : hm3301_state Bus) r w',
       cleaning_period_store val len w = Some (r, w') ->
       r = len \/ r < 0)
/\ (forall val len (w : hm3301_state Bus) r w',
       start_cleaning_store val len w = Some (r, w') ->
       r = len \/ r < 0)
/\ (forall (w : hm3301_state Bus) e w',
       cleaning_period_show w = Some (inl e, w') -> e < 0).
Proof.
assert (Hnz : forall r, r <= 0 -> negb (r =? 0) = true -> r < 0).
{ intros r Hr Hn. apply negb_true_iff, Z.eqb_neq in Hn. lia. }
split; [exact do_cmd_ret|split; [|split; [|split; [|split]]]].
- intros data size w r d w'.
  assert (Hrest : forall (w0 : hm3301_state Bus),
             do_meas_poll_and_read data size w0 = Some ((r, d), w') ->
             r <= 0).
  { intros w0. unfold do_meas_poll_and_read, bind at 1.
    destruct (poll_ready 5 _ w0) as [[[[early left] tmp] w1]|] eqn:Hp;
      [|discriminate].
    apply poll_ready_ret in Hp. destruct Hp as [Hearly _].
    destruct early as [e|].
    - destruct Hearly as [Hearly|Hearly]; [discriminate|].
      inversion Hearly; subst. unfold ret. intros E. inversion E.
      unfold EIO. lia.
    - destruct (left =? -1).
      + unfold ret. intros E. inversion E. unfold ETIMEDOUT. lia.
      + unfold bind at 1.
        destruct (hm3301_do_cmd _ _ _ w1) as [[[r0 t] w2]|] eqn:Hc;
          [|discriminate].
        apply do_cmd_ret in Hc.
        destruct (negb (r0 =? 0)).
        * unfold ret. intros E. inversion E; subst. exact Hc.
        * unfold bind, lift, ret.
          destruct (decode_channels _ _ _ _); intros E; inversion E. lia. }
  unfold hm3301_do_meas, bind at 1, get_state.
  destruct (state w).
  + unfold bind at 1 2.
    destruct (hm3301_do_cmd _ _ _ w) as [[[r0 t] w1]|] eqn:Hc;
      [|discriminate].
    apply do_cmd_ret in Hc.
    destruct (negb (r0 =? 0)).
    * unfold ret. intros E. inversion E; subst. exact Hc.
    * unfold bind, set_state, ret. apply Hrest.
  + unfold bind, ret. apply Hrest.
- intros w r w'. unfold hm3301_do_cmd_reset, bind at 1.
  destruct (hm3301_do_cmd HM3301_RESET NULL 0 w) as [[[r0 d] w1]|] eqn:Hc;
    [|discriminate].
  apply do_cmd_ret in Hc. unfold bind, msleep, emit, set_state, ret.
  destruct (hm3301_do_cmd _ _ _ _) as [[[? ?] ?]|]; [|discriminate].
  intros E. inversion E; subst. exact Hc.
- intros val len w r w'. unfold cleaning_period_store.
  destruct val as [v|]; [|intros E; inversion E; right; unfold EINVAL; lia].
  destruct (_ || _); [intros E; inversion E; right; unfold EINVAL; lia|].
  unfold bind at 1.
  destruct (hm3301_do_cmd _ _ _ w) as [[[r0 d] w1]|] eqn:Hc;
    [|discriminate].
  apply do_cmd_ret in Hc.
  destruct (negb (r0 =? 0)) eqn:Hn.
  + unfold ret. intros E. inversion E; subst. right. auto.
  + unfold bind, msleep, emit.
    destruct (hm3301_do_cmd_reset _) as [[r1 w2]|]; [|discriminate].
    destruct (negb (r1 =? 0)); unfold emit, ret; intros E; inversion E;
      left; reflexivity.
- intros val len w r w'. unfold start_cleaning_store.
  destruct val as [v|]; [|intros E; inversion E; right; unfold EINVAL; lia].
  destruct (negb (v =? 1));
    [intros E; inversion E; right; unfold EINVAL; lia|].
  unfold bind.
  destruct (hm3301_do_cmd _ _ _ w) as [[[r0 d] w1]|] eqn:Hc;
    [|discriminate].
  apply do_cmd_ret in Hc.
  destruct (negb (r0 =? 0)) eqn:Hn; unfold ret; intros E; inversion E;
    subst; [right|left]; auto.
- intros w e w'. unfold cleaning_period_show, bind at 1.
  destruct (hm3301_do_cmd _ _ _ w) as [[[r0 d] w1]|] eqn:Hc;
    [|discriminate].
  apply do_cmd_ret in Hc.
  destruct (negb (r0 =? 0)) eqn:Hn.
  + unfold ret. intros E. inversion E; subst. auto.
  + unfold bind, lift, ret. destruct (get_unaligned_be32 d); intros E;
      inversion E.
Qed.

End ReturnValues.

Lemma operations_ret_witness : - ETIMEDOUT <= 0.
Proof.
  apply (proj1 (proj2 operations_ret) [0; 0; 0; 0] 4
           (mk_state idle_sensor RESET [])
           (- ETIMEDOUT) [0; 0; 0; 0]
           (mk_state [(2, []); (3, framed [0x00; 0x00])] MEASURING
              ([I2cSend start_frame] ++ concat (repeat poll_events 5)))).
  vm_compute. reflexivity.
Defined.

(** ** Framing and decoding, for every read *)

Section ReadRoundTrip.

Context {Bus : Type} `{I2C Bus}.

(** A read command of an even size up to 32, from what the adapter
  answers: a command that is not sent, or a response that is not received
  in full, gives the transfer's error with [data] unchanged; a response
  that is the payload as the sensor frames it gives 0 with exactly the
  payload at the start of [data]: decoding undoes the framing. *)
Theorem read_command_outcome (cmd : Z) (j : nat) (data : list Z)
  (w : hm3301_state Bus) (r : Z) (bus : Bus) :
is_read_cmd cmd = true ->
(j <= 16)%nat -> (2 * j <= length data)%nat ->
i2c_master_send (client w) (read_frame cmd) = (r, bus) ->
let size := 2 * Z.of_nat j in
let count := 3 * Z.of_nat j in
(r <> 2 ->
 hm3301_do_cmd cmd data size w
 = Some ((errno_of r, data), after w bus [I2cSend (read_frame cmd)]))
/\ (r = 2 ->
    forall r' bytes bus',
      i2c_master_recv bus count = (r', bytes, bus') ->
      (r' <> count ->
       hm3301_do_cmd cmd data size w
       = Some ((errno_of r', data),
               after w bus' [I2cSend (read_frame cmd); I2cRecv count]))
      /\ (r' = count ->
          forall payload,
            length payload = (2 * j)%nat -> bytes = framed payload ->
            hm3301_do_cmd cmd data size w
            = Some ((0, payload ++ skipn (2 * j) data),
                    after w bus'
                      [I2cSend (read_frame cmd); I2cRecv count]))).
Proof.
intros Hread Hj Hdata Hsend size count. split.
- intros Hr.
  exact (do_cmd_read_send_failure cmd data size w r bus Hread Hsend Hr).
- intros -> r' bytes bus' Hrecv. split.
  + intros Hr'.
    assert (Hinfl : size + Z.quot size 2 = count).
    { subst size count.
      replace (2 * Z.of_nat j) with (Z.of_nat j * 2) by lia.
      rewrite Z.quot_mul by lia. lia. }
    assert (Htrips : loop_trips count = j).
    { subst count. unfold loop_trips.
      replace ((3 * Z.of_nat j + 2) / 3) with (Z.of_nat j); [lia|].
      apply (Z.div_unique _ 3 _ 2); lia. }
    pose proof (do_cmd_read cmd data size w 2 bus r' bytes bus' Hread)
      as Hcmd.
    cbv zeta in Hcmd. rewrite Hinfl, Htrips in Hcmd.
    rewrite (Hcmd ltac:(subst size; lia)
               ltac:(unfold HM3301_MAX_READ_SIZE; subst count; lia)
               Hdata Hsend Hrecv).
    change (2 =? 2) with true. cbv iota.
    replace (r' =? count) with false
      by (symmetry; apply Z.eqb_neq; exact Hr').
    reflexivity.
  + intros -> payload Hlen ->.
    exact (do_cmd_read_unframes cmd j payload data w bus bus' Hread Hj
             Hlen Hdata Hsend Hrecv).
Qed.

End ReadRoundTrip.

Lemma read_command_outcome_witness :
  let w := mk_state ([(2, []); (48, framed (repeat 0x41 32%nat))] : script)
                    RESET [] in
  let size := 2 * Z.of_nat 16 in
  let count := 3 * Z.of_nat 16 in
  (2 <> 2 ->
   hm3301_do_cmd HM3301_READ_SERIAL (repeat 0 32%nat) size w
   = Some ((errno_of 2, repeat 0 32%nat),
           after w [(48, framed (repeat 0x41 32%nat))]
                 [I2cSend (read_frame HM3301_READ_SERIAL)]))
  /\ (2 = 2 ->
      forall r' bytes bus',
        i2c_master_recv [(48, framed (repeat 0x41 32%nat))] count
        = (r', bytes, bus') ->
        (r' <> count ->
         hm3301_do_cmd HM3301_READ_SERIAL (repeat 0 32%nat) size w
         = Some ((errno_of r', repeat 0 32%nat),
                 after w bus' [I2cSend (read_frame HM3301_READ_SERIAL);
                               I2cRecv count]))
        /\ (r' = count ->
            forall payload,
              length payload = (2 * 16)%nat -> bytes = framed payload ->
              hm3301_do_cmd HM3301_READ_SERIAL (repeat 0 32%nat) size w
              = Some ((0, payload ++ skipn (2 * 16) (repeat 0 32%nat)),
                      after w bus'
                        [I2cSend (read_frame HM3301_READ_SERIAL);
                         I2cRecv count]))).
Proof.
  intros w size count.
  apply (@read_command_outcome script script_I2C HM3301_READ_SERIAL 16
           (repeat 0 32%nat) w 2 [(48, framed (repeat 0x41 32%nat))]);
    [reflexivity|lia|simpl; lia|reflexivity].
Defined.

(** ** Probe and the cleaning controls *)

Section ProbeAndCleaning.

Context {Bus : Type} `{I2C Bus}.


(** [start_cleaning_store] refuses everything but the value 1 with
  [-EINVAL] before any transfer; for 1 it sends the fan cleaning command
  and returns [len], or the error of the transfer. *)
Theorem start_cleaning_store_outcome (val : option Z) (len : Z)
  (w : hm3301_state Bus) :
(val <> Some 1 -> start_cleaning_store val len w = Some (- EINVAL, w))
/\ (val = Some 1 ->
    forall r bus,
      i2c_master_send (client w) [0x56; 0x07] = (r, bus) ->
      start_cleaning_store val len w
      = Some (if r =? 2 then len else errno_of r,
              after w bus [I2cSend [0x56; 0x07]])).
Proof.
split.
- intros Hval. unfold start_cleaning_store.
  destruct val as [v|]; [|reflexivity].
  replace (v =? 1) with false; [reflexivity|].
  symmetry. apply Z.eqb_neq. intros ->. apply Hval. reflexivity.
- intros -> r bus Hsend. unfold start_cleaning_store.
  change (negb (1 =? 1)) with false. cbv iota. unfold bind.
  rewrite (do_cmd_plain HM3301_START_FAN_CLEANING NULL 0 w r bus
             eq_refl Hsend).
  change (loop_trips 0) with O. cbv iota.
  destruct (r =? 2).
  + reflexivity.
  + rewrite errno_of_nonzero. reflexivity.
Qed.

(** [cleaning_period_show] prints the four data bytes of a correctly
  framed response as one big-endian number, as a signed [int], and
  returns the error of a refused command without receiving. *)
Theorem cleaning_period_show_outcome (w : hm3301_state Bus) (r : Z)
  (bus : Bus) :
i2c_master_send (client w) [0x80; 0x04] = (r, bus) ->
(r <> 2 ->
 cleaning_period_show w
 = Some (inl (errno_of r), after w bus [I2cSend [0x80; 0x04]]))
/\ (r = 2 ->
    forall b0 b1 b2 b3 bus',
      i2c_master_recv bus 6 = (6, framed [b0; b1; b2; b3], bus') ->
      cleaning_period_show w
      = Some (inr (s32 (Z.lor (Z.shiftl b0 24)
                          (Z.lor (Z.shiftl b1 16)
                             (Z.lor (Z.shiftl b2 8) b3)))),
              after w bus' [I2cSend [0x80; 0x04]; I2cRecv 6])).
Proof.
intros Hsend. split.
- intros Hr. unfold cleaning_period_show, bind.
  rewrite (do_cmd_read_send_failure HM3301_READ_AUTO_CLEANING_PERIOD _ 4
             w r bus eq_refl Hsend Hr).
  rewrite errno_of_nonzero. reflexivity.
- intros -> b0 b1 b2 b3 bus' Hrecv. unfold cleaning_period_show, bind.
  rewrite (do_cmd_read_period b0 b1 b2 b3 (repeat 0 4%nat) w bus bus'
             eq_refl Hsend Hrecv).
  reflexivity.
Qed.

End ProbeAndCleaning.


Lemma start_cleaning_store_outcome_witness :
  start_cleaning_store (Some 0) 2 (mk_state [(2, [])] MEASURING [])
  = Some (- EINVAL, mk_state [(2, [])] MEASURING []).
Proof.
  apply (proj1 (@start_cleaning_store_outcome script script_I2C (Some 0) 2
                  (mk_state [(2, [])] MEASURING []))).
  discriminate.
Defined.

Lemma cleaning_period_show_outcome_witness :
  cleaning_period_show (mk_state [(-6, [])] RESET [])
  = Some (inl (errno_of (-6)),
          after (mk_state [(-6, [])] RESET []) []
                [I2cSend [0x80; 0x04]]).
Proof.
  apply (proj1 (@cleaning_period_show_outcome script script_I2C
                  (mk_state [(-6, [])] RESET []) (-6) [] eq_refl)).
  discriminate.
Defined.

(** ** The samples of a measurement *)

Lemma s32_mod (x : Z) : s32 (x mod 2 ^ 32) = s32 x.
Proof. unfold s32. f_equal. apply Z.add_mod_idemp_l. lia. Qed.

Lemma float_decoder_bounded (fp : list Z) (v : Z) :
  float_to_int_clamped fp = Some v -> 0 <= v <= 300000.
Proof.
  intros Hv. destruct (get_unaligned_be32 fp) as [be|] eqn:Hget.
  - assert (Hb : 0 <= be mod 2 ^ 32 < 2 ^ 32) by (apply Z.mod_pos_bound; lia).
    pose proof (get_put_unaligned_be32 _ Hb) as Hput.
    assert (Hsame : float_to_int_clamped (put_unaligned_be32 (be mod 2 ^ 32))
                    = Some v).
    { rewrite <- Hv. unfold float_to_int_clamped, float_to_int_clamped_on.
      rewrite Hget, Hput, s32_mod. reflexivity. }
    remember (be mod 2 ^ 32) as bits eqn:Hbits.
    assert (Hdec : bits = 0
                   \/ (0 < bits
                       /\ bits < 2 ^ 31 /\ -31 <= f32_exponent bits <= 23)
                   \/ (0 < bits
                       /\ ~ (bits < 2 ^ 31
                             /\ -31 <= f32_exponent bits <= 23))) by lia.
    destruct Hdec as [E|[(Hpos & Hsign & He)|[Hpos Hout]]].
    + rewrite E in Hput, Hsame.
      rewrite (float_decoder_zero _ Hput) in Hsame.
      inversion Hsame. lia.
    + destruct (float_decoder_inside _ bits Hput ltac:(lia) He)
        as (v' & Hv' & Hr).
      rewrite Hv' in Hsame. inversion Hsame; subst. exact Hr.
    + rewrite (float_decoder_outside _ bits Hput ltac:(lia) Hout) in Hsame.
      discriminate.
  - unfold float_to_int_clamped, float_to_int_clamped_on in Hv.
    rewrite Hget in Hv. discriminate.
Qed.

Lemma upd_nat_spec (buf : list Z) : forall (i : nat) (v : Z) buf',
  upd_nat buf i v = Some buf' ->
  length buf' = length buf
  /\ nth_error buf' i = Some v
  /\ forall j, j <> i -> nth_error buf' j = nth_error buf j.
Proof.
  induction buf as [|h t IH]; intros i v buf'; cbn [upd_nat].
  - discriminate.
  - destruct i as [|i].
    + intros E. inversion E. repeat split.
      intros [|j] Hj; [contradiction|reflexivity].
    + destruct (upd_nat t i v) as [t'|] eqn:Ht; [|discriminate].
      intros E. inversion E. destruct (IH i v t' Ht) as (Hlen & Hat & Hoth).
      repeat split.
      * cbn [length]. rewrite Hlen. reflexivity.
      * exact Hat.
      * intros [|j] Hj; [reflexivity|]. apply Hoth. congruence.
Qed.

Lemma upd_nat_defined (buf : list Z) : forall (i : nat) (v : Z),
  (i < length buf)%nat <-> upd_nat buf i v <> None.
Proof.
  induction buf as [|h t IH]; intros i v; cbn [upd_nat length].
  - split; [lia|congruence].
  - destruct i as [|i].
    + split; [discriminate|lia].
    + specialize (IH i v). destruct (upd_nat t i v).
      * split; [discriminate|]. intros _.
        apply -> Nat.succ_lt_mono. apply IH. discriminate.
      * split; [|congruence]. intros Hlt. exfalso.
        apply (proj1 IH); [lia|reflexivity].
Qed.

Lemma wr_spec (buf : list Z) (i v : Z) (buf' : list Z) :
  wr buf i v = Some buf' ->
  length buf' = length buf
  /\ rd buf' i = Some v
  /\ forall j, j <> i -> rd buf' j = rd buf j.
Proof.
  unfold wr, rd. destruct (Z.ltb_spec i 0) as [|Hi]; [discriminate|].
  intros E. destruct (upd_nat_spec _ _ _ _ E) as (Hlen & Hat & Hoth).
  repeat split; [exact Hlen|exact Hat|].
  intros j Hj. destruct (j <? 0) eqn:Hneg; [reflexivity|].
  apply Z.ltb_ge in Hneg. apply Hoth. lia.
Qed.

Lemma wr_same_length (a b : list Z) (i v : Z) :
  length a = length b -> (wr a i v = None <-> wr b i v = None).
Proof.
  intros Hlen. unfold wr. destruct (i <? 0); [tauto|].
  pose proof (upd_nat_defined a (Z.to_nat i) v) as Ha.
  pose proof (upd_nat_defined b (Z.to_nat i) v) as Hb.
  rewrite Hlen in Ha.
  destruct (upd_nat a _ v), (upd_nat b _ v).
  - split; discriminate.
  - exfalso. apply (proj1 Hb); [apply Ha; discriminate|reflexivity].
  - exfalso. apply (proj1 Ha); [apply Hb; discriminate|reflexivity].
  - tauto.
Qed.

Lemma rd_ext (a b : list Z) :
  (forall k, 0 <= k -> rd a k = rd b k) -> a = b.
Proof.
  intros Hrd. apply nth_error_ext. intros n.
  specialize (Hrd (Z.of_nat n) ltac:(lia)). unfold rd in Hrd.
  destruct (Z.ltb_spec (Z.of_nat n) 0); [lia|].
  rewrite Nat2Z.id in Hrd. exact Hrd.
Qed.

Section Samples.

Context {Bus : Type} `{I2C Bus}.

(** What the decoding loop leaves in [data]: entries [i .. i + n - 1] are
  the decoded channels, the others are as before. *)
Lemma decode_channels_spec (n : nat) : forall tmp i data data',
0 <= i ->
decode_channels n tmp i data = Some data' ->
length data' = length data
/\ (forall k, i <= k < i + Z.of_nat n ->
      exists v, rd data' k = Some v
                /\ float_to_int_clamped (skipn (Z.to_nat (4 * k)) tmp)
                   = Some v)
/\ (forall k, k < i \/ i + Z.of_nat n <= k -> rd data' k = rd data k).
Proof.
induction n as [|n IH]; intros tmp i data data' Hi; cbn [decode_channels].
- intros E. inversion E. split; [reflexivity|split]; intros; [lia|reflexivity].
- destruct (float_to_int_clamped _) as [v|] eqn:Hv; [|discriminate].
  destruct (wr data i v) as [data1|] eqn:Hwr; [|discriminate].
  intros E. destruct (wr_spec _ _ _ _ Hwr) as (Hlen1 & Hat1 & Hoth1).
  destruct (IH tmp (i + 1) data1 data' ltac:(lia) E)
    as (Hlen & Hin & Hout).
  split; [|split].
  + congruence.
  + intros k Hk. destruct (Z.eq_dec k i) as [->|Hne].
    * exists v. split; [|exact Hv].
      rewrite Hout by lia. exact Hat1.
    * apply Hin. lia.
  + intros k Hk. rewrite Hout by lia. apply Hoth1. lia.
Qed.

(** Whether the decoding loop stays inside [data] depends on the length
  of [data] only. *)
Lemma decode_channels_same_length (n : nat) : forall tmp i a b,
length a = length b ->
(decode_channels n tmp i a = None <-> decode_channels n tmp i b = None).
Proof.
induction n as [|n IH]; intros tmp i a b Hlen; cbn [decode_channels].
- split; discriminate.
- destruct (float_to_int_clamped _) as [v|]; [|tauto].
  pose proof (wr_same_length a b i v Hlen) as Hwr.
  destruct (wr a i v) as [a1|] eqn:Ha, (wr b i v) as [b1|] eqn:Hb;
    try tauto.
  + apply IH.
    destruct (wr_spec _ _ _ _ Ha) as (-> & _).
    destruct (wr_spec _ _ _ _ Hb) as (-> & _). exact Hlen.
  + exfalso. assert (Some a1 = None) by (apply Hwr; reflexivity).
    discriminate.
  + exfalso. assert (Some b1 = None) by (apply Hwr; reflexivity).
    discriminate.
Qed.

(** [hm3301_do_meas] touches [data] only in its decoding loop: up to
  there, what it does is the same for every [data]. *)
Lemma do_meas_poll_and_read_cases (size : Z) (w : hm3301_state Bus) :
(exists r w', r < 0
   /\ forall d, do_meas_poll_and_read d size w = Some ((r, d), w'))
\/ (exists tmp w',
      forall d, do_meas_poll_and_read d size w
                = match decode_channels (Z.to_nat size) tmp 0 d with
                  | Some d' => Some ((0, d'), w')
                  | None => None
                  end)
\/ (forall d, do_meas_poll_and_read d size w = None).
Proof.
destruct (poll_ready 5 (repeat 0 16%nat) w)
  as [[[[early left] tmp] w1]|] eqn:Hp.
- pose proof (poll_ready_ret _ _ _ _ _ _ _ Hp) as [Hearly _].
  destruct early as [e|].
  + destruct Hearly as [Hearly|Hearly]; [discriminate|].
    inversion Hearly; subst e.
    left. exists (- EIO), w1. split; [unfold EIO; lia|].
    intros d. unfold do_meas_poll_and_read, bind. cbv zeta.
    rewrite Hp. reflexivity.
  + destruct (left =? -1) eqn:Hleft.
    * left. exists (- ETIMEDOUT), w1. split; [unfold ETIMEDOUT; lia|].
      intros d. unfold do_meas_poll_and_read, bind at 1. cbv zeta.
      rewrite Hp, Hleft. reflexivity.
    * destruct (hm3301_do_cmd HM3301_READ_DATA tmp (mul32 4 size) w1)
        as [[[r0 t] w2]|] eqn:Hc.
      -- pose proof (do_cmd_ret _ _ _ _ _ _ _ Hc) as Hr0.
         destruct (negb (r0 =? 0)) eqn:Hn.
         ++ left. exists r0, w2. split.
            ** apply negb_true_iff, Z.eqb_neq in Hn. lia.
            ** intros d. unfold do_meas_poll_and_read, bind at 1.
               cbv zeta. rewrite Hp, Hleft. unfold bind at 1.
               rewrite Hc, Hn. reflexivity.
         ++ right. left. exists t, w2.
            intros d. unfold do_meas_poll_and_read, bind at 1.
            cbv zeta. rewrite Hp, Hleft. unfold bind at 1.
            rewrite Hc, Hn. unfold bind, lift, ret.
            destruct (decode_channels _ _ _ _); reflexivity.
      -- right. right.
         intros d. unfold do_meas_poll_and_read, bind at 1.
         cbv zeta. rewrite Hp, Hleft. unfold bind at 1.
         rewrite Hc. reflexivity.
- right. right. intros d. unfold do_meas_poll_and_read, bind. cbv zeta.
  rewrite Hp. reflexivity.
Qed.

Lemma do_meas_cases (size : Z) (w : hm3301_state Bus) :
(exists r w', r < 0
   /\ forall d, hm3301_do_meas d size w = Some ((r, d), w'))
\/ (exists tmp w',
      forall d, hm3301_do_meas d size w
                = match decode_channels (Z.to_nat size) tmp 0 d with
                  | Some d' => Some ((0, d'), w')
                  | None => None
                  end)
\/ (forall d, hm3301_do_meas d size w = None).
Proof.
destruct (state w) eqn:Hst.
- destruct (hm3301_do_cmd HM3301_START_MEAS NULL 0 w)
    as [[[r0 t] w1]|] eqn:Hc.
  + pose proof (do_cmd_ret _ _ _ _ _ _ _ Hc) as Hr0.
    destruct (negb (r0 =? 0)) eqn:Hn.
    * left. exists r0, w1. split.
      -- apply negb_true_iff, Z.eqb_neq in Hn. lia.
      -- intros d. unfold hm3301_do_meas, bind at 1, get_state.
         rewrite Hst. unfold bind at 1 2. rewrite Hc, Hn. reflexivity.
    * assert (Hgo : forall d,
                 hm3301_do_meas d size w
                 = do_meas_poll_and_read d size
                     (mk_state (client w1) MEASURING (trace w1))).
      { intros d. unfold hm3301_do_meas, bind at 1, get_state.
        rewrite Hst. unfold bind at 1 2. rewrite Hc, Hn. reflexivity. }
      destruct (do_meas_poll_and_read_cases size
                  (mk_state (client w1) MEASURING (trace w1)))
        as [(r & w' & Hr & Hd)|[(tmp & w' & Hd)|Hd]].
      -- left. exists r, w'. split; [exact Hr|].
         intros d. rewrite Hgo. apply Hd.
      -- right. left. exists tmp, w'. intros d. rewrite Hgo. apply Hd.
      -- right. right. intros d. rewrite Hgo. apply Hd.
  + right. right. intros d. unfold hm3301_do_meas, bind at 1, get_state.
    rewrite Hst. unfold bind at 1 2. rewrite Hc. reflexivity.
- assert (Hgo : forall d,
             hm3301_do_meas d size w = do_meas_poll_and_read d size w).
  { intros d. unfold hm3301_do_meas, bind at 1, get_state.
    rewrite Hst. reflexivity. }
  destruct (do_meas_poll_and_read_cases size w)
    as [(r & w' & Hr & Hd)|[(tmp & w' & Hd)|Hd]].
  + left. exists r, w'. split; [exact Hr|].
    intros d. rewrite Hgo. apply Hd.
  + right. left. exists tmp, w'. intros d. rewrite Hgo. apply Hd.
  + right. right. intros d. rewrite Hgo. apply Hd.
Qed.

(** A measurement that returns 0 has stored a value from 0 to 300000 in
  each of the first [size] entries of [data] and has left the other
  entries as they were; every other return value is negative and comes
  with [data] as it was. *)
Theorem measurement_samples (data : list Z) (size : Z)
  (w : hm3301_state Bus) (r : Z) (data' : list Z)
  (w' : hm3301_state Bus) :
hm3301_do_meas data size w = Some ((r, data'), w') ->
(r < 0 /\ data' = data)
\/ (r = 0
    /\ length data' = length data
    /\ (forall k, 0 <= k < size ->
          exists v, rd data' k = Some v /\ 0 <= v <= 300000)
    /\ (forall k, size <= k -> rd data' k = rd data k)).
Proof.
intros Hrun.
destruct (do_meas_cases size w) as [(e & w1 & He & Hd)|[(tmp & w1 & Hd)|Hd]];
  rewrite Hd in Hrun.
- inversion Hrun; subst. left. auto.
- destruct (decode_channels _ _ _ _) as [d|] eqn:Hdec; [|discriminate].
  inversion Hrun; subst r d w1. right.
  destruct (decode_channels_spec _ _ _ _ _ (Z.le_refl 0) Hdec)
    as (Hlen & Hin & Hout).
  split; [reflexivity|split; [exact Hlen|split]].
  + intros k Hk. destruct (Hin k ltac:(lia)) as (v & Hv & Hfloat).
    exists v. split; [exact Hv|].
    exact (float_decoder_bounded _ _ Hfloat).
  + intros k Hk. destruct (Z.lt_ge_cases k 0) as [Hneg|Hpos].
    * unfold rd.
      replace (k <? 0) with true by (symmetry; apply Z.ltb_lt; lia).
      reflexivity.
    * apply Hout. right. lia.
- discriminate.
Qed.

End Samples.

Lemma measurement_samples_witness :
  (0 < 0 /\ [1234; 0] = [7; 7])
  \/ (0 = 0
      /\ length [1234; 0] = length [7; 7]
      /\ (forall k, 0 <= k < 2 ->
            exists v, rd [1234; 0] k = Some v /\ 0 <= v <= 300000)
      /\ (forall k, 2 <= k -> rd [1234; 0] k = rd [7; 7] k)).
Proof.
  eapply (@measurement_samples script script_I2C [7; 7] 2
            (mk_state [(5, []); (2, []); (3, framed [0; 1]);
                       (2, []); (12, framed (firstn 8 example_channels))]
                      RESET [])).
  vm_compute. reflexivity.
Defined.

(** ** The host framework's entry points *)

Lemma rd_beyond (l : list Z) (k : Z) :
  Z.of_nat (length l) <= k -> rd l k = None.
Proof.
  intros Hk. unfold rd. destruct (Z.ltb_spec k 0); [reflexivity|].
  apply nth_error_None. lia.
Qed.


Section HostCalls.

Context {Bus : Type} `{I2C Bus}.

(** Two runs of the decoding loop on arrays of one length fail together
  or agree on the entries they write. *)
Lemma decode_channels_agree (n : nat) (tmp a b : list Z) :
length a = length b ->
match decode_channels n tmp 0 a, decode_channels n tmp 0 b with
| Some a', Some b' =>
    length a' = length b'
    /\ forall k, 0 <= k < Z.of_nat n -> rd a' k = rd b' k
| None, None => True
| _, _ => False
end.
Proof.
intros Hlen.
pose proof (decode_channels_same_length n tmp 0 a b Hlen) as Hdef.
destruct (decode_channels n tmp 0 a) as [a'|] eqn:Ha,
         (decode_channels n tmp 0 b) as [b'|] eqn:Hb.
- destruct (decode_channels_spec _ _ _ _ _ (Z.le_refl 0) Ha)
    as (Hla & Hina & _).
  destruct (decode_channels_spec _ _ _ _ _ (Z.le_refl 0) Hb)
    as (Hlb & Hinb & _).
  split; [congruence|]. intros k Hk.
  destruct (Hina k ltac:(lia)) as (va & -> & Hfa).
  destruct (Hinb k ltac:(lia)) as (vb & -> & Hfb).
  congruence.
- assert (Some a' = None) by (apply Hdef; reflexivity). discriminate.
- assert (Some b' = None) by (apply Hdef; reflexivity). discriminate.
- exact I.
Qed.

(** A loop that writes every entry leaves nothing of the array it
  started from. *)
Lemma decode_channels_full (n : nat) (tmp a b : list Z) :
length a = n -> length b = n ->
decode_channels n tmp 0 a = decode_channels n tmp 0 b.
Proof.
intros Hla Hlb.
pose proof (decode_channels_agree n tmp a b ltac:(congruence)) as Hag.
destruct (decode_channels n tmp 0 a) as [a'|] eqn:Ha,
         (decode_channels n tmp 0 b) as [b'|] eqn:Hb;
  try contradiction; [|reflexivity].
destruct Hag as (Hlen & Hag). f_equal. apply rd_ext. intros k Hk.
destruct (Z.lt_ge_cases k (Z.of_nat n)) as [Hlt|Hge].
- apply Hag. lia.
- destruct (decode_channels_spec _ _ _ _ _ (Z.le_refl 0) Ha) as (Hl & _).
  destruct (decode_channels_spec _ _ _ _ _ (Z.le_refl 0) Hb) as (Hl' & _).
  rewrite !rd_beyond by lia. reflexivity.
Qed.



(** [hm3301_trigger_handler] always returns [IRQ_HANDLED].  It pushes a
  scan exactly when the measurement of all four channels returned 0, with
  the time stamp it was given, and every sample of the scan fits the
  [realbits] of its channel. *)
Theorem trigger_handler_scan (data : list Z) (ts : Z)
  (w : hm3301_state Bus) (irq : Z) (scan : option (list Z * Z))
  (w' : hm3301_state Bus) :
hm3301_trigger_handler data ts w = Some ((irq, scan), w') ->
irq = IRQ_HANDLED
/\ match scan with
   | Some (d, t) =>
       t = ts /\ length d = length data
       /\ hm3301_do_meas data 4 w = Some ((0, d), w')
       /\ forall chan,
            In chan hm3301_channels ->
            chan_type chan = IIO_MASSCONCENTRATION ->
            exists s, rd d (scan_index chan) = Some s
                      /\ 0 <= s < 2 ^ realbits chan
   | None =>
       exists r, r < 0 /\ hm3301_do_meas data 4 w = Some ((r, data), w')
   end.
Proof.
unfold hm3301_trigger_handler, bind.
destruct (do_meas_cases 4 w) as [(e & w2 & He & Hd)|[(tmp & w2 & Hd)|Hd]];
  rewrite !Hd.
- replace (negb (e =? 0)) with true
    by (symmetry; apply negb_true_iff, Z.eqb_neq; lia).
  unfold ret. intros E. inversion E; subst. split; [reflexivity|].
  exists e. auto.
- destruct (decode_channels _ _ _ _) as [d|] eqn:Hdec; [|discriminate].
  change (negb (0 =? 0)) with false. cbv iota.
  unfold ret. intros E. inversion E; subst. split; [reflexivity|].
  destruct (decode_channels_spec _ _ _ _ _ (Z.le_refl 0) Hdec)
    as (Hlen & Hin & _).
  repeat split; [exact Hlen|].
  intros chan Hchan Htype.
  assert (Hidx : 0 <= scan_index chan < 4 /\ realbits chan = 19).
  { cbn [hm3301_channels In] in Hchan.
    destruct Hchan as [<-|[<-|[<-|[<-|[<-|[]]]]]];
      try discriminate Htype; cbn; lia. }
  destruct Hidx as (Hidx & ->).
  destruct (Hin (scan_index chan) ltac:(lia)) as (s & Hrd & Hfloat).
  pose proof (float_decoder_bounded _ _ Hfloat).
  exists s. split; [exact Hrd|]. change (2 ^ 19) with 524288. lia.
- discriminate.
Qed.

(** Neither entry point lets what its local array held before the call
  show: for every channel of the driver [hm3301_read_raw] reads only
  entries the measurement has written, and the scan that
  [hm3301_trigger_handler] pushes is written in full. *)
Theorem stack_contents_ignored (d1 d2 : list Z) :
length d1 = 4%nat -> length d2 = 4%nat ->
(forall chan val val2 mask (w : hm3301_state Bus),
    In chan hm3301_channels ->
    hm3301_read_raw d1 chan val val2 mask w
    = hm3301_read_raw d2 chan val val2 mask w)
/\ (forall ts (w : hm3301_state Bus),
       hm3301_trigger_handler d1 ts w = hm3301_trigger_handler d2 ts w).
Proof.
intros Hl1 Hl2. split.
- intros chan val val2 mask w Hchan.
  assert (Hproc : forall addr,
             0 <= addr ->
             ('(r, data) <~ hm3301_do_meas d1 (addr + 1) ;;
              if negb (r =? 0) then ret (r, val, val2) else
              sample <~ lift (rd data addr) ;;
              ret (IIO_VAL_INT_PLUS_MICRO,
                   Z.quot sample 100, mul32 (Z.rem sample 100) 10000)) w
             = ('(r, data) <~ hm3301_do_meas d2 (addr + 1) ;;
                if negb (r =? 0) then ret (r, val, val2) else
                sample <~ lift (rd data addr) ;;
                ret (IIO_VAL_INT_PLUS_MICRO,
                     Z.quot sample 100,
                     mul32 (Z.rem sample 100) 10000)) w).
  { intros addr Haddr. unfold bind at 1 3.
    destruct (do_meas_cases (addr + 1) w)
      as [(e & w2 & He & Hd)|[(tmp & w2 & Hd)|Hd]];
      rewrite !Hd; [| |reflexivity].
    - replace (negb (e =? 0)) with true
        by (symmetry; apply negb_true_iff, Z.eqb_neq; lia).
      reflexivity.
    - pose proof (decode_channels_agree (Z.to_nat (addr + 1)) tmp d1 d2
                    ltac:(congruence)) as Hag.
      destruct (decode_channels _ _ _ d1) as [a|],
               (decode_channels _ _ _ d2) as [b|];
        try contradiction; [|reflexivity].
      destruct Hag as (_ & Hag).
      change (negb (0 =? 0)) with false. cbv iota.
      unfold bind, lift. rewrite (Hag addr) by lia. reflexivity. }
  cbn [hm3301_channels In] in Hchan.
  destruct Hchan as [<-|[<-|[<-|[<-|[<-|[]]]]]]; destruct mask;
    unfold hm3301_read_raw, HM3301_CHAN;
    cbn [chan_type channel2 address]; try reflexivity.
  + apply (Hproc PM1). unfold PM1. lia.
  + apply (Hproc PM2P5). unfold PM2P5. lia.
  + apply (Hproc PM4). unfold PM4. lia.
  + apply (Hproc PM10). unfold PM10. lia.
- intros ts w. unfold hm3301_trigger_handler, bind.
  destruct (do_meas_cases 4 w)
    as [(e & w2 & He & Hd)|[(tmp & w2 & Hd)|Hd]];
    rewrite !Hd; [| |reflexivity].
  + replace (negb (e =? 0)) with true
      by (symmetry; apply negb_true_iff, Z.eqb_neq; lia).
    reflexivity.
  + rewrite (decode_channels_full (Z.to_nat 4) tmp d1 d2 Hl1 Hl2).
    reflexivity.
Qed.

End HostCalls.


Lemma trigger_handler_scan_witness :
  let w := mk_state ([(2, []); (3, framed [0; 1]); (2, []);
                      (24, framed example_channels)] : script)
                    MEASURING [] in
  let w' := mk_state ([] : script) MEASURING
              [I2cSend [0x02; 0x02]; I2cRecv 3;
               I2cSend [0x03; 0x00]; I2cRecv 24] in
  1 = IRQ_HANDLED
  /\ (99 = 99 /\ length [1234; 0; 300000; 4559] = length [7; 7; 7; 7]
      /\ hm3301_do_meas [7; 7; 7; 7] 4 w
         = Some ((0, [1234; 0; 300000; 4559]), w')
      /\ forall chan,
           In chan hm3301_channels ->
           chan_type chan = IIO_MASSCONCENTRATION ->
           exists s, rd [1234; 0; 300000; 4559] (scan_index chan) = Some s
                     /\ 0 <= s < 2 ^ realbits chan).
Proof.
  intros w w'.
  apply (@trigger_handler_scan script script_I2C [7; 7; 7; 7] 99 w 1
           (Some ([1234; 0; 300000; 4559], 99)) w').
  vm_compute. reflexivity.
Defined.

Lemma stack_contents_ignored_witness :
  (forall chan val val2 mask (w : hm3301_state script),
      In chan hm3301_channels ->
      hm3301_read_raw [0; 0; 0; 0] chan val val2 mask w
      = hm3301_read_raw [7; 7; 7; 7] chan val val2 mask w)
  /\ (forall ts (w : hm3301_state script),
         hm3301_trigger_handler [0; 0; 0; 0] ts w
         = hm3301_trigger_handler [7; 7; 7; 7] ts w).
Proof.
  apply (@stack_contents_ignored script script_I2C [0; 0; 0; 0]
           [7; 7; 7; 7]); reflexivity.
Defined.
